(** * Bastion tunnel session manager (adsops-utils, scripts/python)

    A shallow embedding of [common.py], of [backend_sessions.py] and of
    the listing commands, [connect_session] and [delete_session] of
    [bastion.py], with the properties of the tunnel registry, the tunnel
    launcher, the session client, the orchestrating helpers, the listing
    commands and the command line proved on it.  Of [bastion.py],
    [get_bastion], the two commands that create a session and [main] are
    left out.

    The scripts are sequential Python that talks to four outside parties:
    the [oci] command line client, the process table of the host, the files
    of [TUNNEL_DIR] and the terminal.  They are embedded as functions of a
    state-and-exception monad over a [World]; what the outside parties
    answer is fixed by an [Env].  Everything a script does to the outside
    is appended to the [trace] of the world. *)

From Stdlib Require Import ZArith List String Ascii Bool Lia.
From stdpp Require Import base option list gmap strings fin_maps pretty.

Local Open Scope Z_scope.
Local Open Scope string_scope.

Set Warnings "-register-all".

(* ===================================================================== *)
(** ** The Python values the scripts handle *)
(* ===================================================================== *)

Module Py.

(** What [json.loads] returns.  [JNull] is Python's [None]; numbers are the
    integers (no script reads a fractional field). *)
Inductive Json : Type :=
| JNull
| JBool (b : bool)
| JNum (n : Z)
| JStr (s : string)
| JArr (xs : list Json)
| JObj (kv : list (string * Json)).

(** The error numbers behind the [OSError]s met here: no such process
    ([ProcessLookupError]), not permitted ([PermissionError]), no such file
    ([FileNotFoundError]), access denied. *)
Inductive Errno : Type := ESRCH | EPERM | ENOENT | EACCES.

(** The exceptions that can leave a function of the scripts. *)
Inductive Exn : Type :=
| SystemExit (code : Z)
| CalledProcessError
| TypeError
| KeyError (key : string)
| AttributeError
| EOFError
| OSError (errno : Errno).

(** An f-string is kept as its template: the literal parts and what is
    interpolated between them, in order: a value, or a caught exception
    (whose message is what gets printed). *)
Inductive Piece : Type :=
| Lit (s : string)
| Val (j : Json)
| Exc (x : Exn).

Definition Text := list Piece.

Definition txt (s : string) : Text := [Lit s].

(** How a call ends: it returns, it raises, or the process image has been
    replaced ([os.execvp]) and nothing of the script runs any more. *)
Inductive Res (A : Type) : Type :=
| Ok (a : A)
| Raise (x : Exn)
| Replaced.

Arguments Ok {A} a.
Arguments Raise {A} x.
Arguments Replaced {A}.

(** [bool(x)] *)
Definition truthy (j : Json) : bool :=
  match j with
  | JNull => false
  | JBool b => b
  | JNum n => negb (Z.eqb n 0)
  | JStr s => negb (String.eqb s "")
  | JArr xs => match xs with [] => false | _ => true end
  | JObj kv => match kv with [] => false | _ => true end
  end.

Definition str_truthy (s : string) : bool := negb (String.eqb s "").

(** [d.get(k)] on the pairs of a parsed object. *)
Fixpoint dict_get (k : string) (kv : list (string * Json)) : option Json :=
  match kv with
  | [] => None
  | (k', v) :: rest => if String.eqb k k' then Some v else dict_get k rest
  end.

(** [sub in s] on strings. *)
Fixpoint str_contains (sub s : string) : bool :=
  String.prefix sub s ||
  match s with
  | EmptyString => false
  | String _ s' => str_contains sub s'
  end.

Definition is_str (k : string) (j : Json) : bool :=
  match j with
  | JStr s => String.eqb k s
  | _ => false
  end.

(** [k in x], for a string [k]: key of a dict, element of a list, substring
    of a string; anything else is not iterable. *)
Definition py_in (k : string) (x : Json) : Exn + bool :=
  match x with
  | JObj kv => inr (bool_decide (is_Some (dict_get k kv)))
  | JArr xs => inr (existsb (is_str k) xs)
  | JStr s => inr (str_contains k s)
  | JNull | JBool _ | JNum _ => inl TypeError
  end.

(** [x[k]], for a string [k]: only a dict can be indexed by a string. *)
Definition py_getitem (x : Json) (k : string) : Exn + Json :=
  match x with
  | JObj kv =>
      match dict_get k kv with
      | Some v => inr v
      | None => inl (KeyError k)
      end
  | _ => inl TypeError
  end.

(** [x.get(k, default)]: a method of dicts only. *)
Definition py_get (x : Json) (k : string) (default : Json) : Exn + Json :=
  match x with
  | JObj kv => inr (match dict_get k kv with Some v => v | None => default end)
  | _ => inl AttributeError
  end.

End Py.

(* ===================================================================== *)
(** ** The outside world: oci client, processes, files, terminal *)
(* ===================================================================== *)

Module OS.
Import Py.

Inductive Level : Type := Info | Success | Warn | Error.

(** The two signals the scripts send: [0] (the probe) and [signal.SIGTERM]. *)
Inductive Signal : Type := SIG0 | SIGTERM.

(** An entry of the process table.  A pid without entry is not running.
    [signalable] tells whether the caller may signal the process: it may
    not when the process belongs to another user.  Pids are reused by the
    system, so a process is identified by its pid together with the time
    it was [started]. *)
Record Proc : Type := {
  signalable : bool;
  started : nat
}.

(** The dict [start_tunnel] dumps into [tunnel-<local_port>.json] and
    [json.load] gives back. *)
Record TunnelData : Type := {
  pid : Z;
  session_id : Json;
  local_port : string;
  target_host : string;
  target_port : string;
  bastion_endpoint : Json
}.

(** What [subprocess.run(cmd, capture_output=True, text=True)] saw of the
    [oci] client.  The captured standard output is empty, or text that
    [json.loads] parses to a value, or text it rejects. *)
Inductive Stdout : Type :=
| OutEmpty
| OutJson (j : Json)
| OutGarbage.

Record Completed : Type := {
  returncode : Z;
  stdout : Stdout;
  stderr : string
}.

(** Everything the script does that can be observed from outside, in the
    order it happens. *)
Inductive Event : Type :=
| ELog (lvl : Level) (msg : Text)          (* log_info, log_success, ... *)
| EPrint (msg : Text)                      (* print *)
| EPrompt (msg : Text)                     (* the prompt of input() *)
| EOci (cmd : list string)                 (* subprocess.run of the oci client *)
| ESpawn (argv : list Text) (child : Z)    (* subprocess.Popen *)
| ESignal (target : Z) (sig : Signal)      (* a signal delivered by os.kill *)
| ESystem (cmd : Text)                     (* os.system *)
| ESleep (secs : Z)                        (* time.sleep *)
| EExec (argv : list Text).                (* os.execvp *)

(** The part of the world one invocation does not change: the settings read
    from the environment when the module is imported, and how the outside
    answers. *)
Record Env : Type := {
  OCI_PROFILE : string;
  BASTION_OCID : string;
  SSH_KEY : string;
  DEFAULT_TTL : Z;
  (** the answer of the [oci] client to a command, given the commands
      run before it (oldest first) *)
  oci_cli : list (list string) -> list string -> Completed;
  (** the pid and start time given to the n-th child, or the failure to
      start it *)
  popen : nat -> list Text -> option (Z * nat);
  (** whether [open(name, 'w')] in [TUNNEL_DIR] succeeds *)
  fs_create_ok : string -> bool;
  (** whether [os.execvp(file, ...)] finds and starts the program *)
  can_exec : string -> bool;
  (** [os.path.expanduser] *)
  expanduser : string -> string
}.

(** The part an invocation changes.  [files] is the content of
    [TUNNEL_DIR], by file name: the directory belongs to the tool, its
    files are the dicts [start_tunnel] dumped, and a file that is there can
    be read and removed.  [stdin] holds the lines the user will type. *)
Record World : Type := {
  files : gmap string TunnelData;
  procs : gmap Z Proc;
  stdin : list string;
  trace : list Event
}.

Definition with_files (f : gmap string TunnelData) (w : World) : World :=
  {| files := f; procs := procs w; stdin := stdin w; trace := trace w |}.
Definition with_procs (p : gmap Z Proc) (w : World) : World :=
  {| files := files w; procs := p; stdin := stdin w; trace := trace w |}.
Definition with_stdin (i : list string) (w : World) : World :=
  {| files := files w; procs := procs w; stdin := i; trace := trace w |}.
Definition with_trace (t : list Event) (w : World) : World :=
  {| files := files w; procs := procs w; stdin := stdin w; trace := t |}.

(** *** The monad *)

Definition M (A : Type) : Type := World -> Res A * World.

Definition ret {A} (a : A) : M A := fun w => (Ok a, w).

Definition bind {A B} (m : M A) (k : A -> M B) : M B :=
  fun w =>
    match m w with
    | (Ok a, w') => k a w'
    | (Raise x, w') => (Raise x, w')
    | (Replaced, w') => (Replaced, w')
    end.

Definition raise {A} (x : Exn) : M A := fun w => (Raise x, w).

(** [try: m except <handled>: h] *)
Definition try_except {A} (m : M A) (handler : Exn -> option (M A)) : M A :=
  fun w =>
    match m w with
    | (Raise x, w') =>
        match handler x with
        | Some h => h w'
        | None => (Raise x, w')
        end
    | r => r
    end.

(** A pure step that may raise. *)
Definition lift {A} (r : Exn + A) : M A :=
  match r with
  | inl x => raise x
  | inr a => ret a
  end.

Definition emit (ev : Event) : M unit :=
  fun w => (Ok tt, with_trace (trace w ++ [ev]) w).

(** [for x in xs: body x] *)
Fixpoint for_each {A} (xs : list A) (body : A -> M unit) : M unit :=
  match xs with
  | [] => ret tt
  | x :: rest => bind (body x) (fun _ => for_each rest body)
  end.

Declare Scope py_scope.
Delimit Scope py_scope with py.
Notation "x <- m ;; k" := (bind m (fun x => k))
  (at level 100, m at next level, right associativity) : py_scope.
Notation "m ;; k" := (bind m (fun _ => k))
  (at level 100, right associativity) : py_scope.
Local Open Scope py_scope.

(** The exit status the shell sees: 0 after a normal return, the code of
    [sys.exit], 1 after an exception no one caught.  After [os.execvp] the
    status is no longer the script's. *)
Definition exit_status {A} (r : Res A) : option Z :=
  match r with
  | Ok _ => Some 0
  | Raise (SystemExit c) => Some c
  | Raise _ => Some 1
  | Replaced => None
  end.

(** *** What has been done so far, read off the trace *)

Definition oci_history (t : list Event) : list (list string) :=
  omap (fun ev => match ev with EOci c => Some c | _ => None end) t.

Definition spawned (t : list Event) : list Z :=
  omap (fun ev => match ev with ESpawn _ p => Some p | _ => None end) t.

Definition signalled (t : list Event) : list (Z * Signal) :=
  omap (fun ev => match ev with ESignal p s => Some (p, s) | _ => None end) t.

Definition commands_run (t : list Event) : list Text :=
  omap (fun ev => match ev with ESystem c => Some c | _ => None end) t.

Definition printed (t : list Event) : list Text :=
  omap (fun ev => match ev with EPrint m => Some m | _ => None end) t.

Section Primitives.
Context (e : Env).

(** [subprocess.run(cmd, capture_output=True, text=True)] of the oci client *)
Definition subprocess_run (cmd : list string) : M Completed :=
  fun w =>
    (Ok (oci_cli e (oci_history (trace w)) cmd),
     with_trace (trace w ++ [EOci cmd]) w).

(** [subprocess.Popen(argv, stdout=DEVNULL, stderr=DEVNULL)]: the child is
    a process of the caller. A failure to start it is an [OSError]. *)
Definition subprocess_Popen (argv : list Text) : M Z :=
  fun w =>
    match popen e (List.length (spawned (trace w))) argv with
    | Some (child, now) =>
        (Ok child,
         with_procs (<[child := {| signalable := true; started := now |}]> (procs w))
           (with_trace (trace w ++ [ESpawn argv child]) w))
    | None => (Raise (OSError ENOENT), w)
    end.

(** [os.execvp(file, argv)]: on success nothing of the script remains; a
    failure to start the program is an [OSError]. *)
Definition os_execvp (file : string) (argv : list Text) : M unit :=
  fun w =>
    if can_exec e file
    then (Replaced, with_trace (trace w ++ [EExec argv]) w)
    else (Raise (OSError ENOENT), w).

(** [os.kill(pid, sig)]: no such process and not permitted are both
    [OSError]s ([ProcessLookupError], [PermissionError]).  A delivered
    [SIGTERM] is recorded; when the target exits is its own affair. *)
Definition os_kill (target : Z) (sig : Signal) : M unit :=
  fun w =>
    match procs w !! target with
    | Some p =>
        if signalable p then
          match sig with
          | SIG0 => (Ok tt, w)
          | SIGTERM => (Ok tt, with_trace (trace w ++ [ESignal target SIGTERM]) w)
          end
        else (Raise (OSError EPERM), w)
    | None => (Raise (OSError ESRCH), w)
    end.

(** [with open(name, 'w') as f: json.dump(data, f)] *)
Definition write_json (name : string) (data : TunnelData) : M unit :=
  fun w =>
    if fs_create_ok e name
    then (Ok tt, with_files (<[name := data]> (files w)) w)
    else (Raise (OSError EACCES), w).

(** [with open(name) as f: data = json.load(f)] *)
Definition read_json (name : string) : M TunnelData :=
  fun w =>
    match files w !! name with
    | Some d => (Ok d, w)
    | None => (Raise (OSError ENOENT), w)
    end.

(** [name.exists()] *)
Definition path_exists (name : string) : M bool :=
  fun w => (Ok (bool_decide (is_Some (files w !! name))), w).

(** [name.unlink()] *)
Definition unlink (name : string) : M unit :=
  fun w =>
    match files w !! name with
    | Some _ => (Ok tt, with_files (delete name (files w)) w)
    | None => (Raise (OSError ENOENT), w)
    end.

(** [input(prompt)]: one line of the terminal, without its newline. *)
Definition input (prompt : Text) : M string :=
  fun w =>
    match stdin w with
    | line :: rest =>
        (Ok line, with_stdin rest (with_trace (trace w ++ [EPrompt prompt]) w))
    | [] => (Raise EOFError, with_trace (trace w ++ [EPrompt prompt]) w)
    end.

Definition os_system (cmd : Text) : M unit := emit (ESystem cmd).
Definition time_sleep (secs : Z) : M unit := emit (ESleep secs).
Definition print (msg : Text) : M unit := emit (EPrint msg).
Definition sys_exit {A} (code : Z) : M A := raise (SystemExit code).

End Primitives.

End OS.

(* ===================================================================== *)
(** ** common.py *)
(* ===================================================================== *)

Module Common.
Import Py OS.
Local Open Scope py_scope.

Definition log_info (message : Text) : M unit := emit (ELog Info message).
Definition log_success (message : Text) : M unit := emit (ELog Success message).
Definition log_warn (message : Text) : M unit := emit (ELog Warn message).
Definition log_error (message : Text) : M unit := emit (ELog Error message).

(** The argument vector handed to [subprocess.run] must hold strings. *)
Definition argv_strings (args : list Json) : option (list string) :=
  mapM (fun j => match j with JStr s => Some s | _ => None end) args.

(** [str.lower] on the characters [A]..[Z]. *)
Definition lower_ascii (c : ascii) : ascii :=
  let n := nat_of_ascii c in
  if (Nat.leb 65 n && Nat.leb n 90)%bool then ascii_of_nat (n + 32) else c.

Fixpoint lower (s : string) : string :=
  match s with
  | EmptyString => EmptyString
  | String c rest => String (lower_ascii c) (lower rest)
  end.

Section WithEnv.
Context (e : Env).

Definition run_oci_command
    (args : list Json) (profile : string) (output_json check : bool) : M Json :=
  match argv_strings args with
  | None => raise TypeError
  | Some strs =>
      let cmd := (["oci"] ++ strs ++ ["--profile"; profile]
                  ++ (if output_json then ["--output"; "json"] else []))%list in
      result <- subprocess_run e cmd ;;
      if (check && negb (Z.eqb (returncode result) 0))%bool then
        (* except subprocess.CalledProcessError *)
        log_error [Lit "Command failed: "; Val (JStr (String.concat " " cmd))] ;;
        (if str_truthy (stderr result)
         then log_error [Val (JStr (stderr result))] else ret tt) ;;
        if check then raise CalledProcessError else ret JNull
      else
        if output_json then
          match stdout result with
          | OutJson j => ret j
          | OutGarbage =>
              (* except json.JSONDecodeError; the message of the decoder is
                 left out of the logged text *)
              log_error [Lit "Failed to parse JSON output: "] ;; ret JNull
          | OutEmpty => ret JNull
          end
        else ret JNull
  end.

Definition confirm_action (message : string) : M bool :=
  response <- input [Val (JStr message); Lit " (y/N): "] ;;
  ret (bool_decide (lower response ∈ ["y"; "yes"])).

End WithEnv.

End Common.

(* ===================================================================== *)
(** ** backend_sessions.py *)
(* ===================================================================== *)

Module Backend.
Import Py OS Common.
Local Open Scope py_scope.

(** [TUNNEL_DIR / f"tunnel-{local_port}.json"], as a name in [TUNNEL_DIR] *)
Definition tunnel_file (local_port : string) : string :=
  "tunnel-" +:+ local_port +:+ ".json".

Fixpoint strip_prefix (p s : string) : option string :=
  match p, s with
  | EmptyString, _ => Some s
  | String a p', String b s' =>
      if Ascii.eqb a b then strip_prefix p' s' else None
  | String _ _, EmptyString => None
  end.

Fixpoint ends_with (suffix s : string) : bool :=
  String.eqb suffix s ||
  match s with
  | EmptyString => false
  | String _ s' => ends_with suffix s'
  end.

(** The names the pattern [tunnel-*.json] matches. *)
Definition glob_match (name : string) : bool :=
  match strip_prefix "tunnel-" name with
  | Some rest => ends_with ".json" rest
  | None => false
  end.

(** [list(TUNNEL_DIR.glob("tunnel-*.json"))]; the order is the one the
    directory is listed in. *)
Definition glob_tunnels : M (list string) :=
  fun w => (Ok (filter (fun n => glob_match n = true) (map_to_list (files w)).*1), w).

(** [a or b] for an optional string [a] *)
Definition str_or (a : option string) (b : string) : string :=
  match a with
  | Some s => if str_truthy s then s else b
  | None => b
  end.

(** [result and "data" in result] *)
Definition has_data (result : Json) : Exn + bool :=
  if truthy result then py_in "data" result else inr false.

(** The line [list_tunnels] prints for a record (the tabs are written as
    in the source). *)
Definition tunnel_line (data : TunnelData) (status : string) : Text :=
  [Val (JNum (pid data)); Lit "\tlocalhost:"; Val (JStr (local_port data));
   Lit "\t->\t"; Val (JStr (target_host data)); Lit ":";
   Val (JStr (target_port data)); Lit "\t"; Val (JStr status)].

Section WithEnv.
Context (e : Env).

(** [TUNNEL_DIR.mkdir(parents=True, exist_ok=True)]: the directory is there
    afterwards; its content, [files], is not touched. *)
Definition ensure_tunnel_dir : M unit := ret tt.

Definition create_port_forward_session
    (target_host target_port session_name : string)
    (bastion_id : option string) : M Json :=
  let bastion_id := str_or bastion_id (BASTION_OCID e) in
  if (negb (str_truthy bastion_id) || negb (str_truthy target_host)
      || negb (str_truthy target_port))%bool then
    log_error (txt "Bastion ID, target host, and target port required") ;;
    ret JNull
  else
    log_info [Lit "Creating port forward session to "; Val (JStr target_host);
              Lit ":"; Val (JStr target_port); Lit "..."] ;;
    result <- run_oci_command e
      [JStr "bastion"; JStr "session"; JStr "create-port-forwarding";
       JStr "--bastion-id"; JStr bastion_id;
       JStr "--target-private-ip"; JStr target_host;
       JStr "--target-port"; JStr target_port;
       JStr "--session-ttl-in-seconds"; JStr (pretty (DEFAULT_TTL e));
       JStr "--display-name"; JStr session_name;
       JStr "--wait-for-state"; JStr "ACTIVE"]
      (OCI_PROFILE e) true true ;;
    ok <- lift (has_data result) ;;
    if ok : bool then
      data <- lift (py_getitem result "data") ;;
      session_id <- lift (py_getitem data "id") ;;
      log_success [Lit "Session created: "; Val session_id] ;;
      ret session_id
    else ret JNull.

Definition ssh_cmd (session_id : Json) (local_port target_host target_port : string)
    (bastion_endpoint : Json) (ssh_key : string) : list Text :=
  [txt "ssh"; txt "-N";
   txt "-L"; [Val (JStr local_port); Lit ":"; Val (JStr target_host); Lit ":";
              Val (JStr target_port)];
   txt "-p"; txt "22";
   [Val session_id; Lit "@"; Val bastion_endpoint];
   txt "-i"; [Val (JStr ssh_key)];
   txt "-o"; txt "StrictHostKeyChecking=no";
   txt "-o"; txt "UserKnownHostsFile=/dev/null"].

(** Lines 209-219: the record of a started tunnel is dumped into the file
    of its local port. *)
Definition save_tunnel_info (data : TunnelData) : M unit :=
  write_json e (tunnel_file (local_port data)) data.

Definition start_tunnel
    (session_id : Json) (local_port target_host target_port : string)
    (ssh_key : option string) (background : bool) : M (option Z) :=
  let ssh_key := str_or ssh_key (SSH_KEY e) in
  (* Get session details *)
  result <- run_oci_command e
    [JStr "bastion"; JStr "session"; JStr "get"; JStr "--session-id"; session_id]
    (OCI_PROFILE e) true true ;;
  ok <- lift (has_data result) ;;
  if negb ok then
    log_error (txt "Failed to get session details") ;; ret None
  else
    session <- lift (py_getitem result "data") ;;
    bastion_id <- lift (py_getitem session "bastion-id") ;;
    (* Get bastion endpoint *)
    bastion_result <- run_oci_command e
      [JStr "bastion"; JStr "bastion"; JStr "get"; JStr "--bastion-id"; bastion_id]
      (OCI_PROFILE e) true true ;;
    ok <- lift (has_data bastion_result) ;;
    if negb ok then
      log_error (txt "Failed to get bastion details") ;; ret None
    else
      bastion_data <- lift (py_getitem bastion_result "data") ;;
      bastion_endpoint <- lift (py_getitem bastion_data "bastion-endpoint") ;;
      let ssh_key := expanduser e ssh_key in
      let cmd := ssh_cmd session_id local_port target_host target_port
                   bastion_endpoint ssh_key in
      if background then
        ensure_tunnel_dir ;;
        process_pid <- subprocess_Popen e cmd ;;
        (* Save tunnel info *)
        save_tunnel_info
          {| pid := process_pid;
             session_id := session_id;
             local_port := local_port;
             target_host := target_host;
             target_port := target_port;
             bastion_endpoint := bastion_endpoint |} ;;
        log_success [Lit "Tunnel started (PID: "; Val (JNum process_pid); Lit ")"] ;;
        log_info [Lit "Connect to: localhost:"; Val (JStr local_port)] ;;
        ret (Some process_pid)
      else
        log_info [Lit "Starting tunnel: localhost:"; Val (JStr local_port);
                  Lit " -> "; Val (JStr target_host); Lit ":";
                  Val (JStr target_port)] ;;
        log_info (txt "Press Ctrl+C to close") ;;
        os_execvp e "ssh" cmd ;;
        ret None.

(** The [try] block of [list_tunnels]: signal 0, any [OSError] means
    dead and the record file is removed on the spot. *)
Definition probe_status (tunnel_file : string) (pid : Z) : M string :=
  try_except
    (os_kill pid SIG0 ;; ret "RUNNING")
    (fun x =>
       match x with
       | OSError _ => Some (unlink tunnel_file ;; ret "DEAD")
       | _ => None
       end).

Definition list_tunnels : M unit :=
  ensure_tunnel_dir ;;
  tunnels <- glob_tunnels ;;
  match tunnels with
  | [] => log_info (txt "No active tunnels")
  | _ =>
      log_info (txt "Active tunnels:") ;;
      for_each tunnels (fun tunnel_file =>
        data <- read_json tunnel_file ;;
        (* Check if process is still running *)
        let pid := pid data in
        status <- probe_status tunnel_file pid ;;
        if String.eqb status "RUNNING"
        then print (tunnel_line data status)
        else ret tt)
  end.

(** Lines 261-267 of [close_tunnel]: look the record of a local port up.
    [None] stands for the early return. *)
Definition load_tunnel_info (local_port : string) : M (option TunnelData) :=
  let tunnel_file := tunnel_file local_port in
  present <- path_exists tunnel_file ;;
  if negb present then
    log_error [Lit "No tunnel found on port "; Val (JStr local_port)] ;;
    ret None
  else
    data <- read_json tunnel_file ;;
    ret (Some data).

Definition close_tunnel (local_port : string) : M unit :=
  ensure_tunnel_dir ;;
  found <- load_tunnel_info local_port ;;
  match found with
  | None => ret tt
  | Some data =>
      let pid := pid data in
      try_except
        (os_kill pid SIGTERM ;;
         log_success [Lit "Tunnel closed (PID: "; Val (JNum pid); Lit ")"])
        (fun x =>
           match x with
           | OSError _ => Some (log_warn [Lit "Process may already be dead: "; Exc x])
           | _ => None
           end) ;;
      unlink (tunnel_file local_port)
  end.

Definition close_all_tunnels : M unit :=
  ensure_tunnel_dir ;;
  tunnels <- glob_tunnels ;;
  match tunnels with
  | [] => log_info (txt "No tunnels to close")
  | _ =>
      for_each tunnels (fun tunnel_file =>
        data <- read_json tunnel_file ;;
        try_except
          (os_kill (pid data) SIGTERM ;;
           log_success [Lit "Closed tunnel on port "; Val (JStr (local_port data))])
          (fun x =>
             match x with
             | OSError _ => Some (ret tt)
             | _ => None
             end) ;;
        unlink tunnel_file)
  end.

(** *** Database connection helpers and quick tunnel *)

(** [not pid] for the optional pid [start_tunnel] returns *)
Definition no_pid (p : option Z) : bool :=
  match p with
  | Some n => Z.eqb n 0
  | None => true
  end.

(** The part the four [connect_*] helpers share: default the local port,
    create the session, start the tunnel in the background, let it settle,
    run the client. *)
Definition connect_via_tunnel
    (host port session_name : string) (local_port bastion_id : option string)
    (announce : Text) (client : string -> Text) : M unit :=
  let local_port := str_or local_port port in
  (* Create session and tunnel *)
  session_id <- create_port_forward_session host port session_name bastion_id ;;
  if negb (truthy session_id) then sys_exit 1
  else
    child <- start_tunnel session_id local_port host port None true ;;
    if no_pid child then sys_exit 1
    else
      (* Wait for tunnel to establish *)
      time_sleep 2 ;;
      log_info announce ;;
      os_system (client local_port).

Definition connect_postgres
    (host port database username : string)
    (local_port bastion_id : option string) : M unit :=
  if negb (forallb str_truthy [host; port; database; username]) then
    log_error (txt "Usage: connect-postgres <host> <port> <database> <username> [local_port] [bastion_id]") ;;
    sys_exit 1
  else
    connect_via_tunnel host port "postgres-session" local_port bastion_id
      (txt "Connecting to PostgreSQL...")
      (fun local_port =>
         [Lit "psql -h localhost -p "; Val (JStr local_port);
          Lit " -U "; Val (JStr username); Lit " -d "; Val (JStr database)]).

Definition connect_mysql
    (host port database username : string)
    (local_port bastion_id : option string) : M unit :=
  if negb (forallb str_truthy [host; port; database; username]) then
    log_error (txt "Usage: connect-mysql <host> <port> <database> <username> [local_port] [bastion_id]") ;;
    sys_exit 1
  else
    connect_via_tunnel host port "mysql-session" local_port bastion_id
      (txt "Connecting to MySQL...")
      (fun local_port =>
         [Lit "mysql -h 127.0.0.1 -P "; Val (JStr local_port);
          Lit " -u "; Val (JStr username); Lit " -p "; Val (JStr database)]).

Definition connect_redis
    (host port : string) (local_port bastion_id : option string) : M unit :=
  if negb (str_truthy host) then
    log_error (txt "Usage: connect-redis <host> [port] [local_port] [bastion_id]") ;;
    sys_exit 1
  else
    connect_via_tunnel host port "redis-session" local_port bastion_id
      (txt "Connecting to Redis...")
      (fun local_port =>
         [Lit "redis-cli -h 127.0.0.1 -p "; Val (JStr local_port)]).

Definition connect_mongodb
    (host port database : string) (local_port bastion_id : option string) : M unit :=
  if negb (str_truthy host) then
    log_error (txt "Usage: connect-mongodb <host> [port] [database] [local_port] [bastion_id]") ;;
    sys_exit 1
  else
    connect_via_tunnel host port "mongodb-session" local_port bastion_id
      (txt "Connecting to MongoDB...")
      (fun local_port =>
         [Lit "mongosh mongodb://127.0.0.1:"; Val (JStr local_port);
          Lit "/"; Val (JStr database)]).

Definition quick_tunnel
    (target_host target_port : string)
    (local_port bastion_id : option string) : M unit :=
  if (negb (str_truthy target_host) || negb (str_truthy target_port))%bool then
    log_error (txt "Usage: quick-tunnel <target_host> <target_port> [local_port] [bastion_id]") ;;
    sys_exit 1
  else
    let local_port := str_or local_port target_port in
    session_id <- create_port_forward_session target_host target_port
                    "quick-tunnel" bastion_id ;;
    if negb (truthy session_id) then sys_exit 1
    else
      start_tunnel session_id local_port target_host target_port None true ;;
      ret tt.

End WithEnv.

End Backend.

(* ===================================================================== *)
(** ** bastion.py: connecting to and deleting a session *)
(* ===================================================================== *)

Module Bastion.
Import Py OS Common.
Local Open Scope py_scope.

(** [s.replace(old, new)] for a non-empty [old]: every occurrence, left to
    right, without overlap.  [skip] counts the characters of a match still
    to be dropped. *)
Fixpoint replace_from (old new : string) (skip : nat) (s : string) : string :=
  match s with
  | EmptyString => EmptyString
  | String c rest =>
      match skip with
      | S k => replace_from old new k rest
      | O =>
          if String.prefix old s
          then new +:+ replace_from old new (String.length old - 1) rest
          else String c (replace_from old new O rest)
      end
  end.

Definition str_replace (old new s : string) : string := replace_from old new O s.

(** [command.replace(old, new)]: a method of strings only. *)
Definition py_replace (command : Json) (old new : string) : Exn + Json :=
  match command with
  | JStr s => inr (JStr (str_replace old new s))
  | _ => inl AttributeError
  end.

Section WithEnv.
Context (e : Env).

Definition connect_session (session_id local_port ssh_key : string) : M unit :=
  if (negb (str_truthy session_id) || negb (str_truthy local_port))%bool then
    log_error (txt "Usage: connect <session_id> <local_port> [ssh_key]") ;;
    sys_exit 1
  else
    (* Get session details *)
    result <- run_oci_command e
      [JStr "bastion"; JStr "session"; JStr "get"; JStr "--session-id"; JStr session_id]
      (OCI_PROFILE e) true true ;;
    ok <- lift (Backend.has_data result) ;;
    if negb ok then
      log_error (txt "Failed to get session details") ;; sys_exit 1
    else
      session <- lift (py_getitem result "data") ;;
      state <- lift (py_getitem session "lifecycle-state") ;;
      if negb (is_str "ACTIVE" state) then
        log_error [Lit "Session is not active (state: "; Val state; Lit ")"] ;;
        sys_exit 1
      else
        ssh_metadata <- lift (py_get session "ssh-metadata" (JObj [])) ;;
        command <- lift (py_get ssh_metadata "command" (JStr "")) ;;
        if truthy command then
          log_info (txt "Connecting to session...") ;;
          (* Replace placeholder with actual values *)
          command <- lift (py_replace command "<localPort>" local_port) ;;
          command <- lift (py_replace command "<privateKey>" (expanduser e ssh_key)) ;;
          print [Lit "Running: "; Val command] ;;
          os_system [Val command]
        else
          log_error (txt "No SSH command available for this session").

Definition delete_session (session_id : string) : M unit :=
  if negb (str_truthy session_id) then
    log_error (txt "Session OCID required.") ;;
    sys_exit 1
  else
    log_warn (txt "Deleting session...") ;;
    confirmed <- confirm_action "Continue?" ;;
    if negb confirmed then
      log_info (txt "Cancelled.")
    else
      run_oci_command e
        [JStr "bastion"; JStr "session"; JStr "delete";
         JStr "--session-id"; JStr session_id; JStr "--force"]
        (OCI_PROFILE e) false true ;;
      log_success (txt "Session deleted").

End WithEnv.

End Bastion.


(* ===================================================================== *)
(** ** The listing commands of backend_sessions.py and bastion.py *)
(* ===================================================================== *)

Module Discovery.
Import Py OS Common Backend.
Local Open Scope py_scope.

(** [for item in x]: a list gives its elements, a dict its keys, a string
    its characters; nothing else can be iterated. *)
Definition py_iter (x : Json) : Exn + list Json :=
  match x with
  | JArr xs => inr xs
  | JObj kv => inr (map (fun p => JStr (fst p)) kv)
  | JStr s => inr (map (fun c => JStr (String c EmptyString)) (list_ascii_of_string s))
  | JNull | JBool _ | JNum _ => inl TypeError
  end.

(** [f"{item[k1]}\t{item[k2]}\t..."]: the fields are looked up from left
    to right, the first one that fails raises (the tabs are written as in
    the source). *)
Fixpoint row (item : Json) (fields : list string) : Exn + Text :=
  match fields with
  | [] => inr []
  | k :: rest =>
      match py_getitem item k with
      | inl x => inl x
      | inr v =>
          match rest with
          | [] => inr [Val v]
          | _ =>
              match row item rest with
              | inl x => inl x
              | inr t => inr (Val v :: Lit "\t" :: t)
              end
          end
      end
  end.

Section WithEnv.
Context (e : Env).
(** [COMPARTMENT_OCID], read from the environment like the settings of
    [Env]. *)
Context (COMPARTMENT_OCID : string).

(** The end of each listing function: [if result and "data" in result:
    for item in result["data"]: print(f"...")]. *)
Definition print_rows (result : Json) (fields : list string) : M unit :=
  ok <- lift (has_data result) ;;
  if ok : bool then
    data <- lift (py_getitem result "data") ;;
    items <- lift (py_iter data) ;;
    for_each items (fun item =>
      line <- lift (row item fields) ;;
      print line)
  else ret tt.

(** What the listing functions share: the scope defaults to the setting
    of the environment and must not be empty; then one [list] command is
    run and its rows are printed. *)
Definition list_resources
    (scope : option string) (default : string) (required : string)
    (announce : string) (service resource flag : string)
    (fields : list string) : M unit :=
  let scope := str_or scope default in
  if negb (str_truthy scope) then
    log_error (txt required) ;;
    sys_exit 1
  else
    log_info (txt announce) ;;
    result <- run_oci_command e
      [JStr service; JStr resource; JStr "list"; JStr flag; JStr scope; JStr "--all"]
      (OCI_PROFILE e) true true ;;
    print_rows result fields.

Definition list_autonomous_dbs (compartment : option string) : M unit :=
  list_resources compartment COMPARTMENT_OCID "Compartment OCID required."
    "Listing Autonomous Databases..." "db" "autonomous-database" "--compartment-id"
    ["id"; "display-name"; "db-workload"; "lifecycle-state"].

Definition list_mysql_dbs (compartment : option string) : M unit :=
  list_resources compartment COMPARTMENT_OCID "Compartment OCID required."
    "Listing MySQL Database Systems..." "mysql" "db-system" "--compartment-id"
    ["id"; "display-name"; "lifecycle-state"].

Definition list_postgres_dbs (compartment : option string) : M unit :=
  list_resources compartment COMPARTMENT_OCID "Compartment OCID required."
    "Listing PostgreSQL Database Systems..." "psql" "db-system" "--compartment-id"
    ["id"; "display-name"; "lifecycle-state"].

Definition list_nosql_tables (compartment : option string) : M unit :=
  list_resources compartment COMPARTMENT_OCID "Compartment OCID required."
    "Listing NoSQL Tables..." "nosql" "table" "--compartment-id"
    ["id"; "name"; "lifecycle-state"].

(** bastion.py *)
Definition list_bastions (compartment : option string) : M unit :=
  list_resources compartment COMPARTMENT_OCID "Compartment OCID required."
    "Listing bastions..." "bastion" "bastion" "--compartment-id"
    ["id"; "name"; "bastion-type"; "lifecycle-state"].

Definition list_sessions (bastion_id : option string) : M unit :=
  list_resources bastion_id (BASTION_OCID e) "Bastion OCID required."
    "Listing sessions..." "bastion" "session" "--bastion-id"
    ["id"; "display-name"; "session-type"; "lifecycle-state"].

End WithEnv.

End Discovery.

(* ===================================================================== *)
(** ** common.py: dependencies and tables; backend_sessions.py: main *)
(* ===================================================================== *)

Module Main.
Import Py OS Common Backend Discovery.
Local Open Scope py_scope.


Section WithEnv.
Context (e : Env) (COMPARTMENT_OCID : string).
(** Whether [which cmd] finds the command; a run of [which] only reads and
    is not recorded in the trace. *)
Context (which : string -> bool).
(** The text [parser.print_help()] prints. *)
Context (help : Text).

Definition check_dependencies (commands : list string) : M bool :=
  let missing := List.filter (fun cmd => negb (which cmd)) commands in
  match missing with
  | [] => ret true
  | _ =>
      log_error [Lit "Missing required dependencies: ";
                 Val (JStr (String.concat ", " missing))] ;;
      ret false
  end.

(** The table [commands] of [main], applied to the arguments.  The outer
    [None] is a command that is not in the table; the inner [None] is the
    [IndexError] of an argument that is not there, raised while the
    arguments of the call are evaluated, before the function is entered.
    [a !! i] with its [None] is also [a[i] if len(a) > i else None]. *)
Definition dispatch (command : string) (a : list string) : option (option (M unit)) :=
  if String.eqb command "list-autonomous" then
    Some (Some (list_autonomous_dbs e COMPARTMENT_OCID (a !! 0%nat)))
  else if String.eqb command "list-mysql" then
    Some (Some (list_mysql_dbs e COMPARTMENT_OCID (a !! 0%nat)))
  else if String.eqb command "list-postgres" then
    Some (Some (list_postgres_dbs e COMPARTMENT_OCID (a !! 0%nat)))
  else if String.eqb command "list-nosql" then
    Some (Some (list_nosql_tables e COMPARTMENT_OCID (a !! 0%nat)))
  else if String.eqb command "quick-tunnel" then
    Some (a0 ← a !! 0%nat; a1 ← a !! 1%nat;
          Some (quick_tunnel e a0 a1 (a !! 2%nat) (a !! 3%nat)))
  else if String.eqb command "list-tunnels" then
    Some (Some list_tunnels)
  else if String.eqb command "close-tunnel" then
    Some (a0 ← a !! 0%nat; Some (close_tunnel a0))
  else if String.eqb command "close-all" then
    Some (Some close_all_tunnels)
  else if String.eqb command "connect-postgres" then
    Some (a0 ← a !! 0%nat; a1 ← a !! 1%nat; a2 ← a !! 2%nat; a3 ← a !! 3%nat;
          Some (connect_postgres e a0 a1 a2 a3 (a !! 4%nat) (a !! 5%nat)))
  else if String.eqb command "connect-mysql" then
    Some (a0 ← a !! 0%nat; a1 ← a !! 1%nat; a2 ← a !! 2%nat; a3 ← a !! 3%nat;
          Some (connect_mysql e a0 a1 a2 a3 (a !! 4%nat) (a !! 5%nat)))
  else if String.eqb command "connect-redis" then
    Some (a0 ← a !! 0%nat;
          Some (connect_redis e a0 (default "6379" (a !! 1%nat))
                  (a !! 2%nat) (a !! 3%nat)))
  else if String.eqb command "connect-mongodb" then
    Some (a0 ← a !! 0%nat;
          Some (connect_mongodb e a0 (default "27017" (a !! 1%nat))
                  (default "admin" (a !! 2%nat)) (a !! 3%nat) (a !! 4%nat)))
  else None.

(** [main] of backend_sessions.py, from the command and the arguments
    that [parser.parse_args()] returned. *)
Definition main (command : string) (args : list string) : M unit :=
  ok <- check_dependencies ["oci"; "ssh"] ;;
  if negb ok then sys_exit 1
  else
    match dispatch command args with
    | Some (Some call) => call
    | Some None =>
        (* except IndexError *)
        log_error [Lit "Missing required arguments for "; Val (JStr command)] ;;
        print help ;;
        sys_exit 1
    | None =>
        log_error [Lit "Unknown command: "; Val (JStr command)] ;;
        print help ;;
        sys_exit 1
    end.

End WithEnv.

End Main.
(* ===================================================================== *)
(** ** Vocabulary of the statements *)
(* ===================================================================== *)

Import Py OS Common Backend Bastion.
Local Open Scope list_scope.

(** *** Processes and probes *)

(** The probe [os.kill(pid, 0)] succeeds. *)
Definition responds (w : World) (p : Z) : bool :=
  match procs w !! p with
  | Some q => signalable q
  | None => false
  end.

(** A process with this pid is running. *)
Definition running (w : World) (p : Z) : Prop := is_Some (procs w !! p).

(** The process that [start_tunnel] spawned as [child] at time [born] is
    still running. *)
Definition owner_running (w : World) (child : Z) (born : nat) : Prop :=
  ∃ q, procs w !! child = Some q ∧ started q = born.

(** *** What a run leaves alone *)

(** A step that leaves files, processes and terminal input alone and
    starts or signals no process. *)
Definition quiet (w w' : World) : Prop :=
  files w' = files w ∧ procs w' = procs w ∧ stdin w' = stdin w ∧
  spawned (trace w') = spawned (trace w) ∧
  signalled (trace w') = signalled (trace w).

(** Two worlds that differ at most in the registry, or at most in what the
    user will type. *)
Definition same_but_files (w v : World) : Prop :=
  procs w = procs v ∧ stdin w = stdin v ∧ trace w = trace v.

Definition same_but_stdin (w v : World) : Prop :=
  files w = files v ∧ procs w = procs v ∧ trace w = trace v.

(** An action ignores what [R] lets vary: from related worlds it ends the
    same way, in related worlds. *)
Definition ignores (R : World -> World -> Prop) {A} (m : M A) : Prop :=
  ∀ w v, R w v → (m w).1 = (m v).1 ∧ R (m w).2 (m v).2.

(** *** The registry *)

(** The names [list_tunnels] and [close_all_tunnels] go through. *)
Definition tunnel_names (w : World) : list string :=
  filter (λ n, glob_match n = true) (map_to_list (files w)).*1.

(** The body of the loop of [list_tunnels]. *)
Definition list_one (tunnel_file : string) : M unit :=
  bind (read_json tunnel_file) (fun data =>
  bind (probe_status tunnel_file (pid data)) (fun status =>
  if String.eqb status "RUNNING"
  then print (tunnel_line data status) else ret tt)).

(** The lines [list_tunnels] prints for the records under [names]. *)
Definition live_lines (w : World) (names : list string) : list Text :=
  omap (fun n =>
          match files w !! n with
          | Some d => if responds w (pid d)
                      then Some (tunnel_line d "RUNNING") else None
          | None => None
          end) names.

(** All that [list_tunnels] does to the outside: it logs the header, then
    prints the lines of the records that respond. *)
Definition listing_events (w : World) : list Event :=
  ELog Info (txt (match tunnel_names w with
                  | [] => "No active tunnels"
                  | _ => "Active tunnels:"
                  end))
  :: (EPrint <$> live_lines w (tunnel_names w)).

(** The body of the loop of [close_all_tunnels]. *)
Definition close_one (tunnel_file : string) : M unit :=
  bind (read_json tunnel_file) (fun data =>
  bind (try_except
          (bind (os_kill (pid data) SIGTERM) (fun _ =>
           log_success [Lit "Closed tunnel on port "; Val (JStr (local_port data))]))
          (fun x => match x with OSError _ => Some (ret tt) | _ => None end))
       (fun _ => unlink tunnel_file)).

(** From [w] to [w'] the registry is unchanged, or exactly one record was
    written: that of local port [lport], forwarding to port [tport]. *)
Definition registers_at (w w' : World) (lport tport : string) : Prop :=
  files w' = files w ∨
  ∃ d, files w' = <[tunnel_file lport := d]> (files w) ∧
       local_port d = lport ∧ target_port d = tport.

(** The session is created and the tunnel from local port [lport] comes
    up: the creation call of a helper returns the session id [sid], and
    [start_tunnel], called next for that session, returns the pid [child]
    and leaves the world [w2]. *)
Definition tunnel_comes_up (e : Env) (host port name : string)
    (bid : option string) (lport : string)
    (w : World) (sid : Json) (child : Z) (w2 : World) : Prop :=
  ∃ w1, create_port_forward_session e host port name bid w = (Ok sid, w1) ∧
        truthy sid = true ∧
        start_tunnel e sid lport host port None true w1 = (Ok (Some child), w2).

(** From [w] to [w'] the registry gained the record of the tunnel of
    process [child] from local port [lport] to [host]:[port], under the
    file of [lport], and nothing else changed in it. *)
Definition registered_as (w w' : World) (child : Z) (sid : Json)
    (lport host port : string) : Prop :=
  ∃ ep, files w' =
        <[tunnel_file lport :=
           {| pid := child; session_id := sid; local_port := lport;
              target_host := host; target_port := port;
              bastion_endpoint := ep |}]> (files w).

(** *** Sessions and confirmation *)

(** The creation call gave no session: it raised, or it returned [None]
    (or another value that counts as false). *)
Definition no_session (r : Res Json) : Prop :=
  match r with
  | Ok sid => truthy sid = false
  | Raise _ => True
  | Replaced => False
  end.

(** The command [delete_session] hands to the oci client. *)
Definition delete_cmd (e : Env) (session_id : string) : list string :=
  ["oci"; "bastion"; "session"; "delete"; "--session-id"; session_id;
   "--force"; "--profile"; OCI_PROFILE e].

(** The answers [confirm_action] takes for a yes. *)
Definition is_yes (answer : string) : bool :=
  bool_decide (lower answer ∈ ["y"; "yes"]).

(** The prompts shown to the user. *)
Definition prompted (t : list Event) : list Text :=
  omap (fun ev => match ev with EPrompt m => Some m | _ => None end) t.

(* ===================================================================== *)
(** ** Example worlds *)
(* ===================================================================== *)

Definition ok_reply (j : Json) : Completed :=
  {| returncode := 0; stdout := OutJson j; stderr := "" |}.

Definition failed_reply (msg : string) : Completed :=
  {| returncode := 1; stdout := OutEmpty; stderr := msg |}.

(** A bastion service that creates a session, shows it as [state] and
    gives the endpoint of its bastion; a spawned process gets the pid
    [child] at time 7. *)
Definition ex_env (state : string) (child : Z) : Env := {|
  OCI_PROFILE := "DEFAULT";
  BASTION_OCID := "ocid1.bastion.oc1..b1";
  SSH_KEY := "~/.ssh/id_rsa";
  DEFAULT_TTL := 10800;
  oci_cli := fun _ cmd =>
    match cmd with
    | _ :: _ :: "session" :: "create-port-forwarding" :: _ =>
        ok_reply (JObj [("data", JObj [("id", JStr "ocid1.session.s1");
                                       ("lifecycle-state", JStr "ACTIVE")])])
    | _ :: _ :: "session" :: "get" :: _ =>
        ok_reply (JObj [("data", JObj [("id", JStr "ocid1.session.s1");
                                       ("bastion-id", JStr "ocid1.bastion.oc1..b1");
                                       ("lifecycle-state", JStr state)])])
    | _ :: _ :: "bastion" :: "get" :: _ =>
        ok_reply (JObj [("data", JObj [("bastion-endpoint", JStr "host.bastion.example")])])
    | _ => failed_reply "ServiceError"
    end;
  popen := fun _ _ => Some (child, 7%nat);
  fs_create_ok := fun _ => true;
  can_exec := fun _ => true;
  expanduser := fun s => s
|}.

Definition ex_empty : World :=
  {| files := ∅; procs := ∅; stdin := []; trace := [] |}.

Definition ex_record (child : Z) : TunnelData :=
  {| pid := child; session_id := JStr "ocid1.session.s1"; local_port := "8080";
     target_host := "10.0.1.5"; target_port := "5432";
     bastion_endpoint := JStr "host.bastion.example" |}.

(** The world after [start_tunnel] registered a tunnel on port 8080. *)
Definition ex_registered : World :=
  (start_tunnel (ex_env "ACTIVE" 4242) (JStr "ocid1.session.s1")
     "8080" "10.0.1.5" "5432" None true ex_empty).2.

(** Later, the ssh client still runs. *)
Definition ex_live : World := with_trace [] ex_registered.

(** Later, the ssh client is gone and nothing has its pid. *)
Definition ex_stale : World :=
  with_procs ∅ (with_trace [] ex_registered).

(** Later, seen by a caller who may not signal the tunnel's process. *)
Definition ex_foreign : World :=
  with_procs {[ 4242 := {| signalable := false; started := 7 |} ]}
    (with_trace [] ex_registered).

(** Later, the ssh client is gone and pid 4242 belongs to a new process. *)
Definition ex_reused : World :=
  with_procs {[ 4242 := {| signalable := true; started := 99 |} ]}
    (with_trace [] ex_registered).

(** A bastion service that cannot be reached: every command of the oci
    client fails (as it does when [--wait-for-state] times out). *)
Definition ex_env_down : Env := {|
  OCI_PROFILE := "DEFAULT";
  BASTION_OCID := "ocid1.bastion.oc1..b1";
  SSH_KEY := "~/.ssh/id_rsa";
  DEFAULT_TTL := 10800;
  oci_cli := fun _ _ => failed_reply "ServiceError";
  popen := fun _ _ => Some (4242, 7%nat);
  fs_create_ok := fun _ => true;
  can_exec := fun _ => true;
  expanduser := fun s => s
|}.

(** A bastion service that deletes a session the first time it is asked
    to, and answers not-found when asked again for the same session. *)
Definition ex_env_delete_once : Env := {|
  OCI_PROFILE := "DEFAULT";
  BASTION_OCID := "ocid1.bastion.oc1..b1";
  SSH_KEY := "~/.ssh/id_rsa";
  DEFAULT_TTL := 10800;
  oci_cli := fun history cmd =>
    match cmd with
    | _ :: _ :: "session" :: "delete" :: _ =>
        if bool_decide (cmd ∈ history)
        then failed_reply "ServiceError: 404 NotAuthorizedOrNotFound"
        else {| returncode := 0; stdout := OutEmpty; stderr := "" |}
    | _ => failed_reply "ServiceError"
    end;
  popen := fun _ _ => Some (4242, 7%nat);
  fs_create_ok := fun _ => true;
  can_exec := fun _ => true;
  expanduser := fun s => s
|}.


(* ===================================================================== *)
(** ** Vocabulary of the further statements *)
(* ===================================================================== *)

(** The pids [close_all_tunnels] reaches with [SIGTERM]: those of the
    records under [names] whose process responds, in order. *)
Definition reached_pids (w : World) (names : list string) : list (Z * Signal) :=
  omap (fun n =>
          match files w !! n with
          | Some d => if responds w (pid d) then Some (pid d, SIGTERM) else None
          | None => None
          end) names.

(** The command line [run_oci_command] builds from its string arguments. *)
Definition oci_command_line (strs : list string) (profile : string)
    (output_json : bool) : list string :=
  "oci" :: strs ++ ["--profile"; profile]
        ++ (if output_json then ["--output"; "json"] else []).

(** The events of a run: what [w'] has after what [w] had. *)
Definition events_since (w w' : World) (evs : list Event) : Prop :=
  trace w' = trace w ++ evs.

(** The verb of an oci command line [oci <service> <resource> <verb> ...]. *)
Definition oci_verb (cmd : list string) : option string := cmd !! 3%nat.

(** The oci commands of a run: what was run between [w] and [w']. *)
Definition calls_since (w w' : World) (cmds : list (list string)) : Prop :=
  oci_history (trace w') = oci_history (trace w) ++ cmds.

Definition is_get (cmd : list string) : Prop := oci_verb cmd = Some "get".

Definition is_create_or_get (cmd : list string) : Prop :=
  oci_verb cmd = Some "create-port-forwarding" ∨ oci_verb cmd = Some "get".

(** The two errors [start_tunnel] logs before it returns [None]. *)
Definition lookup_failure_logged (w' : World) : Prop :=
  ∃ t msg, trace w' = t ++ [ELog Error (txt msg)] ∧
           (msg = "Failed to get session details" ∨
            msg = "Failed to get bastion details").

(** An oci client that exits with status 0 and prints nothing, whatever it
    is asked. *)
Definition ex_env_silent : Env := {|
  OCI_PROFILE := "DEFAULT";
  BASTION_OCID := "ocid1.bastion.oc1..b1";
  SSH_KEY := "~/.ssh/id_rsa";
  DEFAULT_TTL := 10800;
  oci_cli := fun _ _ => {| returncode := 0; stdout := OutEmpty; stderr := "" |};
  popen := fun _ _ => Some (4242, 7%nat);
  fs_create_ok := fun _ => true;
  can_exec := fun _ => true;
  expanduser := fun s => s
|}.
(** A host where the tunnel directory cannot be written to. *)
Definition ex_env_readonly : Env := {|
  OCI_PROFILE := "DEFAULT";
  BASTION_OCID := "ocid1.bastion.oc1..b1";
  SSH_KEY := "~/.ssh/id_rsa";
  DEFAULT_TTL := 10800;
  oci_cli := oci_cli (ex_env "ACTIVE" 4242);
  popen := fun _ _ => Some (4242, 7%nat);
  fs_create_ok := fun _ => false;
  can_exec := fun _ => true;
  expanduser := fun s => s
|}.


(** What a helper leaves behind: it has run at most three oci commands,
    none of them a [delete], and has signalled no process. *)
Definition leaves_tunnel_open (w w' : World) : Prop :=
  signalled (trace w') = signalled (trace w) ∧
  ∃ cmds, calls_since w w' cmds ∧ (List.length cmds ≤ 3)%nat ∧
          Forall is_create_or_get cmds.

(** The answers [confirm_action] takes for a yes, spelled out. *)
Definition yes_spellings : list string :=
  ["y"; "Y"; "yes"; "yeS"; "yEs"; "yES"; "Yes"; "YeS"; "YEs"; "YES"].

(** The prompt of [delete_session]. *)
Definition delete_prompt : Text := [Val (JStr "Continue?"); Lit " (y/N): "].

(** A string without the character [<], with which both placeholders of
    the ssh command template start. *)
Definition plain (s : string) : Prop := str_contains "<" s = false.

(** A command template of the service with one placeholder for the key
    and one for the local port, in either order, and what
    [connect_session] is to make of it. *)
Definition ssh_template (key_first : bool) (pre mid post : string) : string :=
  if key_first
  then pre +:+ "<privateKey>" +:+ mid +:+ "<localPort>" +:+ post
  else pre +:+ "<localPort>" +:+ mid +:+ "<privateKey>" +:+ post.

Definition ssh_filled (key_first : bool) (pre mid post key port : string) : string :=
  if key_first
  then pre +:+ key +:+ mid +:+ port +:+ post
  else pre +:+ port +:+ mid +:+ key +:+ post.

(** A service whose session carries an ssh command template. *)
Definition ex_env_template : Env := {|
  OCI_PROFILE := "DEFAULT";
  BASTION_OCID := "ocid1.bastion.oc1..b1";
  SSH_KEY := "~/.ssh/id_rsa";
  DEFAULT_TTL := 10800;
  oci_cli := fun _ _ =>
    ok_reply (JObj [("data", JObj
      [("id", JStr "ocid1.session.s1");
       ("lifecycle-state", JStr "ACTIVE");
       ("ssh-metadata", JObj
          [("command",
            JStr (ssh_template true "ssh -i " " -N -L "
                    ":10.0.1.5:5432 -p 22 s1@host.bastion.example"))])])]);
  popen := fun _ _ => Some (4242, 7%nat);
  fs_create_ok := fun _ => true;
  can_exec := fun _ => true;
  expanduser := fun s => "/home/ops" +:+ s
|}.

(** *** The listing commands *)

(** The six listing functions: four of backend_sessions.py, two of
    bastion.py. *)
Inductive Listing : Type :=
| Autonomous | MySQL | Postgres | NoSQL | Bastions | Sessions.

Definition run_listing (e : Env) (compartment_ocid : string) (l : Listing)
    : option string → M unit :=
  match l with
  | Autonomous => Discovery.list_autonomous_dbs e compartment_ocid
  | MySQL => Discovery.list_mysql_dbs e compartment_ocid
  | Postgres => Discovery.list_postgres_dbs e compartment_ocid
  | NoSQL => Discovery.list_nosql_tables e compartment_ocid
  | Bastions => Discovery.list_bastions e compartment_ocid
  | Sessions => Discovery.list_sessions e
  end.

(** The fields each of them prints, in order. *)
Definition listing_fields (l : Listing) : list string :=
  match l with
  | Autonomous => ["id"; "display-name"; "db-workload"; "lifecycle-state"]
  | MySQL | Postgres => ["id"; "display-name"; "lifecycle-state"]
  | NoSQL => ["id"; "name"; "lifecycle-state"]
  | Bastions => ["id"; "name"; "bastion-type"; "lifecycle-state"]
  | Sessions => ["id"; "display-name"; "session-type"; "lifecycle-state"]
  end.

(** The compartment or bastion listed: the argument, or else the setting
    of the environment. *)
Definition listing_scope (e : Env) (compartment_ocid : string) (l : Listing)
    (arg : option string) : string :=
  str_or arg (match l with
              | Sessions => BASTION_OCID e
              | _ => compartment_ocid
              end).

(** The oci command line of each. *)
Definition listing_command (e : Env) (l : Listing) (scope : string) : list string :=
  "oci" ::
  match l with
  | Autonomous => ["db"; "autonomous-database"; "list"; "--compartment-id"]
  | MySQL => ["mysql"; "db-system"; "list"; "--compartment-id"]
  | Postgres => ["psql"; "db-system"; "list"; "--compartment-id"]
  | NoSQL => ["nosql"; "table"; "list"; "--compartment-id"]
  | Bastions => ["bastion"; "bastion"; "list"; "--compartment-id"]
  | Sessions => ["bastion"; "session"; "list"; "--bastion-id"]
  end ++ [scope; "--all"; "--profile"; OCI_PROFILE e; "--output"; "json"].

Definition listing_announce (l : Listing) : string :=
  match l with
  | Autonomous => "Listing Autonomous Databases..."
  | MySQL => "Listing MySQL Database Systems..."
  | Postgres => "Listing PostgreSQL Database Systems..."
  | NoSQL => "Listing NoSQL Tables..."
  | Bastions => "Listing bastions..."
  | Sessions => "Listing sessions..."
  end.

Definition is_list (cmd : list string) : Prop := oci_verb cmd = Some "list".

(** A reply of the service with three databases, the last of which lacks
    its state. *)
Definition ex_env_listing : Env := {|
  OCI_PROFILE := "DEFAULT";
  BASTION_OCID := "ocid1.bastion.oc1..b1";
  SSH_KEY := "~/.ssh/id_rsa";
  DEFAULT_TTL := 10800;
  oci_cli := fun _ _ =>
    ok_reply (JObj [("data", JArr
      [JObj [("id", JStr "ocid1.db.a"); ("display-name", JStr "orders");
             ("lifecycle-state", JStr "ACTIVE")];
       JObj [("id", JStr "ocid1.db.b"); ("display-name", JStr "billing");
             ("lifecycle-state", JStr "UPDATING")];
       JObj [("id", JStr "ocid1.db.c"); ("display-name", JStr "legacy")]])]);
  popen := fun _ _ => Some (4242, 7%nat);
  fs_create_ok := fun _ => true;
  can_exec := fun _ => true;
  expanduser := fun s => s
|}.

(** *** The command line of backend_sessions.py *)



(** The rows printed for the items of a reply, up to the first item that
    lacks a field, and the error the listing stops with there. *)
Fixpoint printed_rows (fields : list string) (items : list Json)
    : list Text * option Exn :=
  match items with
  | [] => ([], None)
  | item :: rest =>
      match Discovery.row item fields with
      | inl x => ([], Some x)
      | inr line =>
          (line :: (printed_rows fields rest).1, (printed_rows fields rest).2)
      end
  end.

(* ===================================================================== *)
(** ** Reasoning about runs *)
(* ===================================================================== *)

Lemma spawned_snoc t ev :
  spawned (t ++ [ev]) = spawned t ++ match ev with ESpawn _ p => [p] | _ => [] end.
Proof. unfold spawned. rewrite omap_app. destruct ev; reflexivity. Qed.

Lemma oci_history_snoc t ev :
  oci_history (t ++ [ev]) = oci_history t ++ match ev with EOci c => [c] | _ => [] end.
Proof. unfold oci_history. rewrite omap_app. destruct ev; reflexivity. Qed.

Lemma signalled_snoc t ev :
  signalled (t ++ [ev]) = signalled t ++ match ev with ESignal p s => [(p, s)] | _ => [] end.
Proof. unfold signalled. rewrite omap_app. destruct ev; reflexivity. Qed.

Lemma run_oci_command_quiet e args profile oj chk w r w' :
  run_oci_command e args profile oj chk w = (r, w') →
  quiet w w' ∧ r ≠ Replaced.
Proof.
  unfold run_oci_command, log_error, subprocess_run, bind, raise, ret, emit.
  intros H.
  repeat case_match; simplify_eq/=; unfold quiet; cbn;
  rewrite ?spawned_snoc, ?signalled_snoc, ?app_nil_r; done.
Qed.

Lemma bind_eq {A B} (m : M A) (k : A → M B) w :
  bind m k w =
  match m w with
  | (Ok a, w') => k a w'
  | (Raise x, w') => (Raise x, w')
  | (Replaced, w') => (Replaced, w')
  end.
Proof. reflexivity. Qed.

Lemma lift_eq {A} (r : Exn + A) w :
  lift r w = match r with inl x => (Raise x, w) | inr a => (Ok a, w) end.
Proof. by destruct r. Qed.

Ltac split_match E :=
  repeat match type of E with
         | context [match ?s with _ => _ end] => destruct s eqn:?
         end.

(** Unfold a primitive action in the equation [E] that records how it ran. *)
Ltac prim E :=
  try rewrite lift_eq in E;
  unfold log_info, log_success, log_warn, log_error, print, os_system,
    time_sleep, sys_exit, ensure_tunnel_dir, emit, ret, raise, os_execvp,
    save_tunnel_info, write_json, subprocess_Popen, read_json, unlink,
    path_exists, input, os_kill, glob_tunnels, try_except, subprocess_run,
    confirm_action in E;
  split_match E; simplify_eq.

(** One step of a run: split on how the first action of a [bind] ended. *)
Ltac step H :=
  cbv zeta in H;
  lazymatch type of H with
  | bind ?m ?k ?w = _ =>
      let E := fresh "E" in
      rewrite (bind_eq m k w) in H;
      destruct (m w) as [[?|?|] ?] eqn:E;
      [ | first [ discriminate H | simplify_eq ].. ]
  | (if ?b then _ else _) ?w = _ => destruct b eqn:?
  | (match ?b with _ => _ end) ?w = _ => destruct b eqn:?
  end.

(** Run every recorded action down to the primitives; calls of
    [run_oci_command] and loops are kept as they are. *)
Ltac run :=
  repeat match goal with
         | H : ?lhs = (_, _) |- _ =>
             lazymatch lhs with
             | (_, _) => fail
             | run_oci_command _ _ _ _ _ _ => fail
             | for_each _ _ _ => fail
             | _ => first [ step H | progress (prim H) ]
             end
         end.

Ltac use_quiet :=
  repeat match goal with
         | E : run_oci_command _ _ _ _ _ _ = _ |- _ =>
             apply run_oci_command_quiet in E;
             destruct E as [(?&?&?&?&?) ?]
         end.

Ltac world_simpl :=
  cbn [files procs stdin trace with_files with_procs with_stdin with_trace
       pid session_id local_port target_host target_port bastion_endpoint] in *;
  rewrite ?spawned_snoc, ?signalled_snoc, ?oci_history_snoc, ?app_nil_r in *.

Lemma start_tunnel_effect e sid lp th tp key bg w r w' :
  start_tunnel e sid lp th tp key bg w = (r, w') →
  stdin w' = stdin w ∧ signalled (trace w') = signalled (trace w) ∧
  ((files w' = files w ∧ procs w' = procs w ∧
    spawned (trace w') = spawned (trace w) ∧ ∀ child, r ≠ Ok (Some child))
   ∨ (∃ child now ep,
        bg = true ∧
        procs w' = <[child := {| signalable := true; started := now |}]> (procs w) ∧
        spawned (trace w') = spawned (trace w) ++ [child] ∧
        ESpawn (ssh_cmd sid lp th tp ep (expanduser e (str_or key (SSH_KEY e))))
          child ∈ trace w' ∧
        ((r = Ok (Some child) ∧
          files w' = <[tunnel_file lp :=
                        {| pid := child; session_id := sid; local_port := lp;
                           target_host := th; target_port := tp;
                           bastion_endpoint := ep |}]> (files w))
         ∨ (r = Raise (OSError EACCES) ∧ files w' = files w)))).
Proof.
  unfold start_tunnel. intros H.
  run; use_quiet; world_simpl.
  all: split; [congruence|split; [congruence|]].
  all: try solve [left; repeat split; (congruence || done)].
  all: right;
    match goal with
    | Hp : popen _ _ _ = Some (?c, ?n),
      He : py_getitem _ "bastion-endpoint" = inr ?ep |- _ => exists c, n, ep
    end.
  all: split; [done|]; split; [congruence|]; split; [congruence|].
  all: split; [rewrite ?elem_of_app, ?list_elem_of_singleton; tauto|].
  - left. split; [done|]. congruence.
  - right. split; [done|]. congruence.
Qed.

(* ===================================================================== *)
(** ** The tunnel registry: list and close *)
(* ===================================================================== *)

Lemma os_kill_spec w p sig :
  os_kill p sig w =
  if responds w p
  then (Ok tt, match sig with
               | SIG0 => w
               | SIGTERM => with_trace (trace w ++ [ESignal p SIGTERM]) w
               end)
  else (Raise (OSError (if bool_decide (running w p) then EPERM else ESRCH)), w).
Proof.
  unfold os_kill, responds, running.
  destruct (procs w !! p) as [q|] eqn:E.
  - destruct (signalable q), sig; try done; by rewrite bool_decide_eq_true_2.
  - by rewrite bool_decide_eq_false_2; [|intros [? [=]]].
Qed.

Ltac probe_cases :=
  unfold responds;
  repeat match goal with
         | H : procs _ !! _ = _ |- _ => rewrite H
         | H : signalable _ = _ |- _ => rewrite H
         end.

Lemma list_one_spec name d w :
  files w !! name = Some d →
  list_one name w =
  if responds w (pid d)
  then (Ok tt, with_trace (trace w ++ [EPrint (tunnel_line d "RUNNING")]) w)
  else (Ok tt, with_files (delete name (files w)) w).
Proof.
  intros Hf. unfold list_one, read_json, probe_status, try_except.
  rewrite bind_eq, Hf, bind_eq, bind_eq, os_kill_spec.
  destruct (responds w (pid d)); [done|].
  cbn. unfold unlink. rewrite bind_eq, Hf. done.
Qed.

Lemma omap_ext_in {A B} (f g : A → option B) (l : list A) :
  (∀ x, x ∈ l → f x = g x) → omap f l = omap g l.
Proof.
  induction l as [|x l IH]; intros H; [done|]. cbn.
  rewrite (H x) by left. rewrite IH; [done|]. intros y Hy. apply H. by right.
Qed.

Lemma list_loop names :
  ∀ w, NoDup names → (∀ n, n ∈ names → is_Some (files w !! n)) →
  ∃ w' evs,
    for_each names list_one w = (Ok tt, w') ∧
    trace w' = trace w ++ evs ∧
    printed evs = live_lines w names ∧
    spawned evs = [] ∧ signalled evs = [] ∧
    procs w' = procs w ∧ stdin w' = stdin w ∧
    files w' = filter (λ nd, nd.1 ∈ names → responds w (pid nd.2) = true) (files w) ∧
    evs = EPrint <$> live_lines w names.
Proof.
  induction names as [|n names IH]; intros w Hnd Hin.
  - exists w, []. cbn. rewrite app_nil_r. repeat split; try done.
    symmetry. apply map_filter_id. intros ? ? _ Hn. cbn in Hn. by apply elem_of_nil in Hn.
  - apply NoDup_cons in Hnd as [Hn Hnd].
    destruct (Hin n) as [d Hd]; [left|].
    cbn [for_each]. rewrite bind_eq, (list_one_spec _ _ _ Hd).
    destruct (responds w (pid d)) eqn:Hr.
    + destruct (IH (with_trace (trace w ++ [EPrint (tunnel_line d "RUNNING")]) w) Hnd)
        as (w' & evs & Hrun & Htr & Hpr & Hsp & Hsg & Hp & Hs & Hf & Hev).
      { intros m Hm. cbn. apply Hin. by right. }
      exists w', (EPrint (tunnel_line d "RUNNING") :: evs).
      split; [done|]. cbn in *. split; [by rewrite Htr, <- app_assoc|].
      split.
      { unfold live_lines. cbn. rewrite Hd, Hr. f_equal. done. }
      assert (Hev' : EPrint (tunnel_line d "RUNNING") :: evs =
                     EPrint <$> live_lines w (n :: names)).
      { unfold live_lines. cbn. rewrite Hd, Hr. cbn. f_equal. exact Hev. }
      repeat split; try done.
      rewrite Hf. apply map_filter_ext. intros k x Hk. cbn. unfold responds. cbn.
      split; intros HP Hel.
      * apply elem_of_cons in Hel as [->|Hel]; [|by apply HP].
        rewrite Hd in Hk. simplify_eq. apply Hr.
      * apply HP. by right.
    + destruct (IH (with_files (delete n (files w)) w) Hnd)
        as (w' & evs & Hrun & Htr & Hpr & Hsp & Hsg & Hp & Hs & Hf & Hev).
      { intros m Hm. cbn. rewrite lookup_delete_ne; [apply Hin; by right|].
        intros ->. done. }
      exists w', evs. split; [done|]. cbn in *. split; [done|].
      assert (Hll : live_lines (with_files (delete n (files w)) w) names =
                    live_lines w (n :: names)).
      { unfold live_lines. cbn. rewrite Hd, Hr.
        apply omap_ext_in. intros m Hm.
        rewrite lookup_delete_ne; [done|]. intros ->. done. }
      split; [by rewrite Hpr|].
      assert (Hev' : evs = EPrint <$> live_lines w (n :: names))
        by (by rewrite <- Hll).
      repeat split; try done.
      rewrite Hf. apply map_eq. intros k. apply option_eq. intros x.
      rewrite !map_lookup_filter_Some. cbn. unfold responds at 1. cbn.
      destruct (decide (k = n)) as [->|Hne].
      * rewrite lookup_delete_eq. split; [by intros [[=] _]|].
        intros [Hx HP]. rewrite Hd in Hx. simplify_eq.
        rewrite HP in Hr; [done|by left].
      * rewrite lookup_delete_ne by done.
        split; intros [Hx HP]; (split; [done|]); intros Hel.
        -- apply elem_of_cons in Hel as [->|Hel]; [done|by apply HP].
        -- apply HP. by right.
Qed.

Lemma tunnel_line_pid d d' s s' : tunnel_line d s = tunnel_line d' s' → pid d = pid d'.
Proof. unfold tunnel_line. by intros [= ->]. Qed.

Lemma ends_with_append suffix s : ends_with suffix (s +:+ suffix) = true.
Proof.
  induction s as [|c s IH].
  - change (ends_with suffix suffix = true).
    destruct suffix as [|a suffix]; [done|].
    change (String.eqb (String a suffix) (String a suffix) || ends_with (String a suffix) suffix = true).
    by rewrite String.eqb_refl.
  - change (String.eqb suffix (String c (s +:+ suffix)) || ends_with suffix (s +:+ suffix) = true).
    rewrite IH. apply orb_true_r.
Qed.

(** The record file of every local port is among the files that
    [list_tunnels] and [close_all_tunnels] go through. *)
Lemma glob_match_tunnel_file port : glob_match (tunnel_file port) = true.
Proof.
  unfold glob_match, tunnel_file.
  change (strip_prefix "tunnel-" ("tunnel-" +:+ port +:+ ".json"))
    with (Some (port +:+ ".json")).
  exact (ends_with_append ".json" port).
Qed.

Lemma glob_names_spec w n :
  n ∈ filter (λ n, glob_match n = true) (map_to_list (files w)).*1 ↔
  glob_match n = true ∧ is_Some (files w !! n).
Proof.
  rewrite list_elem_of_filter, list_elem_of_fmap. split.
  - intros [Hg ([k d] & -> & Hin)]. apply elem_of_map_to_list in Hin. eauto.
  - intros [Hg [d Hd]]. split; [done|]. exists (n, d). split; [done|].
    by apply elem_of_map_to_list.
Qed.

Lemma live_lines_spec w names d :
  tunnel_line d "RUNNING" ∈ live_lines w names →
  responds w (pid d) = true.
Proof.
  unfold live_lines. rewrite list_elem_of_omap. intros (n & _ & Hn).
  destruct (files w !! n) as [d'|]; [|done].
  destruct (responds w (pid d')) eqn:Hr; [|done].
  assert (Hl : tunnel_line d' "RUNNING" = tunnel_line d "RUNNING") by congruence.
  apply tunnel_line_pid in Hl. by rewrite <- Hl.
Qed.

Lemma live_lines_intro w names n d :
  n ∈ names → files w !! n = Some d → responds w (pid d) = true →
  tunnel_line d "RUNNING" ∈ live_lines w names.
Proof.
  intros Hn Hd Hr. unfold live_lines. apply list_elem_of_omap.
  exists n. split; [done|]. by rewrite Hd, Hr.
Qed.

Lemma list_tunnels_unfold w :
  list_tunnels w =
  match tunnel_names w with
  | [] => log_info (txt "No active tunnels") w
  | _ => bind (log_info (txt "Active tunnels:"))
           (fun _ => for_each (tunnel_names w) list_one) w
  end.
Proof.
  unfold list_tunnels, ensure_tunnel_dir, glob_tunnels, tunnel_names.
  rewrite bind_eq. cbn [ret]. rewrite bind_eq. by destruct (filter _ _).
Qed.

(** What a run of [list_tunnels] does, in full: it returns, prints the
    lines of the records whose probe succeeds, in the order of the listing,
    and keeps exactly the files that are not tunnel records or whose probe
    succeeds. *)
Lemma list_tunnels_run (w : World) :
  ∃ w' evs,
    list_tunnels w = (Ok tt, w') ∧
    trace w' = trace w ++ evs ∧
    procs w' = procs w ∧
    files w' = filter (λ nd, glob_match nd.1 = true → responds w (pid nd.2) = true)
                 (files w) ∧
    printed evs = live_lines w (tunnel_names w) ∧
    evs = listing_events w.
Proof.
  unfold listing_events. rewrite list_tunnels_unfold.
  assert (Hnames : ∀ n, n ∈ tunnel_names w ↔
                        glob_match n = true ∧ is_Some (files w !! n))
    by apply glob_names_spec.
  assert (Hnd : NoDup (tunnel_names w)).
  { apply NoDup_filter, NoDup_fst_map_to_list. }
  assert (Hfilter : ∀ w0 : World, files w0 = files w → procs w0 = procs w →
    filter (λ nd, nd.1 ∈ tunnel_names w → responds w0 (pid nd.2) = true) (files w0) =
    filter (λ nd, glob_match nd.1 = true → responds w (pid nd.2) = true) (files w)).
  { intros w0 Hf0 Hp0. rewrite Hf0. apply map_filter_ext. intros k x Hk. cbn.
    unfold responds. rewrite Hp0. rewrite Hnames.
    split; intros HP ?; apply HP; [split; eauto|tauto]. }
  destruct (tunnel_names w) as [|n0 names0] eqn:Hl.
  - exists (with_trace (trace w ++ [ELog Info (txt "No active tunnels")]) w),
      [ELog Info (txt "No active tunnels")].
    split; [done|]. cbn. split; [done|]. split; [done|].
    rewrite <- (Hfilter w) by done. split; [|done].
    symmetry. apply map_filter_id. intros ? ? _ Hn. by apply elem_of_nil in Hn.
  - rewrite <- Hl in *. clear Hl n0 names0.
    unfold log_info at 1. rewrite bind_eq. cbn [emit].
    set (w1 := with_trace (trace w ++ [ELog Info (txt "Active tunnels:")]) w).
    destruct (list_loop (tunnel_names w) w1 Hnd)
      as (w' & evs & Hrun & Htr & Hpr & _ & _ & Hp & _ & Hf & Hev).
    { intros n Hn. apply Hnames in Hn. tauto. }
    exists w', (ELog Info (txt "Active tunnels:") :: evs).
    split; [exact Hrun|]. split; [by rewrite Htr; cbn; rewrite <- app_assoc|].
    split; [done|]. rewrite Hf, Hfilter by done. split; [done|].
    split; [exact Hpr|]. rewrite Hev.
    by destruct (tunnel_names w).
Qed.

Lemma live_lines_elem w line :
  line ∈ live_lines w (tunnel_names w) ↔
  ∃ name d, files w !! name = Some d ∧ glob_match name = true ∧
            responds w (pid d) = true ∧ line = tunnel_line d "RUNNING".
Proof.
  unfold live_lines. rewrite list_elem_of_omap. split.
  - intros (n & Hn & Hl). apply glob_names_spec in Hn as [Hg _].
    destruct (files w !! n) as [d|] eqn:Hd; [|done].
    destruct (responds w (pid d)) eqn:Hr; [|done].
    injection Hl as <-. by exists n, d.
  - intros (n & d & Hd & Hg & Hr & ->). exists n.
    split; [apply glob_names_spec; eauto|]. by rewrite Hd, Hr.
Qed.

(** No line of the listing is about a record whose probe fails, whatever
    the status shown. *)
Lemma live_lines_unprobed w d status :
  responds w (pid d) = false →
  tunnel_line d status ∉ live_lines w (tunnel_names w).
Proof.
  intros Hr Hin. apply live_lines_elem in Hin as (n & d' & _ & _ & Hr' & Hl).
  apply tunnel_line_pid in Hl. congruence.
Qed.

Lemma live_lines_iff w name d :
  files w !! name = Some d → glob_match name = true →
  tunnel_line d "RUNNING" ∈ live_lines w (tunnel_names w) ↔
  responds w (pid d) = true.
Proof.
  intros Hd Hg. split.
  - apply live_lines_spec.
  - intros Hr. apply (live_lines_intro w _ name d); [|done..].
    apply glob_names_spec. eauto.
Qed.

Lemma swept_lookup_None w name d :
  files w !! name = Some d → glob_match name = true →
  filter (λ nd, glob_match nd.1 = true → responds w (pid nd.2) = true)
    (files w) !! name = None ↔
  responds w (pid d) = false.
Proof.
  intros Hd Hg. rewrite map_lookup_filter_None. cbn. split.
  - intros [Hnone|HP]; [congruence|].
    destruct (responds w (pid d)) eqn:Hr; [|done].
    exfalso. by apply (HP d Hd).
  - intros Hr. right. intros x Hx HP. rewrite Hd in Hx. simplify_eq.
    rewrite HP in Hr; done.
Qed.

(** C1 (as amended). [list_tunnels] always returns; it reports a record of
    the registry if and only if signal 0 can be delivered to the recorded
    pid (a process with that pid runs and the caller may signal it), it
    removes the record file of every tunnel whose probe fails, and it leaves
    the other files and the process table alone.  It prints only the
    records whose probe succeeds: all it does to the outside is to log the
    header and to print, in the order of the listing, one RUNNING line for
    each record that responds; every printed line is such a line, and no
    line of any status is printed for a record whose probe fails. *)
Theorem list_tunnels_reports_responding (w : World) :
  ∃ w' evs,
    list_tunnels w = (Ok tt, w') ∧
    trace w' = trace w ++ evs ∧
    procs w' = procs w ∧
    files w' = filter (λ nd, glob_match nd.1 = true → responds w (pid nd.2) = true)
                 (files w) ∧
    evs = listing_events w ∧
    printed evs = live_lines w (tunnel_names w) ∧
    (∀ line, line ∈ printed evs ↔
       ∃ name d, files w !! name = Some d ∧ glob_match name = true ∧
                 responds w (pid d) = true ∧ line = tunnel_line d "RUNNING") ∧
    ∀ name d, files w !! name = Some d → glob_match name = true →
      (tunnel_line d "RUNNING" ∈ printed evs ↔ responds w (pid d) = true) ∧
      (responds w (pid d) = false → ∀ status, tunnel_line d status ∉ printed evs) ∧
      (files w' !! name = None ↔ responds w (pid d) = false).
Proof.
  destruct (list_tunnels_run w) as (w' & evs & Hrun & Htr & Hp & Hf & Hpr & Hev).
  exists w', evs. repeat (split; [done|]).
  split; [intros line; rewrite Hpr; apply live_lines_elem|].
  intros name d Hd Hg. rewrite Hpr, Hf. split; [|split].
  - by apply (live_lines_iff w name).
  - intros Hr status. by apply live_lines_unprobed.
  - by apply swept_lookup_None.
Qed.

(** Scenario C of the specification: a later invocation lists the tunnel
    registered on port 8080 as running; once its process has been killed,
    listing shows nothing and leaves no record file behind. *)
Example list_tunnels_scenario :
  printed (trace (list_tunnels ex_live).2) = [tunnel_line (ex_record 4242) "RUNNING"] ∧
  files (list_tunnels ex_live).2 = files ex_live ∧
  printed (trace (list_tunnels ex_stale).2) = [] ∧
  files (list_tunnels ex_stale).2 = ∅.
Proof. repeat split; by vm_compute. Qed.

(** C1 as stated fails in both directions.  A tunnel whose ssh client runs
    under another user is alive, and [list_tunnels] neither reports it nor
    keeps its record; a tunnel whose ssh client is gone, with its pid taken
    by a later process, is reported as RUNNING. *)
Lemma list_tunnels_not_iff_owner_alive :
  (files ex_foreign !! tunnel_file "8080" = Some (ex_record 4242) ∧
   owner_running ex_foreign 4242 7 ∧
   (list_tunnels ex_foreign).1 = Ok tt ∧
   (tunnel_line (ex_record 4242) "RUNNING"
      ∉ printed (trace (list_tunnels ex_foreign).2)) ∧
   files (list_tunnels ex_foreign).2 !! tunnel_file "8080" = None)
  ∧
  (files ex_reused !! tunnel_file "8080" = Some (ex_record 4242) ∧
   ¬ owner_running ex_reused 4242 7 ∧
   (list_tunnels ex_reused).1 = Ok tt ∧
   (tunnel_line (ex_record 4242) "RUNNING"
      ∈ printed (trace (list_tunnels ex_reused).2)) ∧
   files (list_tunnels ex_reused).2 !! tunnel_file "8080" = Some (ex_record 4242)).
Proof.
  split.
  - split; [by vm_compute|]. split.
    { eexists. split; [by vm_compute|done]. }
    split; [by vm_compute|]. split; [|by vm_compute].
    replace (printed _) with (@nil Text) by (by vm_compute). apply not_elem_of_nil.
  - split; [by vm_compute|]. split.
    { intros (q & Hq & Hs). vm_compute in Hq. injection Hq as <-. done. }
    split; [by vm_compute|]. split; [|by vm_compute].
    replace (printed _) with [tunnel_line (ex_record 4242) "RUNNING"] by (by vm_compute).
    left.
Qed.

(** C5. [close_tunnel] on a port without record returns normally and
    changes neither the registry nor any process; on a port with a record
    it returns normally with the record file removed, whether [SIGTERM]
    could be delivered or not: a failed delivery only logs a warning. *)
Theorem close_tunnel_removes_record (port : string) (w : World) :
  (files w !! tunnel_file port = None →
     ∃ w', close_tunnel port w = (Ok tt, w') ∧
           files w' = files w ∧ procs w' = procs w ∧
           signalled (trace w') = signalled (trace w)) ∧
  (∀ d, files w !! tunnel_file port = Some d →
     ∃ w', close_tunnel port w = (Ok tt, w') ∧
           files w' = delete (tunnel_file port) (files w) ∧
           procs w' = procs w ∧
           if responds w (pid d)
           then signalled (trace w') = signalled (trace w) ++ [(pid d, SIGTERM)]
           else signalled (trace w') = signalled (trace w) ∧
                ∃ errno,
                  trace w' = trace w ++
                    [ELog Warn [Lit "Process may already be dead: ";
                                Exc (OSError errno)]]).
Proof.
  split; [intros Hf | intros d Hf];
    destruct (close_tunnel port w) as [r w'] eqn:H;
    unfold close_tunnel, load_tunnel_info in H; run; world_simpl;
    try match goal with
        | Hb : bool_decide _ = _ |- _ =>
            first [ apply bool_decide_eq_true_1 in Hb
                  | apply bool_decide_eq_false_1 in Hb ]
        end;
    try (rewrite Hf in *; simplify_eq);
    try (exfalso; eauto; fail);
    try (eexists; split; [reflexivity|]; world_simpl; probe_cases;
         repeat split; (done || by eexists)).
Qed.


Lemma close_tunnel_removes_record_witness :
  (∃ w', close_tunnel "9999" ex_stale = (Ok tt, w') ∧ files w' = files ex_stale) ∧
  (∃ w', close_tunnel "8080" ex_stale = (Ok tt, w') ∧
         files w' = delete (tunnel_file "8080") (files ex_stale)).
Proof.
  split.
  - destruct (proj1 (close_tunnel_removes_record "9999" ex_stale))
      as (w' & Hrun & Hf & _); [by vm_compute|]. by exists w'.
  - destruct (proj2 (close_tunnel_removes_record "8080" ex_stale) (ex_record 4242))
      as (w' & Hrun & Hf & _); [by vm_compute|]. by exists w'.
Defined.

Lemma list_tunnels_reports_responding_witness :
  (∃ w' evs,
     list_tunnels ex_reused = (Ok tt, w') ∧
     printed evs = [tunnel_line (ex_record 4242) "RUNNING"] ∧
     (tunnel_line (ex_record 4242) "RUNNING" ∈ printed evs
      ↔ responds ex_reused 4242 = true)) ∧
  (∃ w' evs,
     list_tunnels ex_foreign = (Ok tt, w') ∧
     evs = [ELog Info (txt "Active tunnels:")] ∧
     (∀ status, tunnel_line (ex_record 4242) status ∉ printed evs) ∧
     files w' !! tunnel_file "8080" = None).
Proof.
  split.
  - destruct (list_tunnels_reports_responding ex_reused)
      as (w' & evs & Hrun & _ & _ & _ & _ & Hpr & _ & H).
    exists w', evs. split; [done|]. split; [by rewrite Hpr; vm_compute|].
    apply (H (tunnel_file "8080") (ex_record 4242)); by vm_compute.
  - destruct (list_tunnels_reports_responding ex_foreign)
      as (w' & evs & Hrun & _ & _ & _ & Hev & _ & _ & H).
    exists w', evs. split; [done|]. split; [by rewrite Hev; vm_compute|].
    destruct (H (tunnel_file "8080") (ex_record 4242)) as (_ & Hno & Hgone);
      [by vm_compute..|].
    split; [apply Hno|apply Hgone]; by vm_compute.
Defined.

(** C9. Whenever signal 0 to the recorded pid raises an [OSError], whatever
    its error number, [list_tunnels] removes the record file and does not
    report the record: no line is printed for it, with whatever status,
    the only lines printed being the RUNNING lines of the records that
    respond, and nothing but the header is logged.  A process that runs but
    may not be signalled is such a case: the probe raises the permission
    error. *)
Theorem list_tunnels_purges_unprobed (w : World) (name : string) (d : TunnelData) :
  files w !! name = Some d →
  glob_match name = true →
  (∀ errno w1, os_kill (pid d) SIG0 w = (Raise (OSError errno), w1) →
     ∃ w' evs, list_tunnels w = (Ok tt, w') ∧ trace w' = trace w ++ evs ∧
               files w' !! name = None ∧
               (tunnel_line d "RUNNING" ∉ printed evs) ∧
               (∀ status, tunnel_line d status ∉ printed evs) ∧
               (∀ line, line ∈ printed evs →
                  ∃ d', line = tunnel_line d' "RUNNING" ∧
                        responds w (pid d') = true ∧ pid d' ≠ pid d) ∧
               evs = listing_events w) ∧
  (running w (pid d) → responds w (pid d) = false →
     os_kill (pid d) SIG0 w = (Raise (OSError EPERM), w)).
Proof.
  intros Hd Hg. split.
  - intros errno w1 Hk. rewrite os_kill_spec in Hk.
    destruct (responds w (pid d)) eqn:Hr; [done|].
    destruct (list_tunnels_run w) as (w' & evs & Hrun & Htr & _ & Hf & Hpr & Hev).
    exists w', evs. repeat split; [done|done| | | | |done].
    + rewrite Hf. by apply (swept_lookup_None w name d).
    + rewrite Hpr. by apply live_lines_unprobed.
    + intros status. rewrite Hpr. by apply live_lines_unprobed.
    + intros line Hin. rewrite Hpr in Hin.
      apply live_lines_elem in Hin as (n & d' & _ & _ & Hr' & ->).
      exists d'. repeat split; [done|]. congruence.
  - intros Hrun Hr. rewrite os_kill_spec, Hr.
    by rewrite bool_decide_eq_true_2.
Qed.

Lemma list_tunnels_purges_unprobed_witness :
  os_kill 4242 SIG0 ex_foreign = (Raise (OSError EPERM), ex_foreign) ∧
  ∃ w' evs, list_tunnels ex_foreign = (Ok tt, w') ∧
            trace w' = trace ex_foreign ++ evs ∧
            files w' !! tunnel_file "8080" = None ∧
            (tunnel_line (ex_record 4242) "RUNNING" ∉ printed evs) ∧
            (∀ status, tunnel_line (ex_record 4242) status ∉ printed evs) ∧
            evs = [ELog Info (txt "Active tunnels:")].
Proof.
  assert (Hd : files ex_foreign !! tunnel_file "8080" = Some (ex_record 4242))
    by (by vm_compute).
  assert (Hg : glob_match (tunnel_file "8080") = true) by (by vm_compute).
  destruct (list_tunnels_purges_unprobed ex_foreign _ _ Hd Hg) as [Hdead Hperm].
  assert (Hk : os_kill 4242 SIG0 ex_foreign = (Raise (OSError EPERM), ex_foreign)).
  { apply Hperm.
    - exists {| signalable := false; started := 7 |}. by vm_compute.
    - by vm_compute. }
  split; [exact Hk|].
  destruct (Hdead EPERM ex_foreign Hk)
    as (w' & evs & Hrun & Htr & Hf & Hno & Hst & _ & Hev).
  exists w', evs. repeat (split; [done|]). by rewrite Hev; vm_compute.
Defined.

(* ===================================================================== *)
(** ** Actions that ignore the registry, or the terminal *)
(* ===================================================================== *)

Section Ignores.
Context (R : World → World → Prop).

Lemma ignores_ret {A} (a : A) : ignores R (ret a).
Proof. by intros w v HR. Qed.

Lemma ignores_raise {A} (x : Exn) : ignores R (@raise A x).
Proof. by intros w v HR. Qed.

Lemma ignores_lift {A} (r : Exn + A) : ignores R (lift r).
Proof. destruct r; [apply ignores_raise | apply ignores_ret]. Qed.

Lemma ignores_bind {A B} (m : M A) (k : A → M B) :
  ignores R m → (∀ a, ignores R (k a)) → ignores R (bind m k).
Proof.
  intros Hm Hk w v HR. destruct (Hm w v HR) as [Hr HR'].
  rewrite !bind_eq.
  destruct (m w) as [r1 w1], (m v) as [r2 v1]. cbn in Hr, HR'. subst r2.
  destruct r1 as [a|x|]; [by apply Hk|done..].
Qed.

Lemma ignores_try_except {A} (m : M A) (h : Exn → option (M A)) :
  ignores R m → (∀ x h', h x = Some h' → ignores R h') → ignores R (try_except m h).
Proof.
  intros Hm Hh w v HR. destruct (Hm w v HR) as [Hr HR'].
  unfold try_except.
  destruct (m w) as [r1 w1], (m v) as [r2 v1]. cbn in Hr, HR'. subst r2.
  destruct r1 as [a|x|]; [done| |done].
  destruct (h x) as [h'|] eqn:Hx; [by apply (Hh x)|done].
Qed.

Lemma ignores_for_each {A} (xs : list A) (body : A → M unit) :
  (∀ x, ignores R (body x)) → ignores R (for_each xs body).
Proof.
  intros Hb. induction xs as [|x xs IH]; cbn [for_each].
  - apply ignores_ret.
  - apply ignores_bind; [apply Hb|by intros _].
Qed.

End Ignores.

Ltac ignores_world :=
  let w := fresh "w" in let v := fresh "v" in
  intros w v; unfold same_but_files, same_but_stdin;
  let H1 := fresh in let H2 := fresh in let H3 := fresh in
  intros (H1 & H2 & H3); cbn; rewrite ?H1, ?H2, ?H3;
  repeat case_match; cbn; rewrite ?H1, ?H2, ?H3; try done.

Lemma files_ignores_emit ev : ignores same_but_files (emit ev).
Proof. unfold emit. ignores_world. Qed.

Lemma stdin_ignores_emit ev : ignores same_but_stdin (emit ev).
Proof. unfold emit. ignores_world. Qed.

Lemma files_ignores_subprocess_run e cmd : ignores same_but_files (subprocess_run e cmd).
Proof. unfold subprocess_run. ignores_world. Qed.

Lemma files_ignores_Popen e argv : ignores same_but_files (subprocess_Popen e argv).
Proof. unfold subprocess_Popen. ignores_world. Qed.

Lemma files_ignores_execvp e file argv :
  ignores same_but_files (os_execvp e file argv).
Proof. unfold os_execvp. ignores_world. Qed.

Lemma files_ignores_write_json e name d : ignores same_but_files (write_json e name d).
Proof. unfold write_json. ignores_world. Qed.

Lemma stdin_ignores_read_json name : ignores same_but_stdin (read_json name).
Proof. unfold read_json. ignores_world. Qed.

Lemma stdin_ignores_path_exists name : ignores same_but_stdin (path_exists name).
Proof. unfold path_exists. ignores_world. Qed.

Lemma stdin_ignores_unlink name : ignores same_but_stdin (unlink name).
Proof. unfold unlink. ignores_world. Qed.

Lemma stdin_ignores_os_kill p sig : ignores same_but_stdin (os_kill p sig).
Proof. unfold os_kill. ignores_world. Qed.

Lemma stdin_ignores_glob : ignores same_but_stdin glob_tunnels.
Proof. unfold glob_tunnels. ignores_world. Qed.

(** Take a composite action apart down to the primitives above. *)
Ltac ignores_steps :=
  unfold log_info, log_success, log_warn, log_error, print, os_system,
    time_sleep, sys_exit, ensure_tunnel_dir, save_tunnel_info;
  repeat first
    [ apply ignores_ret | apply ignores_raise | apply ignores_lift
    | apply files_ignores_emit | apply stdin_ignores_emit
    | apply files_ignores_subprocess_run | apply files_ignores_Popen
    | apply files_ignores_execvp | apply files_ignores_write_json
    | apply stdin_ignores_read_json | apply stdin_ignores_path_exists
    | apply stdin_ignores_unlink | apply stdin_ignores_os_kill
    | apply stdin_ignores_glob
    | apply ignores_bind; [|intros ?]
    | apply ignores_for_each; intros ?
    | apply ignores_try_except; [|intros ? ? ?]
    | match goal with
      | H : match ?x with _ => _ end = Some _ |- _ => destruct x; simplify_eq
      | |- ignores _ (if ?b then _ else _) => destruct b
      | |- ignores _ (match ?x with _ => _ end) => destruct x
      end ].

Lemma files_ignores_run_oci_command e args profile oj chk :
  ignores same_but_files (run_oci_command e args profile oj chk).
Proof. unfold run_oci_command. ignores_steps. Qed.

Lemma files_ignores_start_tunnel e sid lp th tp key bg :
  ignores same_but_files (start_tunnel e sid lp th tp key bg).
Proof.
  unfold start_tunnel. cbv zeta.
  repeat first [ apply files_ignores_run_oci_command | progress ignores_steps ].
Qed.

Lemma stdin_ignores_close_tunnel port : ignores same_but_stdin (close_tunnel port).
Proof. unfold close_tunnel, load_tunnel_info. cbv zeta. ignores_steps. Qed.

Lemma stdin_ignores_close_all_tunnels : ignores same_but_stdin close_all_tunnels.
Proof. unfold close_all_tunnels. cbv zeta. ignores_steps. Qed.

(* ===================================================================== *)
(** ** The tunnel launcher: registering a tunnel *)
(* ===================================================================== *)

Lemma load_tunnel_info_found port w d :
  files w !! tunnel_file port = Some d →
  load_tunnel_info port w = (Ok (Some d), w).
Proof.
  intros Hd. unfold load_tunnel_info, path_exists, read_json. cbv zeta.
  rewrite bind_eq. rewrite bool_decide_eq_true_2 by eauto.
  cbn [negb]. rewrite bind_eq. by rewrite Hd.
Qed.

(** C2 as stated fails: a tunnel is registered on port 8080 and its ssh
    client runs; starting another tunnel on 8080 is not rejected, and the
    record of the running tunnel is overwritten. *)
Lemma start_tunnel_overwrites_live_record :
  let run := start_tunnel (ex_env "ACTIVE" 5151) (JStr "ocid1.session.s2")
               "8080" "10.0.1.9" "3306" None true ex_live in
  files ex_live !! tunnel_file "8080" = Some (ex_record 4242) ∧
  responds ex_live 4242 = true ∧
  run.1 = Ok (Some 5151) ∧
  files run.2 !! tunnel_file "8080" =
    Some {| pid := 5151; session_id := JStr "ocid1.session.s2";
            local_port := "8080"; target_host := "10.0.1.9";
            target_port := "3306";
            bastion_endpoint := JStr "host.bastion.example" |}.
Proof. cbv zeta. repeat split; by vm_compute. Qed.

(** C2 (as amended). [start_tunnel] never looks at the registry: how it
    ends does not depend on the records present, live or stale.  When it
    returns a pid, the only change to the registry is that the file of the
    local port now holds the new record: an earlier record of that port is
    overwritten, and nothing is purged beforehand. *)
Theorem start_tunnel_ignores_registry
    (e : Env) (sid : Json) (lp th tp : string) (key : option string)
    (bg : bool) (w : World) :
  (∀ f, (start_tunnel e sid lp th tp key bg (with_files f w)).1 =
        (start_tunnel e sid lp th tp key bg w).1) ∧
  (∀ child w', start_tunnel e sid lp th tp key bg w = (Ok (Some child), w') →
     ∃ ep, files w' =
           <[tunnel_file lp :=
              {| pid := child; session_id := sid; local_port := lp;
                 target_host := th; target_port := tp;
                 bastion_endpoint := ep |}]> (files w)).
Proof.
  split.
  - intros f. apply files_ignores_start_tunnel. by repeat split.
  - intros child w' Hrun.
    destruct (start_tunnel_effect _ _ _ _ _ _ _ _ _ _ Hrun)
      as (_ & _ & [(_ & _ & _ & Hno) | (c & now & ep & _ & _ & _ & _ & Hr)]).
    + by destruct (Hno child).
    + destruct Hr as [[[= <-] Hf] | [[=] _]]. by exists ep.
Qed.

Lemma start_tunnel_ignores_registry_witness :
  let run := start_tunnel (ex_env "ACTIVE" 5151) (JStr "ocid1.session.s2")
               "8080" "10.0.1.9" "3306" None true ex_stale in
  files ex_stale !! tunnel_file "8080" = Some (ex_record 4242) ∧
  responds ex_stale 4242 = false ∧
  run.1 = Ok (Some 5151) ∧
  ∃ ep, files run.2 =
        <[tunnel_file "8080" :=
           {| pid := 5151; session_id := JStr "ocid1.session.s2";
              local_port := "8080"; target_host := "10.0.1.9";
              target_port := "3306"; bastion_endpoint := ep |}]> (files ex_stale).
Proof.
  intros run.
  assert (Hr : run.1 = Ok (Some 5151)) by (by vm_compute).
  split; [by vm_compute|]. split; [by vm_compute|]. split; [exact Hr|].
  apply (proj2 (start_tunnel_ignores_registry (ex_env "ACTIVE" 5151)
                  (JStr "ocid1.session.s2") "8080" "10.0.1.9" "3306" None true
                  ex_stale) 5151 run.2).
  rewrite <- Hr. apply surjective_pairing.
Defined.

(** C8. Registering a record and then getting the record of its local
    port gives the record back unchanged; a tunnel that [start_tunnel]
    registered is found under its local port with the pid of the spawned
    process, the session id, the ports and the host as passed, and the
    endpoint the process was started against. *)
Theorem register_then_get_roundtrip :
  (∀ (e : Env) (d : TunnelData) (w w' : World),
     save_tunnel_info e d w = (Ok tt, w') →
     load_tunnel_info (local_port d) w' = (Ok (Some d), w')) ∧
  (∀ (e : Env) (sid : Json) (lp th tp : string) (key : option string)
     (w w' : World) (child : Z),
     start_tunnel e sid lp th tp key true w = (Ok (Some child), w') →
     ∃ ep,
       ESpawn (ssh_cmd sid lp th tp ep (expanduser e (str_or key (SSH_KEY e))))
         child ∈ trace w' ∧
       load_tunnel_info lp w' =
         (Ok (Some {| pid := child; session_id := sid; local_port := lp;
                      target_host := th; target_port := tp;
                      bastion_endpoint := ep |}), w')).
Proof.
  split.
  - intros e d w w' Hs. apply load_tunnel_info_found.
    unfold save_tunnel_info, write_json in Hs.
    destruct (fs_create_ok e _); [|done]. injection Hs as <-. cbn.
    apply lookup_insert_eq.
  - intros e sid lp th tp key w w' child Hrun.
    destruct (start_tunnel_effect _ _ _ _ _ _ _ _ _ _ Hrun)
      as (_ & _ & [(_ & _ & _ & Hno) | (c & now & ep & _ & _ & _ & Hev & Hr)]).
    + by destruct (Hno child).
    + destruct Hr as [[[= <-] Hf] | [[=] _]]. exists ep. split; [done|].
      apply load_tunnel_info_found. rewrite Hf. apply lookup_insert_eq.
Qed.

Lemma register_then_get_roundtrip_witness :
  let saved := (save_tunnel_info (ex_env "ACTIVE" 4242) (ex_record 4242) ex_empty).2 in
  load_tunnel_info "8080" saved = (Ok (Some (ex_record 4242)), saved) ∧
  ∃ ep, load_tunnel_info "8080" ex_registered =
        (Ok (Some {| pid := 4242; session_id := JStr "ocid1.session.s1";
                     local_port := "8080"; target_host := "10.0.1.5";
                     target_port := "5432"; bastion_endpoint := ep |}),
         ex_registered).
Proof.
  intros saved. split.
  - apply (proj1 register_then_get_roundtrip (ex_env "ACTIVE" 4242)
             (ex_record 4242) ex_empty). reflexivity.
  - set (run := start_tunnel (ex_env "ACTIVE" 4242) (JStr "ocid1.session.s1")
                  "8080" "10.0.1.5" "5432" None true ex_empty).
    assert (Hr : run.1 = Ok (Some 4242)) by (by vm_compute).
    destruct (proj2 register_then_get_roundtrip (ex_env "ACTIVE" 4242)
                (JStr "ocid1.session.s1") "8080" "10.0.1.5" "5432" None
                ex_empty run.2 4242) as (ep & _ & Hl).
    { rewrite <- Hr. apply surjective_pairing. }
    by exists ep.
Defined.

(* ===================================================================== *)
(** ** The orchestrator: quick tunnel and the connect helpers *)
(* ===================================================================== *)

Lemma create_port_forward_session_quiet e th tp name bid w r w' :
  create_port_forward_session e th tp name bid w = (r, w') →
  quiet w w' ∧ r ≠ Replaced.
Proof.
  unfold create_port_forward_session. intros H.
  run; use_quiet; world_simpl; (split; [|done]); unfold quiet;
    world_simpl; repeat split; congruence.
Qed.

Lemma has_data_exn j x : has_data j = inl x → x = TypeError.
Proof.
  unfold has_data, py_in. destruct (truthy j); [|done].
  destruct j; congruence.
Qed.

Lemma py_getitem_exn j k x :
  py_getitem j k = inl x → x = TypeError ∨ x = KeyError k.
Proof.
  unfold py_getitem. destruct j; try (intros [= <-]; by left).
  destruct (dict_get k kv); [done|]. intros [= <-]. by right.
Qed.

Ltac pure_exn :=
  repeat match goal with
         | H : has_data _ = inl _ |- _ => apply has_data_exn in H; subst
         | H : py_getitem _ _ = inl _ |- _ =>
             apply py_getitem_exn in H; destruct H; subst
         end.

Lemma run_oci_command_history e args profile oj chk w r w' :
  run_oci_command e args profile oj chk w = (r, w') →
  (List.length (oci_history (trace w'))
     ≤ S (List.length (oci_history (trace w))))%nat.
Proof.
  unfold run_oci_command. intros H. run; world_simpl.
  all: rewrite ?length_app; cbn; lia.
Qed.

Lemma create_port_forward_session_history e th tp name bid w r w' :
  create_port_forward_session e th tp name bid w = (r, w') →
  (List.length (oci_history (trace w'))
     ≤ S (List.length (oci_history (trace w))))%nat ∧
  ∀ code, r ≠ Raise (SystemExit code).
Proof.
  unfold create_port_forward_session. intros H. run; world_simpl.
  all: try match goal with
         | E : run_oci_command _ _ _ _ _ _ = _ |- _ =>
             pose proof (run_oci_command_history _ _ _ _ _ _ _ _ E);
             unfold run_oci_command in E; run
         end.
  all: world_simpl; rewrite ?length_app in *; cbn in *; (split; [lia|]).
  all: intros code; pure_exn; done.
Qed.

Lemma start_tunnel_registers e sid lp th tp key bg w r w' :
  start_tunnel e sid lp th tp key bg w = (r, w') →
  registers_at w w' lp tp.
Proof.
  intros H. destruct (start_tunnel_effect _ _ _ _ _ _ _ _ _ _ H)
    as (_ & _ & [(Hf & _) | (c & now & ep & _ & _ & _ & _ & Hr)]).
  - by left.
  - destruct Hr as [[_ Hf] | [_ Hf]]; [right|by left].
    eexists. split; [exact Hf|done].
Qed.

Lemma registers_at_quiet_l w w1 w' lp tp :
  quiet w w1 → registers_at w1 w' lp tp → registers_at w w' lp tp.
Proof.
  intros (Hf & _) [H|(d & H & ?)]; [left|right]; [congruence|].
  exists d. split; [congruence|done].
Qed.

Lemma connect_via_tunnel_registers e host port name lp bid ann client w r w' :
  connect_via_tunnel e host port name lp bid ann client w = (r, w') →
  registers_at w w' (str_or lp port) port.
Proof.
  unfold connect_via_tunnel. intros H. run; world_simpl.
  all: repeat match goal with
         | E : create_port_forward_session _ _ _ _ _ _ = _ |- _ =>
             apply create_port_forward_session_quiet in E; destruct E as [E _]
         | E : start_tunnel _ _ _ _ _ _ _ _ = _ |- _ =>
             apply start_tunnel_registers in E
         end.
  all: try (by left; destruct E as (-> & _)).
  all: eapply registers_at_quiet_l; [eassumption|]; try done.
  all: unfold registers_at in *; world_simpl; done.
Qed.

Lemma quick_tunnel_registers e th tp lp bid w r w' :
  quick_tunnel e th tp lp bid w = (r, w') →
  registers_at w w' (str_or lp tp) tp.
Proof.
  unfold quick_tunnel. intros H. run; world_simpl.
  all: repeat match goal with
         | E : create_port_forward_session _ _ _ _ _ _ = _ |- _ =>
             apply create_port_forward_session_quiet in E; destruct E as [E _]
         | E : start_tunnel _ _ _ _ _ _ _ _ = _ |- _ =>
             apply start_tunnel_registers in E
         end.
  all: try (by left; destruct E as (-> & _)).
  all: try (by left).
  all: eapply registers_at_quiet_l; [eassumption|]; try done.
Qed.

Lemma str_or_default port : str_or None port = port ∧ str_or (Some port) port = port.
Proof. unfold str_or. by destruct (str_truthy port). Qed.

Ltac registers_at_guard H :=
  match type of H with
  | (if ?b then _ else _) ?w = _ =>
      destruct b;
      [ run; left; by world_simpl
      | apply connect_via_tunnel_registers in H;
        by rewrite (proj1 (str_or_default _)) in H ]
  end.

Lemma create_port_forward_session_args e th tp name bid w sid w1 :
  create_port_forward_session e th tp name bid w = (Ok sid, w1) →
  truthy sid = true →
  str_truthy th = true ∧ str_truthy tp = true.
Proof.
  unfold create_port_forward_session. intros H Ht.
  destruct (str_truthy th), (str_truthy tp); try done.
  all: rewrite ?orb_true_r in H; cbn [negb orb] in H; run; done.
Qed.

(** When the tunnel comes up, its record is in the registry, under the
    file of its local port. *)
Lemma tunnel_comes_up_registered e host port name bid lport w sid child w2 :
  tunnel_comes_up e host port name bid lport w sid child w2 →
  registered_as w w2 child sid lport host port ∧
  str_truthy host = true ∧ str_truthy port = true.
Proof.
  intros (w1 & Hc & Ht & Hs).
  split; [|by eapply create_port_forward_session_args].
  apply create_port_forward_session_quiet in Hc as [(Hf & _) _].
  destruct (start_tunnel_effect _ _ _ _ _ _ _ _ _ _ Hs)
    as (_ & _ & [(_ & _ & _ & Hr) | (c & now & ep & _ & _ & _ & _ & Hr)]).
  - by destruct (Hr child).
  - destruct Hr as [[[= <-] Hf2] | [[=] _]]. exists ep. by rewrite Hf2, Hf.
Qed.

Lemma quick_tunnel_up e th tp bid w sid child w2 :
  tunnel_comes_up e th tp "quick-tunnel" bid tp w sid child w2 →
  quick_tunnel e th tp None bid w = (Ok tt, w2).
Proof.
  intros Hup.
  destruct (tunnel_comes_up_registered _ _ _ _ _ _ _ _ _ _ Hup) as (_ & Hth & Htp).
  destruct Hup as (w1 & Hc & Ht & Hs).
  unfold quick_tunnel. rewrite Hth, Htp. cbn [negb orb str_or]. cbv zeta.
  rewrite bind_eq, Hc, Ht. cbn [negb]. by rewrite bind_eq, Hs.
Qed.

Lemma connect_via_tunnel_up e host port name bid ann client w sid child w2 :
  tunnel_comes_up e host port name bid port w sid child w2 →
  child ≠ 0 →
  ∃ w', connect_via_tunnel e host port name None bid ann client w = (Ok tt, w') ∧
        files w' = files w2.
Proof.
  intros (w1 & Hc & Ht & Hs) Hchild.
  unfold connect_via_tunnel. cbn [str_or]. cbv zeta.
  rewrite bind_eq, Hc, Ht. cbn [negb]. rewrite bind_eq, Hs.
  unfold no_pid. rewrite (proj2 (Z.eqb_neq child 0) Hchild).
  eexists. split; [reflexivity|done].
Qed.

Lemma registered_as_files w w2 w' child sid lport host port :
  registered_as w w2 child sid lport host port → files w' = files w2 →
  registered_as w w' child sid lport host port.
Proof. intros [ep Hf] Hw. exists ep. by rewrite Hw. Qed.

(** C10. In [quick_tunnel] and in each [connect_*] helper an omitted local
    port stands for the target port: the call behaves as if the target port
    had been passed as local port, and the only record it can write is the
    one of that port, with local port and target port equal.  Whenever the
    session is created and the tunnel comes up, the helper returns
    normally and the record of the tunnel is registered under the file of
    the target port, with its local port equal to its target port. *)
Theorem local_port_defaults_to_target_port (e : Env) (bid : option string) (w : World) :
  (∀ th tp,
     quick_tunnel e th tp None bid w = quick_tunnel e th tp (Some tp) bid w ∧
     registers_at w (quick_tunnel e th tp None bid w).2 tp tp ∧
     ∀ sid child w2,
       tunnel_comes_up e th tp "quick-tunnel" bid tp w sid child w2 →
       quick_tunnel e th tp None bid w = (Ok tt, w2) ∧
       registered_as w w2 child sid tp th tp) ∧
  (∀ host port db user,
     connect_postgres e host port db user None bid w =
       connect_postgres e host port db user (Some port) bid w ∧
     registers_at w (connect_postgres e host port db user None bid w).2 port port ∧
     ∀ sid child w2,
       str_truthy db = true → str_truthy user = true → child ≠ 0 →
       tunnel_comes_up e host port "postgres-session" bid port w sid child w2 →
       ∃ w', connect_postgres e host port db user None bid w = (Ok tt, w') ∧
             registered_as w w' child sid port host port) ∧
  (∀ host port db user,
     connect_mysql e host port db user None bid w =
       connect_mysql e host port db user (Some port) bid w ∧
     registers_at w (connect_mysql e host port db user None bid w).2 port port ∧
     ∀ sid child w2,
       str_truthy db = true → str_truthy user = true → child ≠ 0 →
       tunnel_comes_up e host port "mysql-session" bid port w sid child w2 →
       ∃ w', connect_mysql e host port db user None bid w = (Ok tt, w') ∧
             registered_as w w' child sid port host port) ∧
  (∀ host port,
     connect_redis e host port None bid w =
       connect_redis e host port (Some port) bid w ∧
     registers_at w (connect_redis e host port None bid w).2 port port ∧
     ∀ sid child w2,
       child ≠ 0 →
       tunnel_comes_up e host port "redis-session" bid port w sid child w2 →
       ∃ w', connect_redis e host port None bid w = (Ok tt, w') ∧
             registered_as w w' child sid port host port) ∧
  (∀ host port db,
     connect_mongodb e host port db None bid w =
       connect_mongodb e host port db (Some port) bid w ∧
     registers_at w (connect_mongodb e host port db None bid w).2 port port ∧
     ∀ sid child w2,
       child ≠ 0 →
       tunnel_comes_up e host port "mongodb-session" bid port w sid child w2 →
       ∃ w', connect_mongodb e host port db None bid w = (Ok tt, w') ∧
             registered_as w w' child sid port host port).
Proof.
  split; [|split; [|split; [|split]]].
  - intros th tp. split; [|split].
    + unfold quick_tunnel.
      by rewrite !(proj2 (str_or_default tp)), !(proj1 (str_or_default tp)).
    + destruct (quick_tunnel e th tp None bid w) as [r w'] eqn:H.
      apply quick_tunnel_registers in H. by rewrite (proj1 (str_or_default _)) in H.
    + intros sid child w2 Hup. split; [by apply (quick_tunnel_up e th tp bid w sid child)|].
      by apply tunnel_comes_up_registered in Hup as [? _].
  - intros host port db user. split; [|split].
    + unfold connect_postgres, connect_via_tunnel.
      by rewrite !(proj2 (str_or_default port)), !(proj1 (str_or_default port)).
    + destruct (connect_postgres e host port db user None bid w) as [r w'] eqn:H.
      unfold connect_postgres in H. registers_at_guard H.
    + intros sid child w2 Hdb Huser Hchild Hup.
      destruct (tunnel_comes_up_registered _ _ _ _ _ _ _ _ _ _ Hup) as (Hreg & Hh & Hp).
      unfold connect_postgres. cbn [forallb]. rewrite Hh, Hp, Hdb, Huser. cbn [andb negb].
      edestruct connect_via_tunnel_up as (w' & Hrun & Hf); [exact Hup|exact Hchild|].
      exists w'. split; [exact Hrun|]. by eapply registered_as_files.
  - intros host port db user. split; [|split].
    + unfold connect_mysql, connect_via_tunnel.
      by rewrite !(proj2 (str_or_default port)), !(proj1 (str_or_default port)).
    + destruct (connect_mysql e host port db user None bid w) as [r w'] eqn:H.
      unfold connect_mysql in H. registers_at_guard H.
    + intros sid child w2 Hdb Huser Hchild Hup.
      destruct (tunnel_comes_up_registered _ _ _ _ _ _ _ _ _ _ Hup) as (Hreg & Hh & Hp).
      unfold connect_mysql. cbn [forallb]. rewrite Hh, Hp, Hdb, Huser. cbn [andb negb].
      edestruct connect_via_tunnel_up as (w' & Hrun & Hf); [exact Hup|exact Hchild|].
      exists w'. split; [exact Hrun|]. by eapply registered_as_files.
  - intros host port. split; [|split].
    + unfold connect_redis, connect_via_tunnel.
      by rewrite !(proj2 (str_or_default port)), !(proj1 (str_or_default port)).
    + destruct (connect_redis e host port None bid w) as [r w'] eqn:H.
      unfold connect_redis in H. registers_at_guard H.
    + intros sid child w2 Hchild Hup.
      destruct (tunnel_comes_up_registered _ _ _ _ _ _ _ _ _ _ Hup) as (Hreg & Hh & Hp).
      unfold connect_redis. rewrite Hh. cbn [negb].
      edestruct connect_via_tunnel_up as (w' & Hrun & Hf); [exact Hup|exact Hchild|].
      exists w'. split; [exact Hrun|]. by eapply registered_as_files.
  - intros host port db. split; [|split].
    + unfold connect_mongodb, connect_via_tunnel.
      by rewrite !(proj2 (str_or_default port)), !(proj1 (str_or_default port)).
    + destruct (connect_mongodb e host port db None bid w) as [r w'] eqn:H.
      unfold connect_mongodb in H. registers_at_guard H.
    + intros sid child w2 Hchild Hup.
      destruct (tunnel_comes_up_registered _ _ _ _ _ _ _ _ _ _ Hup) as (Hreg & Hh & Hp).
      unfold connect_mongodb. rewrite Hh. cbn [negb].
      edestruct connect_via_tunnel_up as (w' & Hrun & Hf); [exact Hup|exact Hchild|].
      exists w'. split; [exact Hrun|]. by eapply registered_as_files.
Qed.

Lemma local_port_defaults_to_target_port_witness :
  (∃ w2,
     quick_tunnel (ex_env "ACTIVE" 4242) "10.0.1.5" "5432" None None ex_empty =
       (Ok tt, w2) ∧
     registered_as ex_empty w2 4242 (JStr "ocid1.session.s1")
       "5432" "10.0.1.5" "5432") ∧
  (∃ w',
     connect_postgres (ex_env "ACTIVE" 4242) "10.0.1.5" "5432" "orders" "app"
       None None ex_empty = (Ok tt, w') ∧
     registered_as ex_empty w' 4242 (JStr "ocid1.session.s1")
       "5432" "10.0.1.5" "5432").
Proof.
  pose (e := ex_env "ACTIVE" 4242).
  assert (Hup : ∀ name,
    tunnel_comes_up e "10.0.1.5" "5432" name None "5432" ex_empty
      (JStr "ocid1.session.s1") 4242
      (start_tunnel e (JStr "ocid1.session.s1") "5432" "10.0.1.5" "5432" None true
         (create_port_forward_session e "10.0.1.5" "5432" name None ex_empty).2).2).
  { intros name.
    set (c := create_port_forward_session e "10.0.1.5" "5432" name None ex_empty).
    set (s := start_tunnel e (JStr "ocid1.session.s1") "5432" "10.0.1.5" "5432"
                None true c.2).
    assert (Hc : c.1 = Ok (JStr "ocid1.session.s1")) by (by vm_compute).
    assert (Hs : s.1 = Ok (Some 4242)) by (by vm_compute).
    exists c.2. split; [rewrite <- Hc; apply surjective_pairing|].
    split; [done|]. rewrite <- Hs. apply surjective_pairing. }
  destruct (local_port_defaults_to_target_port e None ex_empty)
    as (Hquick & Hpg & _).
  split.
  - destruct (Hquick "10.0.1.5" "5432") as (_ & _ & H).
    eexists. exact (H _ _ _ (Hup "quick-tunnel")).
  - destruct (Hpg "10.0.1.5" "5432" "orders" "app") as (_ & _ & H).
    assert (Hne : (4242 : Z) ≠ 0) by done.
    exact (H _ _ _ eq_refl eq_refl Hne (Hup "postgres-session")).
Defined.

(** Scenario A of the specification: a quick tunnel to 10.0.1.5:5432 with
    the local port left out registers one record, on local port 5432, and
    [list_tunnels] then reports it. *)
Example quick_tunnel_scenario :
  let w1 := (quick_tunnel (ex_env "ACTIVE" 4242) "10.0.1.5" "5432" None None ex_empty).2 in
  map_to_list (files w1) =
    [(tunnel_file "5432",
      {| pid := 4242; session_id := JStr "ocid1.session.s1";
         local_port := "5432"; target_host := "10.0.1.5"; target_port := "5432";
         bastion_endpoint := JStr "host.bastion.example" |})] ∧
  printed (trace (list_tunnels (with_trace [] w1)).2) =
    [[Val (JNum 4242); Lit "\tlocalhost:"; Val (JStr "5432"); Lit "\t->\t";
      Val (JStr "10.0.1.5"); Lit ":"; Val (JStr "5432"); Lit "\t";
      Val (JStr "RUNNING")]].
Proof. cbv zeta. split; by vm_compute. Qed.

(** C6. When the creation call of [quick_tunnel] gives no session, because
    it raised (the oci client failed or timed out) or returned [None],
    [quick_tunnel] ends with a non-zero exit status exactly where the
    creation call stopped: no session is looked up, no process is spawned
    and the registry is left as it was. *)
Theorem quick_tunnel_aborts_without_session
    (e : Env) (th tp : string) (lp bid : option string) (w : World)
    (r : Res Json) (w1 : World) :
  create_port_forward_session e th tp "quick-tunnel" bid w = (r, w1) →
  no_session r →
  ∃ r' w' code,
    quick_tunnel e th tp lp bid w = (r', w') ∧
    exit_status r' = Some code ∧ code ≠ 0 ∧
    (str_truthy th && str_truthy tp = true → w' = w1) ∧
    files w' = files w ∧ procs w' = procs w ∧
    spawned (trace w') = spawned (trace w) ∧
    (List.length (oci_history (trace w'))
       ≤ S (List.length (oci_history (trace w))))%nat.
Proof.
  intros Hc Hno.
  destruct (create_port_forward_session_quiet _ _ _ _ _ _ _ _ Hc)
    as [(Hf & Hp & _ & Hs & _) _].
  destruct (create_port_forward_session_history _ _ _ _ _ _ _ _ Hc) as [Hh Hx].
  unfold quick_tunnel.
  destruct (str_truthy th) eqn:Hth; [destruct (str_truthy tp) eqn:Htp|]; cbn [negb orb andb].
  2,3: eexists _, _, 1; split; [reflexivity|]; cbn;
       rewrite spawned_snoc, oci_history_snoc, !app_nil_r;
       repeat split; try done; try lia.
  cbv zeta. rewrite bind_eq, Hc.
  destruct r as [sid| x|]; [| |done].
  - cbn in Hno. rewrite Hno. cbn [negb].
    exists (Raise (SystemExit 1)), w1, 1. by repeat split.
  - exists (Raise x), w1, (match x with SystemExit c => c | _ => 1 end).
    split; [done|]. split; [by destruct x|].
    split; [|by repeat split].
    destruct x; try done.
    (* the creation call never exits by itself *)
    by destruct (Hx code).
Qed.

Lemma quick_tunnel_aborts_without_session_witness :
  ∃ r' w' code,
    quick_tunnel ex_env_down "10.0.1.5" "5432" None None ex_empty = (r', w') ∧
    exit_status r' = Some code ∧ code ≠ 0 ∧
    files w' = files ex_empty ∧ spawned (trace w') = [].
Proof.
  set (c := create_port_forward_session ex_env_down "10.0.1.5" "5432"
              "quick-tunnel" None ex_empty).
  destruct (quick_tunnel_aborts_without_session ex_env_down "10.0.1.5" "5432"
              None None ex_empty c.1 c.2)
    as (r' & w' & code & Hrun & Hst & Hcode & _ & Hf & _ & Hsp & _).
  - apply surjective_pairing.
  - by vm_compute.
  - by exists r', w', code.
Defined.

(* ===================================================================== *)
(** ** The launcher and the state of the session *)
(* ===================================================================== *)

(** C3 fails on [start_tunnel]: the session is looked up, the service
    shows it as DELETED, and the ssh client is spawned and registered all
    the same; [quick_tunnel] does so too when the session it just created
    is no longer active by the time it is looked up. *)
Theorem start_tunnel_spawns_for_inactive_session :
  let e := ex_env "DELETED" 4242 in
  let direct := start_tunnel e (JStr "ocid1.session.s1")
                  "8080" "10.0.1.5" "5432" None true ex_empty in
  let quick := quick_tunnel e "10.0.1.5" "5432" (Some "8080") None ex_empty in
  (oci_cli e [] ["oci"; "bastion"; "session"; "get"; "--session-id";
                 "ocid1.session.s1"; "--profile"; "DEFAULT"; "--output"; "json"]
   = ok_reply (JObj [("data", JObj [("id", JStr "ocid1.session.s1");
                                    ("bastion-id", JStr "ocid1.bastion.oc1..b1");
                                    ("lifecycle-state", JStr "DELETED")])])) ∧
  direct.1 = Ok (Some 4242) ∧
  spawned (trace direct.2) = [4242] ∧
  files direct.2 !! tunnel_file "8080" = Some (ex_record 4242) ∧
  quick.1 = Ok tt ∧
  spawned (trace quick.2) = [4242] ∧
  files quick.2 !! tunnel_file "8080" = Some (ex_record 4242).
Proof. cbv zeta. repeat split; by vm_compute. Qed.

Lemma commands_run_snoc t ev :
  commands_run (t ++ [ev]) =
  commands_run t ++ match ev with ESystem c => [c] | _ => [] end.
Proof. unfold commands_run. rewrite omap_app. destruct ev; reflexivity. Qed.

Lemma run_oci_command_commands e args profile oj chk w r w' :
  run_oci_command e args profile oj chk w = (r, w') →
  commands_run (trace w') = commands_run (trace w).
Proof.
  unfold run_oci_command. intros H. run; world_simpl;
    rewrite ?commands_run_snoc, ?app_nil_r; done.
Qed.

Lemma is_str_true k j : is_str k j = true → j = JStr k.
Proof.
  destruct j; try discriminate. unfold is_str. intros H.
  apply String.eqb_eq in H. by subst.
Qed.

(** The sibling path: [connect_session] of bastion.py runs the ssh command
    of a session only when the service shows the session as ACTIVE. *)
Lemma connect_session_requires_active e sid lp key w r w' :
  connect_session e sid lp key w = (r, w') →
  commands_run (trace w') ≠ commands_run (trace w) →
  ∃ reply w1 session,
    run_oci_command e
      [JStr "bastion"; JStr "session"; JStr "get"; JStr "--session-id"; JStr sid]
      (OCI_PROFILE e) true true w = (Ok reply, w1) ∧
    py_getitem reply "data" = inr session ∧
    py_getitem session "lifecycle-state" = inr (JStr "ACTIVE").
Proof.
  unfold connect_session. intros H Hcmd. run; world_simpl.
  all: try match goal with
         | E : run_oci_command _ _ _ _ _ _ = _ |- _ =>
             pose proof (run_oci_command_commands _ _ _ _ _ _ _ _ E)
         end.
  all: rewrite ?commands_run_snoc, ?app_nil_r in Hcmd; try congruence.
  match goal with
  | Hs : negb (is_str "ACTIVE" ?s) = false |- _ =>
      apply negb_false_iff, is_str_true in Hs; subst
  end.
  by eexists _, _, _.
Qed.

(* ===================================================================== *)
(** ** The session client: deleting a session *)
(* ===================================================================== *)

Lemma run_delete_command e sid w :
  let reply := oci_cli e (oci_history (trace w)) (delete_cmd e sid) in
  let w1 := with_trace (trace w ++ [EOci (delete_cmd e sid)]) w in
  ∃ w',
    run_oci_command e
      [JStr "bastion"; JStr "session"; JStr "delete";
       JStr "--session-id"; JStr sid; JStr "--force"]
      (OCI_PROFILE e) false true w =
    (if Z.eqb (returncode reply) 0 then Ok JNull else Raise CalledProcessError, w') ∧
    quiet w w' ∧
    oci_history (trace w') = oci_history (trace w) ++ [delete_cmd e sid].
Proof.
  cbv zeta. unfold run_oci_command. cbn [argv_strings mapM mbind option_bind mret option_ret].
  unfold delete_cmd. cbn [app]. rewrite bind_eq. unfold subprocess_run.
  cbn [andb]. destruct (Z.eqb _ 0) eqn:Hrc; cbn [negb].
  - eexists. split; [reflexivity|]. unfold quiet. by world_simpl.
  - rewrite bind_eq. unfold log_error at 1. cbn [emit].
    rewrite bind_eq.
    destruct (str_truthy _); cbn; (eexists; split; [reflexivity|]);
      unfold quiet; world_simpl; cbn;
      rewrite ?spawned_snoc, ?signalled_snoc, ?oci_history_snoc, ?app_nil_r; done.
Qed.

(** C4 as stated fails: the first [delete_session] of a session succeeds,
    the second one, which the service answers with not-found, raises
    [CalledProcessError] and the command ends with status 1. *)
Lemma delete_session_twice_raises :
  let w := with_stdin ["y"; "y"] ex_empty in
  let first := delete_session ex_env_delete_once "ocid1.session.s1" w in
  let second := delete_session ex_env_delete_once "ocid1.session.s1" first.2 in
  first.1 = Ok tt ∧
  second.1 = Raise CalledProcessError ∧
  exit_status second.1 = Some 1.
Proof. cbv zeta. repeat split; by vm_compute. Qed.

(** C4 (as amended). [delete_session] adds nothing to what the oci client
    reports: once the user has confirmed, a call returns normally when the
    client exits with status 0 and raises [CalledProcessError] when it
    exits with any other status, on a first call as on a repeated one; a
    call the user declines returns normally. *)
Theorem delete_session_outcome
    (e : Env) (sid : string) (w : World) (answer : string) (rest : list string) :
  str_truthy sid = true →
  stdin w = answer :: rest →
  (delete_session e sid w).1 =
    if is_yes answer
    then if Z.eqb (returncode (oci_cli e (oci_history (trace w)) (delete_cmd e sid))) 0
         then Ok tt else Raise CalledProcessError
    else Ok tt.
Proof.
  intros Hsid Hin. unfold delete_session. rewrite Hsid. cbn [negb].
  rewrite bind_eq. unfold log_warn at 1. cbn [emit].
  rewrite bind_eq. unfold confirm_action. rewrite bind_eq. unfold input.
  cbn [stdin with_trace]. rewrite Hin. cbn [ret]. fold (is_yes answer).
  destruct (is_yes answer); cbn [negb]; [|done].
  rewrite bind_eq.
  match goal with |- context [run_oci_command e ?a ?p ?o ?c ?w0] =>
    destruct (run_delete_command e sid w0) as (w' & -> & _ & _) end.
  cbn [trace with_stdin with_trace]. rewrite !oci_history_snoc, !app_nil_r.
  by destruct (Z.eqb _ 0).
Qed.

Lemma delete_session_outcome_witness :
  let w := with_stdin ["y"; "y"] ex_empty in
  let first := delete_session ex_env_delete_once "ocid1.session.s1" w in
  (delete_session ex_env_delete_once "ocid1.session.s1" first.2).1 =
  Raise CalledProcessError.
Proof.
  cbv zeta.
  rewrite (delete_session_outcome ex_env_delete_once "ocid1.session.s1" _ "y" []);
    by vm_compute.
Defined.

(* ===================================================================== *)
(** ** Confirmation of destructive operations *)
(* ===================================================================== *)

Lemma world_eq w v :
  files w = files v → procs w = procs v → stdin w = stdin v → trace w = trace v →
  w = v.
Proof. destruct w, v. cbn. by intros -> -> -> ->. Qed.

Lemma close_tunnel_keeps_stdin port w : stdin (close_tunnel port w).2 = stdin w.
Proof.
  destruct (close_tunnel port w) as [r w'] eqn:H.
  unfold close_tunnel, load_tunnel_info in H. run; by world_simpl.
Qed.

Lemma close_one_keeps_stdin name w : stdin (close_one name w).2 = stdin w.
Proof.
  destruct (close_one name w) as [r w'] eqn:H.
  unfold close_one in H. run; by world_simpl.
Qed.

Lemma close_loop_keeps_stdin names :
  ∀ w, stdin (for_each names close_one w).2 = stdin w.
Proof.
  induction names as [|n names IH]; intros w; [done|].
  cbn [for_each]. rewrite bind_eq.
  pose proof (close_one_keeps_stdin n w) as Hn.
  destruct (close_one n w) as [[[]|x|] w1]; cbn in Hn; [|done..].
  by rewrite IH.
Qed.

Lemma close_all_tunnels_keeps_stdin w : stdin (close_all_tunnels w).2 = stdin w.
Proof.
  unfold close_all_tunnels, ensure_tunnel_dir, glob_tunnels.
  rewrite bind_eq. cbn [ret]. rewrite bind_eq.
  destruct (filter _ _) as [|n names] eqn:Hl; [done|].
  apply (close_loop_keeps_stdin (n :: names)).
Qed.

Lemma ignores_stdin_run {A} (m : M A) w answers :
  ignores same_but_stdin m →
  (∀ v, stdin (m v).2 = stdin v) →
  m (with_stdin answers w) = ((m w).1, with_stdin answers (m w).2).
Proof.
  intros Hi Hk.
  destruct (Hi (with_stdin answers w) w) as (Hr & Hf & Hp & Ht); [done|].
  rewrite (surjective_pairing (m (with_stdin answers w))). f_equal; [done|].
  apply world_eq; [done|done|by rewrite Hk|done].
Qed.

(** C7 as stated fails for the tunnels: with a user who would answer no,
    [close_tunnel] and [close_all_tunnels] terminate the ssh client and
    remove the record without asking anything. *)
Lemma close_tunnel_without_confirmation :
  let w := with_stdin ["n"] ex_live in
  let one := close_tunnel "8080" w in
  let all := close_all_tunnels w in
  files w !! tunnel_file "8080" = Some (ex_record 4242) ∧
  (one.1 = Ok tt ∧ prompted (trace one.2) = [] ∧ stdin one.2 = ["n"] ∧
   signalled (trace one.2) = [(4242, SIGTERM)] ∧
   files one.2 !! tunnel_file "8080" = None) ∧
  (all.1 = Ok tt ∧ prompted (trace all.2) = [] ∧ stdin all.2 = ["n"] ∧
   signalled (trace all.2) = [(4242, SIGTERM)] ∧
   files all.2 !! tunnel_file "8080" = None).
Proof. cbv zeta. repeat split; by vm_compute. Qed.

(** C7 (as amended). [delete_session] asks for confirmation and has no
    override flag: when the answer is not y or yes it calls the oci client
    not at all and changes neither registry nor processes, and the client
    is only ever called after a yes.  [close_tunnel] and
    [close_all_tunnels] ask for nothing: they do the same whatever the
    user would type, and consume none of it. *)
Theorem destructive_operations_confirmation (e : Env) (w : World) :
  (∀ sid answer rest,
     stdin w = answer :: rest → is_yes answer = false →
     ∃ r w', delete_session e sid w = (r, w') ∧
             oci_history (trace w') = oci_history (trace w) ∧
             quiet (with_stdin rest w) (with_stdin rest w') ∧
             (str_truthy sid = true → r = Ok tt)) ∧
  (∀ sid r w',
     delete_session e sid w = (r, w') →
     oci_history (trace w') ≠ oci_history (trace w) →
     ∃ answer rest, stdin w = answer :: rest ∧ is_yes answer = true) ∧
  (∀ port answers,
     close_tunnel port (with_stdin answers w) =
     ((close_tunnel port w).1, with_stdin answers (close_tunnel port w).2)) ∧
  (∀ answers,
     close_all_tunnels (with_stdin answers w) =
     ((close_all_tunnels w).1, with_stdin answers (close_all_tunnels w).2)).
Proof.
  repeat split.
  - intros sid answer rest Hin Hno.
    destruct (delete_session e sid w) as [r w'] eqn:H.
    exists r, w'. split; [done|].
    unfold delete_session in H. run; world_simpl; unfold is_yes in Hno;
      repeat match goal with
             | Hb : negb _ = true |- _ => apply negb_true_iff in Hb
             | Hb : negb _ = false |- _ => apply negb_false_iff in Hb
             end;
      try (match goal with
           | H2 : stdin w = ?a :: ?l |- _ =>
               rewrite Hin in H2; injection H2 as <- <-
           end;
           match goal with
           | Hy : bool_decide _ = true |- _ => rewrite Hno in Hy; discriminate Hy
           end);
      unfold quiet; world_simpl;
      repeat split; try done; try (intros; congruence).
  - intros sid r w' H Hcall.
    unfold delete_session in H. run; world_simpl; try done.
    all: eexists _, _; (split; [eassumption|]); unfold is_yes;
      by match goal with Hb : negb _ = false |- _ => apply negb_false_iff in Hb end.
  - intros port answers. apply ignores_stdin_run.
    + apply stdin_ignores_close_tunnel.
    + apply close_tunnel_keeps_stdin.
  - intros answers. apply ignores_stdin_run.
    + apply stdin_ignores_close_all_tunnels.
    + apply close_all_tunnels_keeps_stdin.
Qed.

Lemma destructive_operations_confirmation_witness :
  let w := with_stdin ["n"] ex_live in
  (∃ r w', delete_session ex_env_delete_once "ocid1.session.s1" w = (r, w') ∧
           oci_history (trace w') = oci_history (trace w) ∧ r = Ok tt) ∧
  close_tunnel "8080" (with_stdin ["yes"] w) =
    ((close_tunnel "8080" w).1, with_stdin ["yes"] (close_tunnel "8080" w).2).
Proof.
  intros w.
  destruct (destructive_operations_confirmation ex_env_delete_once w)
    as (Hdeclined & _ & Hclose & _).
  split.
  - destruct (Hdeclined "ocid1.session.s1" "n" []) as (r & w' & Hrun & Hh & _ & Hr);
      [by vm_compute..|].
    exists r, w'. split; [done|]. split; [done|]. by apply Hr.
  - apply Hclose.
Defined.

(* ===================================================================== *)
(** ** More on the registry: one file per port *)
(* ===================================================================== *)

Lemma append_length s t :
  String.length (s +:+ t) = (String.length s + String.length t)%nat.
Proof.
  induction s as [|c s IH]; [done|].
  change (S (String.length (s +:+ t)) = S (String.length s + String.length t)).
  by rewrite IH.
Qed.

Lemma append_inj_r s1 s2 t : s1 +:+ t = s2 +:+ t → s1 = s2.
Proof.
  revert s2. induction s1 as [|c s1 IH]; intros [|c2 s2] H.
  - done.
  - exfalso. apply (f_equal String.length) in H.
    rewrite (append_length (String c2 s2)) in H.
    change (String.length t = (S (String.length s2) + String.length t)%nat) in H. lia.
  - exfalso. apply (f_equal String.length) in H.
    rewrite (append_length (String c s1)) in H.
    change ((S (String.length s1) + String.length t)%nat = String.length t) in H. lia.
  - injection H as -> H. f_equal. by apply IH.
Qed.

Lemma tunnel_file_inj p q : tunnel_file p = tunnel_file q → p = q.
Proof.
  unfold tunnel_file. intros H.
  change ("tunnel-" +:+ p +:+ ".json") with ("tunnel-" +:+ (p +:+ ".json")) in H.
  apply (inj (String.app "tunnel-")) in H. by apply append_inj_r in H.
Qed.

(** X1. The registry is keyed by local port: different ports have
    different record files, and neither [start_tunnel] nor [close_tunnel]
    on one port changes the record of another port, however they end. *)
Theorem port_operations_are_local
    (e : Env) (sid : Json) (lp th tp : string) (key : option string)
    (bg : bool) (w : World) (other : string) :
  other ≠ lp →
  tunnel_file other ≠ tunnel_file lp ∧
  files (start_tunnel e sid lp th tp key bg w).2 !! tunnel_file other =
    files w !! tunnel_file other ∧
  files (close_tunnel lp w).2 !! tunnel_file other =
    files w !! tunnel_file other.
Proof.
  intros Hne.
  assert (Hf : tunnel_file other ≠ tunnel_file lp)
    by (intros H; by apply tunnel_file_inj in H).
  split; [done|]. split.
  - destruct (start_tunnel e sid lp th tp key bg w) as [r w'] eqn:H.
    cbn [snd]. apply start_tunnel_registers in H as [-> | (d & -> & _)]; [done|].
    by rewrite lookup_insert_ne.
  - destruct (close_tunnel lp w) as [r w'] eqn:H.
    cbn [snd]. unfold close_tunnel, load_tunnel_info in H.
    run; world_simpl; try done.
    all: by rewrite lookup_delete_ne.
Qed.

Lemma port_operations_are_local_witness :
  files (start_tunnel (ex_env "ACTIVE" 5151) (JStr "ocid1.session.s2")
           "9090" "10.0.1.9" "3306" None true ex_live).2 !! tunnel_file "8080" =
    Some (ex_record 4242) ∧
  files (close_tunnel "9090" ex_live).2 !! tunnel_file "8080" =
    Some (ex_record 4242).
Proof.
  assert (Hne : "8080" ≠ "9090") by done.
  destruct (port_operations_are_local (ex_env "ACTIVE" 5151)
              (JStr "ocid1.session.s2") "9090" "10.0.1.9" "3306" None true
              ex_live "8080" Hne) as (_ & Hs & Hc).
  split; [rewrite Hs | rewrite Hc]; by vm_compute.
Defined.

(** What [close_tunnel] does, by whether the port has a record. *)
Lemma close_tunnel_gone (port : string) (w : World) :
  (files w !! tunnel_file port = None →
     ∃ w', close_tunnel port w = (Ok tt, w') ∧
           files w' = files w ∧ procs w' = procs w ∧
           signalled (trace w') = signalled (trace w)) ∧
  (∀ d, files w !! tunnel_file port = Some d →
     ∃ w', close_tunnel port w = (Ok tt, w') ∧
           files w' = delete (tunnel_file port) (files w) ∧
           procs w' = procs w ∧
           if responds w (pid d)
           then signalled (trace w') = signalled (trace w) ++ [(pid d, SIGTERM)]
           else signalled (trace w') = signalled (trace w) ∧
                ∃ errno,
                  trace w' = trace w ++
                    [ELog Warn [Lit "Process may already be dead: ";
                                Exc (OSError errno)]]).
Proof.
  split; [intros Hf | intros d Hf];
    destruct (close_tunnel port w) as [r w'] eqn:H;
    unfold close_tunnel, load_tunnel_info in H; run; world_simpl;
    try match goal with
        | Hb : bool_decide _ = _ |- _ =>
            first [ apply bool_decide_eq_true_1 in Hb
                  | apply bool_decide_eq_false_1 in Hb ]
        end;
    try (rewrite Hf in *; simplify_eq);
    try (exfalso; eauto; fail);
    try (eexists; split; [reflexivity|]; world_simpl; probe_cases;
         repeat split; (done || by eexists)).
Qed.

(** X2. Closing a port twice: after [close_tunnel] the record of the port
    is gone, and a second [close_tunnel] on it returns normally, signals
    nobody and leaves the registry as the first call left it. *)
Theorem close_tunnel_twice (port : string) (w : World) :
  let w1 := (close_tunnel port w).2 in
  let again := close_tunnel port w1 in
  files w1 !! tunnel_file port = None ∧
  again.1 = Ok tt ∧
  files again.2 = files w1 ∧
  signalled (trace again.2) = signalled (trace w1).
Proof.
  cbv zeta.
  assert (Hgone : files (close_tunnel port w).2 !! tunnel_file port = None).
  { destruct (files w !! tunnel_file port) as [d|] eqn:Hd.
    - destruct (proj2 (close_tunnel_gone port w) d Hd) as (w' & Hrun & Hf & _).
      rewrite Hrun. cbn [snd]. rewrite Hf. apply lookup_delete_eq.
    - destruct (proj1 (close_tunnel_gone port w) Hd) as (w' & Hrun & Hf & _).
      rewrite Hrun. cbn [snd]. by rewrite Hf. }
  split; [done|].
  destruct (proj1 (close_tunnel_gone port (close_tunnel port w).2) Hgone)
    as (w2 & Hrun & Hf & _ & Hs).
  rewrite Hrun. by cbn [fst snd].
Qed.

(* ===================================================================== *)
(** ** More on the registry: closing everything, listing again *)
(* ===================================================================== *)

Lemma close_one_spec name d w :
  files w !! name = Some d →
  close_one name w =
  (Ok tt,
   with_files (delete name (files w))
     (if responds w (pid d)
      then with_trace
             ((trace w ++ [ESignal (pid d) SIGTERM]) ++
              [ELog Success [Lit "Closed tunnel on port "; Val (JStr (local_port d))]])
             w
      else w)).
Proof.
  intros Hf. unfold close_one, read_json, try_except.
  rewrite bind_eq, Hf, bind_eq, bind_eq, os_kill_spec.
  destruct (responds w (pid d)); cbn; unfold unlink; cbn; by rewrite Hf.
Qed.

Lemma close_loop names :
  ∀ w, NoDup names → (∀ n, n ∈ names → is_Some (files w !! n)) →
  ∃ w',
    for_each names close_one w = (Ok tt, w') ∧
    procs w' = procs w ∧ stdin w' = stdin w ∧
    spawned (trace w') = spawned (trace w) ∧
    signalled (trace w') = signalled (trace w) ++ reached_pids w names ∧
    files w' = filter (λ nd, nd.1 ∉ names) (files w).
Proof.
  induction names as [|n names IH]; intros w Hnd Hin.
  - exists w. cbn. rewrite app_nil_r. repeat split; try done.
    symmetry. apply map_filter_id. intros ? ? _. apply not_elem_of_nil.
  - apply NoDup_cons in Hnd as [Hn Hnd].
    destruct (Hin n) as [d Hd]; [left|].
    cbn [for_each]. rewrite bind_eq, (close_one_spec _ _ _ Hd).
    match goal with |- context [for_each names close_one ?w1] =>
      destruct (IH w1 Hnd) as (w' & Hrun & Hp & Hs & Hsp & Hsg & Hf) end.
    { intros m Hm. cbn. rewrite lookup_delete_ne; [apply Hin; by right|].
      by intros ->. }
    exists w'. split; [done|].
    assert (Hre : ∀ w1 : World, procs w1 = procs w →
              files w1 = delete n (files w) →
              reached_pids w1 names = reached_pids w names).
    { intros w1 Hp1 Hf1. unfold reached_pids, responds. rewrite Hp1, Hf1.
      apply omap_ext_in. intros m Hm.
      rewrite lookup_delete_ne; [done|]. by intros ->. }
    split; [by rewrite Hp; destruct (responds w (pid d))|].
    split; [by rewrite Hs; destruct (responds w (pid d))|].
    split.
    { rewrite Hsp. destruct (responds w (pid d)); [|done]. cbn.
      by rewrite !spawned_snoc, !app_nil_r. }
    split.
    { rewrite Hsg, Hre by (by destruct (responds w (pid d))).
      unfold reached_pids at 2. cbn. rewrite Hd.
      destruct (responds w (pid d)); [|done]. cbn.
      rewrite !signalled_snoc, app_nil_r. by rewrite <- app_assoc. }
    rewrite Hf. cbn [files with_files].
    apply map_eq. intros k. apply option_eq. intros x.
    rewrite !map_lookup_filter_Some. cbn.
    destruct (decide (k = n)) as [->|Hne].
    + rewrite lookup_delete_eq. split; [by intros [[=] _]|].
      intros [_ Hnot]. exfalso. apply Hnot. by left.
    + rewrite lookup_delete_ne by done. rewrite not_elem_of_cons. tauto.
Qed.

Lemma close_all_tunnels_unfold w :
  close_all_tunnels w =
  match tunnel_names w with
  | [] => log_info (txt "No tunnels to close") w
  | _ => for_each (tunnel_names w) close_one w
  end.
Proof.
  unfold close_all_tunnels, ensure_tunnel_dir, glob_tunnels, tunnel_names.
  rewrite bind_eq. cbn [ret]. rewrite bind_eq. by destruct (filter _ _).
Qed.

(** X3. [close_all_tunnels] always returns normally, whatever the signals
    do: it removes every record file [tunnel-*.json] and no other file,
    and delivers [SIGTERM] to exactly the recorded pids that respond, in
    the order of the listing; a pid that cannot be signalled does not stop
    the loop. *)
Theorem close_all_tunnels_sweeps (w : World) :
  ∃ w',
    close_all_tunnels w = (Ok tt, w') ∧
    files w' = filter (λ nd, glob_match nd.1 = false) (files w) ∧
    procs w' = procs w ∧
    signalled (trace w') = signalled (trace w) ++ reached_pids w (tunnel_names w) ∧
    tunnel_names w' = [].
Proof.
  rewrite close_all_tunnels_unfold.
  assert (Hnames : ∀ n, n ∈ tunnel_names w ↔
                        glob_match n = true ∧ is_Some (files w !! n))
    by apply glob_names_spec.
  assert (Hnd : NoDup (tunnel_names w)).
  { apply NoDup_filter, NoDup_fst_map_to_list. }
  assert (Hfilter :
    filter (λ nd : string * TunnelData, nd.1 ∉ tunnel_names w) (files w) =
    filter (λ nd, glob_match nd.1 = false) (files w)).
  { apply map_filter_ext. intros k x Hk. cbn. rewrite Hnames.
    destruct (glob_match k); split; try done.
    - intros Hno. exfalso. apply Hno. eauto.
    - intros _ [[=] _]. }
  assert (Hempty : ∀ w' : World,
    files w' = filter (λ nd, glob_match nd.1 = false) (files w) →
    tunnel_names w' = []).
  { intros w' Hf. apply elem_of_nil_inv. intros n Hn.
    apply glob_names_spec in Hn as [Hg [d Hd]].
    rewrite Hf in Hd. apply map_lookup_filter_Some in Hd as [_ Hd].
    cbn in Hd. congruence. }
  destruct (tunnel_names w) as [|n0 names0] eqn:Hl.
  - eexists. split; [reflexivity|]. cbn. rewrite signalled_snoc, !app_nil_r.
    assert (Hid : files w = filter (λ nd, glob_match nd.1 = false) (files w)).
    { rewrite <- Hfilter. symmetry. apply map_filter_id.
      intros ? ? _. apply not_elem_of_nil. }
    repeat split; done || by apply Hempty.
  - rewrite <- Hl in *. clear Hl n0 names0.
    destruct (close_loop (tunnel_names w) w Hnd)
      as (w' & Hrun & Hp & _ & _ & Hsg & Hf).
    { intros n Hn. apply Hnames in Hn. tauto. }
    exists w'. rewrite Hfilter in Hf. repeat split; done || by apply Hempty.
Qed.

(** X4. [list_tunnels] restores the invariant of the registry: after it,
    every tunnel record left belongs to a pid that responds to the probe,
    and listing again at once removes no further file. *)
Theorem list_tunnels_restores_invariant (w : World) :
  let w1 := (list_tunnels w).2 in
  (∀ name d, files w1 !! name = Some d → glob_match name = true →
             responds w1 (pid d) = true) ∧
  files (list_tunnels w1).2 = files w1.
Proof.
  cbv zeta.
  destruct (list_tunnels_run w) as (w1 & evs & Hrun & _ & Hp & Hf & _).
  rewrite Hrun. cbn [snd].
  assert (Hresp : ∀ p, responds w1 p = responds w p)
    by (intros p; unfold responds; by rewrite Hp).
  assert (Hinv : ∀ name d, files w1 !! name = Some d → glob_match name = true →
                           responds w1 (pid d) = true).
  { intros name d Hd Hg. rewrite Hf in Hd.
    apply map_lookup_filter_Some in Hd as [_ Hd]. rewrite Hresp. by apply Hd. }
  split; [done|].
  destruct (list_tunnels_run w1) as (w2 & evs2 & Hrun2 & _ & _ & Hf2 & _).
  rewrite Hrun2. cbn [snd]. rewrite Hf2.
  apply map_filter_id. intros name d Hd Hg. by apply (Hinv name).
Qed.

Lemma list_tunnels_restores_invariant_witness :
  responds (list_tunnels ex_reused).2 4242 = true ∧
  files (list_tunnels (list_tunnels ex_stale).2).2 = files (list_tunnels ex_stale).2.
Proof.
  split.
  - apply (proj1 (list_tunnels_restores_invariant ex_reused)
             (tunnel_file "8080") (ex_record 4242)); by vm_compute.
  - apply (proj2 (list_tunnels_restores_invariant ex_stale)).
Defined.

(* ===================================================================== *)
(** ** Registering, then listing or closing *)
(* ===================================================================== *)

Lemma start_tunnel_registered e sid lp th tp key w child w1 :
  start_tunnel e sid lp th tp key true w = (Ok (Some child), w1) →
  ∃ ep,
    files w1 = <[tunnel_file lp :=
                  {| pid := child; session_id := sid; local_port := lp;
                     target_host := th; target_port := tp;
                     bastion_endpoint := ep |}]> (files w) ∧
    responds w1 child = true ∧
    signalled (trace w1) = signalled (trace w).
Proof.
  intros H. destruct (start_tunnel_effect _ _ _ _ _ _ _ _ _ _ H)
    as (_ & Hsg & [(_ & _ & _ & Hno) | (c & now & ep & _ & Hp & _ & _ & Hr)]).
  - by destruct (Hno child).
  - destruct Hr as [[[= <-] Hf] | [[=] _]]. exists ep.
    split; [done|]. split; [|done].
    unfold responds. by rewrite Hp, lookup_insert_eq.
Qed.

(** X5. A tunnel that [start_tunnel] has just registered is reported by
    the next [list_tunnels]: its line is printed with the pid that was
    returned, and its record stays in the registry. *)
Theorem start_tunnel_then_list
    (e : Env) (sid : Json) (lp th tp : string) (key : option string)
    (w w1 : World) (child : Z) :
  start_tunnel e sid lp th tp key true w = (Ok (Some child), w1) →
  ∃ w2 evs d,
    list_tunnels w1 = (Ok tt, w2) ∧ trace w2 = trace w1 ++ evs ∧
    files w2 !! tunnel_file lp = Some d ∧
    pid d = child ∧ local_port d = lp ∧ target_host d = th ∧ target_port d = tp ∧
    tunnel_line d "RUNNING" ∈ printed evs.
Proof.
  intros H. destruct (start_tunnel_registered _ _ _ _ _ _ _ _ _ H)
    as (ep & Hf & Hr & _).
  destruct (list_tunnels_run w1) as (w2 & evs & Hrun & Htr & _ & Hf2 & Hpr & _).
  eexists w2, evs, _. split; [done|]. split; [done|].
  assert (Hd : files w1 !! tunnel_file lp =
               Some {| pid := child; session_id := sid; local_port := lp;
                       target_host := th; target_port := tp;
                       bastion_endpoint := ep |})
    by (rewrite Hf; apply lookup_insert_eq).
  split.
  { rewrite Hf2. apply map_lookup_filter_Some. split; [exact Hd|]. by intros _. }
  repeat split. rewrite Hpr.
  apply (live_lines_iff w1 (tunnel_file lp)); [done| |done].
  apply glob_match_tunnel_file.
Qed.

Lemma start_tunnel_then_list_witness :
  ∃ w2 evs d,
    list_tunnels ex_registered = (Ok tt, w2) ∧
    pid d = 4242 ∧ local_port d = "8080" ∧
    tunnel_line d "RUNNING" ∈ printed evs.
Proof.
  unfold ex_registered.
  set (run := start_tunnel (ex_env "ACTIVE" 4242) (JStr "ocid1.session.s1")
                "8080" "10.0.1.5" "5432" None true ex_empty).
  assert (Hr : run.1 = Ok (Some 4242)) by (by vm_compute).
  destruct (start_tunnel_then_list (ex_env "ACTIVE" 4242) (JStr "ocid1.session.s1")
              "8080" "10.0.1.5" "5432" None ex_empty run.2 4242)
    as (w2 & evs & d & Hrun & _ & _ & Hp & Hl & _ & _ & Hin).
  { rewrite <- Hr. apply surjective_pairing. }
  exists w2, evs, d. repeat split; assumption.
Defined.

(** X6. Closing a tunnel right after [start_tunnel] registered it delivers
    [SIGTERM] to the process that was spawned and leaves the registry
    without a record for the port, the other records being as they were
    before the tunnel was started. *)
Theorem start_tunnel_then_close
    (e : Env) (sid : Json) (lp th tp : string) (key : option string)
    (w w1 : World) (child : Z) :
  start_tunnel e sid lp th tp key true w = (Ok (Some child), w1) →
  ∃ w2,
    close_tunnel lp w1 = (Ok tt, w2) ∧
    files w2 = delete (tunnel_file lp) (files w) ∧
    signalled (trace w2) = signalled (trace w) ++ [(child, SIGTERM)].
Proof.
  intros H. destruct (start_tunnel_registered _ _ _ _ _ _ _ _ _ H)
    as (ep & Hf & Hr & Hsg).
  destruct (proj2 (close_tunnel_gone lp w1) _
              (eq_trans (f_equal (.!! tunnel_file lp) Hf) (lookup_insert_eq _ _ _)))
    as (w2 & Hrun & Hf2 & _ & Hk).
  exists w2. split; [done|]. cbn [pid] in Hk. rewrite Hr in Hk.
  split; [|by rewrite Hk, Hsg].
  rewrite Hf2, Hf. apply delete_insert_eq.
Qed.

Lemma start_tunnel_then_close_witness :
  ∃ w2, close_tunnel "8080" ex_registered = (Ok tt, w2) ∧
        files w2 = delete (tunnel_file "8080") (files ex_empty) ∧
        signalled (trace w2) = signalled (trace ex_empty) ++ [(4242, SIGTERM)].
Proof.
  unfold ex_registered.
  set (run := start_tunnel (ex_env "ACTIVE" 4242) (JStr "ocid1.session.s1")
                "8080" "10.0.1.5" "5432" None true ex_empty).
  assert (Hr : run.1 = Ok (Some 4242)) by (by vm_compute).
  apply (start_tunnel_then_close (ex_env "ACTIVE" 4242) (JStr "ocid1.session.s1")
           "8080" "10.0.1.5" "5432" None ex_empty run.2 4242).
  rewrite <- Hr. apply surjective_pairing.
Defined.


(* ===================================================================== *)
(** ** More on common.py: the contract of run_oci_command *)
(* ===================================================================== *)

Lemma run_oci_command_call e args profile oj chk w r w' :
  run_oci_command e args profile oj chk w = (r, w') →
  quiet w w' ∧
  match argv_strings args with
  | None => r = Raise TypeError ∧ w' = w
  | Some strs =>
      let cmd := oci_command_line strs profile oj in
      let reply := oci_cli e (oci_history (trace w)) cmd in
      oci_history (trace w') = oci_history (trace w) ++ [cmd] ∧
      (if chk && negb (Z.eqb (returncode reply) 0)
       then r = Raise CalledProcessError
       else r = Ok (if oj then match stdout reply with
                               | OutJson j => j
                               | _ => JNull
                               end
                    else JNull))
  end.
Proof.
  intros H. split; [by apply run_oci_command_quiet in H as [? _]|].
  unfold run_oci_command in H.
  destruct (argv_strings args) as [strs|]; [|by injection H as <- <-].
  cbv zeta in *.
  change (["oci"] ++ strs ++ ["--profile"; profile] ++
          (if oj then ["--output"; "json"] else []))
    with (oci_command_line strs profile oj) in H.
  remember (oci_command_line strs profile oj) as cmd eqn:Hcmd.
  unfold bind, subprocess_run in H.
  remember (oci_cli e (oci_history (trace w)) cmd) as reply eqn:Hreply.
  destruct chk, (returncode reply =? 0)%Z, oj, (stdout reply),
    (str_truthy (stderr reply));
    cbn in H; injection H as <- <-; world_simpl; done.
Qed.

(** X7. The contract of [run_oci_command].  An argument that is not a
    string raises [TypeError] before the client is run.  Otherwise the
    client is run exactly once, as [oci <args> --profile <profile>] with
    [--output json] appended when JSON is asked for.  With [check] a
    non-zero exit raises [CalledProcessError]; without it nothing is
    raised.  What is returned is the parsed output when JSON was asked for
    and the output parses, and [None] in every other case.  No file, no
    process and no terminal input is touched. *)
Theorem run_oci_command_contract
    (e : Env) (args : list Json) (profile : string) (oj chk : bool)
    (w : World) :
  let run := run_oci_command e args profile oj chk w in
  quiet w run.2 ∧
  match argv_strings args with
  | None => run.1 = Raise TypeError ∧ run.2 = w
  | Some strs =>
      let cmd := oci_command_line strs profile oj in
      let reply := oci_cli e (oci_history (trace w)) cmd in
      oci_history (trace run.2) = oci_history (trace w) ++ [cmd] ∧
      (if chk && negb (Z.eqb (returncode reply) 0)
       then run.1 = Raise CalledProcessError
       else run.1 = Ok (if oj then match stdout reply with
                                   | OutJson j => j
                                   | _ => JNull
                                   end
                        else JNull))
  end.
Proof.
  cbv zeta. apply run_oci_command_call. apply surjective_pairing.
Qed.


(* ===================================================================== *)
(** ** More on the launcher: what start_tunnel asks the service *)
(* ===================================================================== *)

Lemma argv_strings_cons s rest strs :
  argv_strings (JStr s :: rest) = Some strs →
  ∃ strs', strs = s :: strs' ∧ argv_strings rest = Some strs'.
Proof.
  unfold argv_strings. cbn. intros H.
  destruct (mapM _ rest) as [strs'|]; [|done]. injection H as <-. eauto.
Qed.

Lemma run_oci_command_verb e a b verb rest profile oj chk w r w' :
  run_oci_command e (JStr a :: JStr b :: JStr verb :: rest) profile oj chk w = (r, w') →
  quiet w w' ∧
  (calls_since w w' [] ∧ r = Raise TypeError ∨
   ∃ cmd, calls_since w w' [cmd] ∧ oci_verb cmd = Some verb).
Proof.
  intros H. apply run_oci_command_call in H as [Hq Hc]. split; [done|].
  destruct (argv_strings _) as [strs|] eqn:Ha.
  - right. apply argv_strings_cons in Ha as (s1 & -> & Ha).
    apply argv_strings_cons in Ha as (s2 & -> & Ha).
    apply argv_strings_cons in Ha as (s3 & -> & Ha).
    cbv zeta in Hc. destruct Hc as [Hc _]. eexists. split; [exact Hc|done].
  - left. destruct Hc as [-> ->]. split; [|done].
    unfold calls_since. by rewrite app_nil_r.
Qed.

Lemma calls_since_refl w : calls_since w w [].
Proof. unfold calls_since. by rewrite app_nil_r. Qed.

Lemma calls_since_trans w1 w2 w3 c1 c2 :
  calls_since w1 w2 c1 → calls_since w2 w3 c2 → calls_since w1 w3 (c1 ++ c2).
Proof. unfold calls_since. intros H1 H2. by rewrite H2, H1, app_assoc. Qed.

Lemma calls_since_log w w' ev cmds :
  calls_since w w' cmds →
  match ev with EOci _ => False | _ => True end →
  calls_since w (with_trace (trace w' ++ [ev]) w') cmds.
Proof.
  unfold calls_since. intros H Hev. cbn. rewrite oci_history_snoc, H.
  destruct ev; try done; by rewrite app_nil_r.
Qed.

(** Turn each recorded call of the oci client into what it did to the
    history of commands. *)
Ltac use_calls :=
  repeat match goal with
         | E : run_oci_command _ (JStr _ :: JStr _ :: JStr _ :: _) _ _ _ _ = _ |- _ =>
             apply run_oci_command_verb in E;
             destruct E as [(?&?&?&?&?) [[? ?] | (? & ? & ?)]]
         end.

Lemma start_tunnel_calls e sid lp th tp key bg w r w' :
  start_tunnel e sid lp th tp key bg w = (r, w') →
  ∃ cmds, calls_since w w' cmds ∧ (List.length cmds ≤ 2)%nat ∧ Forall is_get cmds.
Proof.
  unfold start_tunnel. intros H. run; use_calls; simplify_eq.
  all: repeat match goal with
         | H1 : calls_since ?a ?b _, H2 : calls_since ?b ?c _ |- _ =>
             pose proof (calls_since_trans _ _ _ _ _ H1 H2); clear H1 H2
         end.
  all: unfold calls_since in *; world_simpl.
  all: try solve [eexists; (split; [eassumption|]); cbn; (split; [lia|]);
                  repeat constructor; done].
  exists []. rewrite app_nil_r. repeat split; [done|cbn; lia|constructor].
Qed.

(** X8. [start_tunnel] only looks things up at the service: it runs at
    most two oci commands and each of them is a [get]; it never creates or
    deletes a session. *)
Theorem start_tunnel_only_gets
    (e : Env) (sid : Json) (lp th tp : string) (key : option string)
    (bg : bool) (w : World) :
  ∃ cmds,
    calls_since w (start_tunnel e sid lp th tp key bg w).2 cmds ∧
    (List.length cmds ≤ 2)%nat ∧ Forall is_get cmds.
Proof.
  destruct (start_tunnel e sid lp th tp key bg w) as [r w'] eqn:H.
  by apply start_tunnel_calls in H.
Qed.


Lemma start_tunnel_none e sid lp th tp key bg w w' :
  start_tunnel e sid lp th tp key bg w = (Ok None, w') →
  lookup_failure_logged w'.
Proof.
  unfold start_tunnel, lookup_failure_logged. intros H. run; world_simpl.
  all: eexists _, _; split; [reflexivity|]; tauto.
Qed.

(** X9. [start_tunnel] returns [None] only when one of its two lookups
    gave no data: the last thing it did is to log which one, and it has
    spawned no process and written no record. *)
Theorem start_tunnel_none_is_logged
    (e : Env) (sid : Json) (lp th tp : string) (key : option string)
    (bg : bool) (w w' : World) :
  start_tunnel e sid lp th tp key bg w = (Ok None, w') →
  lookup_failure_logged w' ∧
  files w' = files w ∧ procs w' = procs w ∧
  spawned (trace w') = spawned (trace w).
Proof.
  intros H. split; [by apply start_tunnel_none in H|].
  destruct (start_tunnel_effect _ _ _ _ _ _ _ _ _ _ H)
    as (_ & _ & [(Hf & Hp & Hs & _) | (c & now & ep & _ & _ & _ & _ & Hr)]).
  - done.
  - by destruct Hr as [[[=] _] | [[=] _]].
Qed.

Lemma start_tunnel_none_is_logged_witness :
  let w' := (start_tunnel ex_env_silent (JStr "ocid1.session.s1")
               "8080" "10.0.1.5" "5432" None true ex_empty).2 in
  lookup_failure_logged w' ∧
  files w' = files ex_empty ∧ procs w' = procs ex_empty ∧
  spawned (trace w') = spawned (trace ex_empty).
Proof.
  cbv zeta.
  set (run := start_tunnel ex_env_silent (JStr "ocid1.session.s1")
                "8080" "10.0.1.5" "5432" None true ex_empty).
  assert (Hr : run.1 = Ok None) by (by vm_compute).
  apply (start_tunnel_none_is_logged ex_env_silent (JStr "ocid1.session.s1")
           "8080" "10.0.1.5" "5432" None true ex_empty run.2).
  rewrite <- Hr. apply surjective_pairing.
Defined.

(* ===================================================================== *)
(** ** More on the launcher: a registry that cannot be written, and the
       foreground mode *)
(* ===================================================================== *)

(** X10. When the record file of the port cannot be created,
    [start_tunnel] in the background never returns a pid and never changes
    the registry; and if it got as far as spawning the ssh client, it ends
    with the error of the failed write while the client it spawned keeps
    running, without a record: neither [list_tunnels] nor [close_tunnel]
    will find it. *)
Theorem start_tunnel_unwritable_registry
    (e : Env) (sid : Json) (lp th tp : string) (key : option string)
    (w w' : World) (r : Res (option Z)) :
  fs_create_ok e (tunnel_file lp) = false →
  start_tunnel e sid lp th tp key true w = (r, w') →
  files w' = files w ∧
  (∀ child, r ≠ Ok (Some child)) ∧
  (spawned (trace w') = spawned (trace w) ∧ procs w' = procs w
   ∨ ∃ child, r = Raise (OSError EACCES) ∧
              spawned (trace w') = spawned (trace w) ++ [child] ∧
              responds w' child = true).
Proof.
  intros Hro H. unfold start_tunnel in H.
  run; use_quiet; world_simpl.
  all: try (split; [congruence|]; split; [done|]; left; split; congruence).
  all: cbn [local_port] in *; try congruence.
  split; [by etrans|]. split; [done|]. right. eexists. split; [done|].
  split; [by f_equal; etrans|]. unfold responds. cbn. by rewrite lookup_insert_eq.
Qed.

Lemma start_tunnel_unwritable_registry_witness :
  let run := start_tunnel ex_env_readonly (JStr "ocid1.session.s1")
               "8080" "10.0.1.5" "5432" None true ex_empty in
  run.1 = Raise (OSError EACCES) ∧
  files run.2 = files ex_empty ∧
  spawned (trace run.2) = [4242] ∧ responds run.2 4242 = true.
Proof.
  cbv zeta.
  set (run := start_tunnel ex_env_readonly (JStr "ocid1.session.s1")
                "8080" "10.0.1.5" "5432" None true ex_empty).
  assert (Hro : fs_create_ok ex_env_readonly (tunnel_file "8080") = false)
    by reflexivity.
  destruct (start_tunnel_unwritable_registry ex_env_readonly
              (JStr "ocid1.session.s1") "8080" "10.0.1.5" "5432" None
              ex_empty run.2 run.1 Hro (surjective_pairing run))
    as (Hf & _ & _).
  split; [by vm_compute|]. split; [exact Hf|]. split; by vm_compute.
Defined.

Lemma run_oci_command_raises e args profile oj chk w x w' :
  run_oci_command e args profile oj chk w = (Raise x, w') →
  x = CalledProcessError ∨ x = TypeError.
Proof. unfold run_oci_command. intros H. run; tauto. Qed.

Lemma start_tunnel_raises e sid lp th tp key bg w x w' :
  start_tunnel e sid lp th tp key bg w = (Raise x, w') →
  ∀ code, x ≠ SystemExit code.
Proof.
  unfold start_tunnel. intros H code. run; pure_exn; try done.
  all: match goal with
       | E : run_oci_command _ _ _ _ _ _ = (Raise _, _) |- _ =>
           by destruct (run_oci_command_raises _ _ _ _ _ _ _ _ E) as [-> | ->]
       end.
Qed.

(** X11. In the foreground [start_tunnel] spawns nothing, writes no
    record and never returns a pid.  It hands the process over to the ssh
    client ([os.execvp]) with the command line of the tunnel; it returns
    [None] only after a lookup that gave no data, and it raises when a
    lookup fails or ssh cannot be started. *)
Theorem start_tunnel_foreground
    (e : Env) (sid : Json) (lp th tp : string) (key : option string)
    (w w' : World) (r : Res (option Z)) :
  start_tunnel e sid lp th tp key false w = (r, w') →
  files w' = files w ∧ procs w' = procs w ∧
  spawned (trace w') = spawned (trace w) ∧
  match r with
  | Replaced =>
      can_exec e "ssh" = true ∧
      ∃ t ep, trace w' = t ++
        [EExec (ssh_cmd sid lp th tp ep (expanduser e (str_or key (SSH_KEY e))))]
  | Ok None => lookup_failure_logged w'
  | Ok (Some _) => False
  | Raise x => ∀ code, x ≠ SystemExit code
  end.
Proof.
  intros H.
  pose proof (start_tunnel_none e sid lp th tp key false w) as Hnone.
  pose proof (start_tunnel_raises e sid lp th tp key false w) as Hraise.
  destruct (start_tunnel_effect _ _ _ _ _ _ _ _ _ _ H)
    as (_ & _ & [(Hf & Hp & Hs & Hr) | (c & now & ep & [=] & _)]).
  repeat (split; [done|]).
  destruct r as [[child|]|x|]; [by apply (Hr child)|by apply Hnone|
                                by eapply Hraise|].
  clear Hnone Hraise Hr. unfold start_tunnel in H. run.
  all: try (split; [done|]; by eexists _, _).
  all: match goal with
       | E : run_oci_command _ _ _ _ _ _ = (Replaced, _) |- _ =>
           by apply run_oci_command_quiet in E as [_ ?]
       end.
Qed.

Lemma start_tunnel_foreground_witness :
  let run := start_tunnel (ex_env "ACTIVE" 4242) (JStr "ocid1.session.s1")
               "8080" "10.0.1.5" "5432" None false ex_empty in
  run.1 = Replaced ∧ files run.2 = files ex_empty ∧
  procs run.2 = procs ex_empty ∧ spawned (trace run.2) = [].
Proof.
  cbv zeta.
  set (run := start_tunnel (ex_env "ACTIVE" 4242) (JStr "ocid1.session.s1")
                "8080" "10.0.1.5" "5432" None false ex_empty).
  destruct (start_tunnel_foreground (ex_env "ACTIVE" 4242)
              (JStr "ocid1.session.s1") "8080" "10.0.1.5" "5432" None
              ex_empty run.2 run.1 (surjective_pairing run))
    as (Hf & Hp & Hs & _).
  split; [by vm_compute|]. by repeat split.
Defined.

(* ===================================================================== *)
(** ** More on the orchestrator: what the helpers run and leave behind *)
(* ===================================================================== *)


Ltac commands_simpl :=
  world_simpl; rewrite ?commands_run_snoc, ?app_nil_r in *.








Lemma calls_since_events w w' cmds evs :
  calls_since w w' cmds → oci_history evs = [] →
  calls_since w (with_trace (trace w' ++ evs) w') cmds.
Proof.
  unfold calls_since. intros H Hev. cbn [trace with_trace].
  unfold oci_history in *. by rewrite omap_app, Hev, app_nil_r.
Qed.

Lemma create_port_forward_session_calls e th tp name bid w r w' :
  create_port_forward_session e th tp name bid w = (r, w') →
  ∃ cmds, calls_since w w' cmds ∧ (List.length cmds ≤ 1)%nat ∧
          Forall is_create_or_get cmds.
Proof.
  unfold create_port_forward_session. intros H. run; use_calls; simplify_eq.
  all: unfold calls_since in *; world_simpl.
  all: try solve [eexists; (split; [eassumption|]); cbn; (split; [lia|]);
                  apply Forall_cons_2; [by left|apply Forall_nil_2]].
  all: exists []; rewrite app_nil_r; (split; [done|]);
    split; [cbn; lia|apply Forall_nil_2].
Qed.

Lemma is_get_create_or_get cmds : Forall is_get cmds → Forall is_create_or_get cmds.
Proof.
  intros H. eapply Forall_impl; [exact H|]. intros cmd Hc. by right.
Qed.

Lemma leaves_tunnel_open_refl_log w ev :
  match ev with EOci _ | ESignal _ _ => False | _ => True end →
  leaves_tunnel_open w (with_trace (trace w ++ [ev]) w).
Proof.
  intros Hev. split.
  - cbn. rewrite signalled_snoc. destruct ev; try done; by rewrite app_nil_r.
  - exists []. split; [|split; [cbn; lia|apply Forall_nil_2]].
    unfold calls_since. cbn. rewrite oci_history_snoc, app_nil_r.
    destruct ev; try done; by rewrite app_nil_r.
Qed.

(** The session is created, then the tunnel is started: together at most
    three oci commands, a creation and two lookups, and no signal. *)
Lemma create_then_start_leaves e host port name bid sid lport w w1 r w2 :
  create_port_forward_session e host port name bid w = (Ok sid, w1) →
  start_tunnel e sid lport host port None true w1 = (r, w2) →
  leaves_tunnel_open w w2.
Proof.
  intros Hc Hs.
  destruct (create_port_forward_session_calls _ _ _ _ _ _ _ _ Hc)
    as (c1 & Hc1 & Hl1 & Hv1).
  apply create_port_forward_session_quiet in Hc as [(_ & _ & _ & _ & Hsg1) _].
  destruct (start_tunnel_calls _ _ _ _ _ _ _ _ _ _ Hs) as (c2 & Hc2 & Hl2 & Hv2).
  apply start_tunnel_effect in Hs as (_ & Hsg2 & _).
  split; [congruence|]. exists (c1 ++ c2).
  split; [by eapply calls_since_trans|].
  split; [rewrite length_app; lia|].
  apply Forall_app. split; [done|by apply is_get_create_or_get].
Qed.

Lemma leaves_tunnel_open_events w w' evs :
  leaves_tunnel_open w w' → oci_history evs = [] → signalled evs = [] →
  leaves_tunnel_open w (with_trace (trace w' ++ evs) w').
Proof.
  intros [Hsg (cmds & Hc & Hl & Hv)] Ho Hs. split.
  - cbn [trace with_trace]. unfold signalled in *.
    by rewrite omap_app, Hs, app_nil_r.
  - exists cmds. split; [by apply calls_since_events|done].
Qed.

Lemma create_only_leaves e host port name bid w r w1 :
  create_port_forward_session e host port name bid w = (r, w1) →
  leaves_tunnel_open w w1.
Proof.
  intros Hc.
  destruct (create_port_forward_session_calls _ _ _ _ _ _ _ _ Hc)
    as (c1 & Hc1 & Hl1 & Hv1).
  apply create_port_forward_session_quiet in Hc as [(_ & _ & _ & _ & Hsg1) _].
  split; [done|]. exists c1. split; [done|]. split; [lia|done].
Qed.

Lemma connect_via_tunnel_leaves e host port name lp bid ann client w r w' :
  connect_via_tunnel e host port name lp bid ann client w = (r, w') →
  leaves_tunnel_open w w'.
Proof.
  unfold connect_via_tunnel. cbv zeta. intros H. rewrite bind_eq in H.
  destruct (create_port_forward_session e host port name bid w)
    as [[sid|x|] w1] eqn:Hc;
    [|injection H as <- <-; by eapply create_only_leaves..].
  destruct (truthy sid); cbn [negb] in H;
    [|injection H as <- <-; by eapply create_only_leaves].
  rewrite bind_eq in H.
  destruct (start_tunnel e sid (str_or lp port) host port None true w1)
    as [[child|x|] w2] eqn:Hs;
    pose proof (create_then_start_leaves _ _ _ _ _ _ _ _ _ _ _ Hc Hs) as Hl;
    [|by injection H as <- <-..].
  destruct (no_pid child); [by injection H as <- <-|].
  injection H as <- <-.
  apply (leaves_tunnel_open_events w w2
           [ESleep 2; ELog Info ann; ESystem (client (str_or lp port))]) in Hl;
    [|done..].
  destruct Hl as [Hsg (cmds & Hcs & Hl & Hv)]. split.
  - cbn in *. by rewrite <- !app_assoc.
  - exists cmds. split; [|done]. unfold calls_since in *. cbn in *.
    by rewrite <- !app_assoc.
Qed.

Lemma quick_tunnel_leaves e th tp lp bid w r w' :
  quick_tunnel e th tp lp bid w = (r, w') → leaves_tunnel_open w w'.
Proof.
  unfold quick_tunnel. intros H.
  destruct (negb _ || negb _) in H;
    [run; by apply leaves_tunnel_open_refl_log|].
  cbv zeta in H. rewrite bind_eq in H.
  destruct (create_port_forward_session e th tp "quick-tunnel" bid w)
    as [[sid|x|] w1] eqn:Hc;
    [|injection H as <- <-; by eapply create_only_leaves..].
  destruct (truthy sid); cbn [negb] in H;
    [|injection H as <- <-; by eapply create_only_leaves].
  rewrite bind_eq in H.
  destruct (start_tunnel e sid (str_or lp tp) th tp None true w1)
    as [[child|x|] w2] eqn:Hs;
    pose proof (create_then_start_leaves _ _ _ _ _ _ _ _ _ _ _ Hc Hs) as Hl;
    by injection H as <- <-.
Qed.

(** X13. The helpers clean nothing up.  [quick_tunnel] and each
    [connect_*] helper, however they end, have run at most three oci
    commands, each a [create-port-forwarding] or a [get] and none a
    [delete], and have signalled no process: the session they created is
    not deleted and the ssh client they started is not terminated, not even
    after the database client has exited. *)
Theorem helpers_leave_tunnel_open (e : Env) (lp bid : option string) (w : World) :
  (∀ th tp, leaves_tunnel_open w (quick_tunnel e th tp lp bid w).2) ∧
  (∀ host port db user,
     leaves_tunnel_open w (connect_postgres e host port db user lp bid w).2) ∧
  (∀ host port db user,
     leaves_tunnel_open w (connect_mysql e host port db user lp bid w).2) ∧
  (∀ host port, leaves_tunnel_open w (connect_redis e host port lp bid w).2) ∧
  (∀ host port db,
     leaves_tunnel_open w (connect_mongodb e host port db lp bid w).2).
Proof.
  split; [|split; [|split; [|split]]]; intros.
  - destruct (quick_tunnel e th tp lp bid w) as [r w'] eqn:H.
    by apply quick_tunnel_leaves in H.
  - destruct (connect_postgres e host port db user lp bid w) as [r w'] eqn:H.
    unfold connect_postgres in H.
    destruct (negb _) in H; [run; by apply leaves_tunnel_open_refl_log|].
    by apply connect_via_tunnel_leaves in H.
  - destruct (connect_mysql e host port db user lp bid w) as [r w'] eqn:H.
    unfold connect_mysql in H.
    destruct (negb _) in H; [run; by apply leaves_tunnel_open_refl_log|].
    by apply connect_via_tunnel_leaves in H.
  - destruct (connect_redis e host port lp bid w) as [r w'] eqn:H.
    unfold connect_redis in H.
    destruct (negb _) in H; [run; by apply leaves_tunnel_open_refl_log|].
    by apply connect_via_tunnel_leaves in H.
  - destruct (connect_mongodb e host port db lp bid w) as [r w'] eqn:H.
    unfold connect_mongodb in H.
    destruct (negb _) in H; [run; by apply leaves_tunnel_open_refl_log|].
    by apply connect_via_tunnel_leaves in H.
Qed.

(* ===================================================================== *)
(** ** More on the session client: the confirmation prompt *)
(* ===================================================================== *)

Lemma lower_ascii_inv (c : ascii) :
  (lower_ascii c = "y"%char → c = "y"%char ∨ c = "Y"%char) ∧
  (lower_ascii c = "e"%char → c = "e"%char ∨ c = "E"%char) ∧
  (lower_ascii c = "s"%char → c = "s"%char ∨ c = "S"%char).
Proof.
  destruct c as [[] [] [] [] [] [] [] []]; vm_compute;
    repeat split; intros H; try discriminate H; tauto.
Qed.

Lemma lower_empty s : lower s = "" → s = "".
Proof. by destruct s. Qed.

Lemma lower_yes (answer : string) :
  lower answer ∈ ["y"; "yes"] ↔ answer ∈ yes_spellings.
Proof.
  split.
  - intros H. apply elem_of_cons in H as [H|H];
      [|apply list_elem_of_singleton in H].
    + destruct answer as [|c1 s1]; [done|]. cbn in H. injection H as H1 H2.
      apply lower_empty in H2 as ->.
      apply (proj1 (lower_ascii_inv c1)) in H1 as [-> | ->];
        unfold yes_spellings; set_solver.
    + destruct answer as [|c1 [|c2 [|c3 s3]]]; try done. cbn in H.
      injection H as H1 H2 H3 H4. apply lower_empty in H4 as ->.
      apply (proj1 (lower_ascii_inv c1)) in H1.
      apply (proj1 (proj2 (lower_ascii_inv c2))) in H2.
      apply (proj2 (proj2 (lower_ascii_inv c3))) in H3.
      destruct H1 as [-> | ->], H2 as [-> | ->], H3 as [-> | ->];
        unfold yes_spellings; set_solver.
  - unfold yes_spellings. intros H.
    repeat (apply elem_of_cons in H as [-> | H]; [by vm_compute; set_solver|]).
    by apply elem_of_nil in H.
Qed.

(** X14. [confirm_action] shows the message followed by [ (y/N): ], reads
    exactly one line and takes it for a yes exactly when it is [y] or
    [yes] in any letter case: the ten spellings listed.  Nothing is
    stripped, so an answer with a blank or any other character around it is
    a no. *)
Theorem confirm_action_accepts
    (message answer : string) (rest : list string) (w : World) :
  stdin w = answer :: rest →
  confirm_action message w =
    (Ok (bool_decide (answer ∈ yes_spellings)),
     with_stdin rest
       (with_trace (trace w ++ [EPrompt [Val (JStr message); Lit " (y/N): "]]) w)).
Proof.
  intros Hin. unfold confirm_action. rewrite bind_eq. unfold input.
  rewrite Hin. unfold ret. do 2 f_equal.
  apply bool_decide_ext, lower_yes.
Qed.

Lemma confirm_action_accepts_witness :
  (confirm_action "Continue?" (with_stdin ["YeS"; "n"] ex_empty)).1 = Ok true ∧
  (confirm_action "Continue?" (with_stdin ["y "] ex_empty)).1 = Ok false ∧
  stdin (confirm_action "Continue?" (with_stdin ["YeS"; "n"] ex_empty)).2 = ["n"].
Proof.
  rewrite (confirm_action_accepts "Continue?" "YeS" ["n"]) by reflexivity.
  rewrite (confirm_action_accepts "Continue?" "y " []) by reflexivity.
  by vm_compute.
Defined.

Lemma prompted_snoc t ev :
  prompted (t ++ [ev]) = prompted t ++ match ev with EPrompt m => [m] | _ => [] end.
Proof. unfold prompted. rewrite omap_app. destruct ev; reflexivity. Qed.

Lemma run_oci_command_prompted e args profile oj chk w r w' :
  run_oci_command e args profile oj chk w = (r, w') →
  prompted (trace w') = prompted (trace w).
Proof.
  unfold run_oci_command. intros H. run; world_simpl;
    rewrite ?prompted_snoc, ?app_nil_r; done.
Qed.

(** X15. [delete_session] of a session id that is not empty prompts
    exactly once, with [Continue? (y/N): ], and consumes exactly one line
    of input, whatever the answer and however the deletion goes.  When the
    input is at its end the prompt is still shown, the call ends with
    [EOFError], and the oci client is not run.  With an empty session id
    it exits with status 1 before it prompts or reads anything. *)
Theorem delete_session_asks_once (e : Env) (sid : string) (w : World) :
  let run := delete_session e sid w in
  (str_truthy sid = true →
     prompted (trace run.2) = prompted (trace w) ++ [delete_prompt] ∧
     stdin run.2 = tail (stdin w) ∧
     files run.2 = files w ∧ procs run.2 = procs w ∧
     (stdin w = [] →
        run.1 = Raise EOFError ∧
        oci_history (trace run.2) = oci_history (trace w))) ∧
  (str_truthy sid = false →
     run = (Raise (SystemExit 1),
            with_trace (trace w ++ [ELog Error (txt "Session OCID required.")]) w)).
Proof.
  cbv zeta. split; intros Hsid.
  - destruct (delete_session e sid w) as [r w'] eqn:H.
    unfold delete_session in H. rewrite Hsid in H. cbn [negb] in H.
    run.
    all: repeat match goal with
           | E : run_oci_command _ _ _ _ _ _ = _ |- _ =>
               pose proof (run_oci_command_prompted _ _ _ _ _ _ _ _ E);
               apply run_oci_command_quiet in E;
               destruct E as [(?&?&?&?&?) ?]
           end.
    all: world_simpl; cbn [fst snd] in *; world_simpl;
      rewrite ?prompted_snoc, ?app_nil_r in *.
    all: repeat split; try done; try congruence.
    all: try (intros ->; done).
    all: match goal with
         | Hl : stdin ?v = _ |- _ = tail (stdin ?v) =>
             rewrite Hl; cbn [tail]; congruence
         end.
  - unfold delete_session. by rewrite Hsid.
Qed.

Lemma delete_session_asks_once_witness :
  let run := delete_session ex_env_delete_once "ocid1.session.s1" ex_empty in
  run.1 = Raise EOFError ∧
  prompted (trace run.2) = [delete_prompt] ∧
  oci_history (trace run.2) = [] ∧
  (delete_session ex_env_delete_once "" ex_empty).1 = Raise (SystemExit 1).
Proof.
  cbv zeta.
  destruct (delete_session_asks_once ex_env_delete_once "ocid1.session.s1" ex_empty)
    as [Hask _].
  destruct (Hask eq_refl) as (Hp & _ & _ & _ & Heof).
  destruct (Heof eq_refl) as [Hr Hh].
  destruct (delete_session_asks_once ex_env_delete_once "" ex_empty) as [_ Hnone].
  rewrite (Hnone eq_refl). by repeat split.
Defined.

(* ===================================================================== *)
(** ** More on the session client: filling in the ssh command *)
(* ===================================================================== *)

Lemma plain_cons c s : plain (String c s) → c ≠ "<"%char ∧ plain s.
Proof.
  unfold plain.
  change (str_contains "<" (String c s))
    with (String.prefix "<" (String c s) || str_contains "<" s).
  change (String.prefix "<" (String c s))
    with (match ascii_dec "<" c with
          | left _ => String.prefix "" s
          | right _ => false
          end).
  destruct (ascii_dec "<" c) as [<-|Hne].
  - by destruct s.
  - cbn [orb]. intros H. split; [congruence|done].
Qed.

Lemma plain_app a b : plain a → plain b → plain (a +:+ b).
Proof.
  intros Ha Hb. induction a as [|c a IH]; [done|].
  apply plain_cons in Ha as [Hc Ha]. unfold plain in *.
  change (str_contains "<" (String c a +:+ b))
    with (String.prefix "<" (String c (a +:+ b)) || str_contains "<" (a +:+ b)).
  rewrite (IH Ha), orb_false_r.
  change (String.prefix "<" (String c (a +:+ b)))
    with (match ascii_dec "<" c with
          | left _ => String.prefix "" (a +:+ b)
          | right _ => false
          end).
  by destruct (ascii_dec "<" c).
Qed.

Lemma replace_from_other old new c s :
  String.prefix old (String c s) = false →
  replace_from old new 0 (String c s) = String c (replace_from old new 0 s).
Proof. intros H. cbn [replace_from]. by rewrite H. Qed.

Lemma replace_from_plain_app t new a b :
  plain a →
  replace_from (String "<" t) new 0 (a +:+ b) =
  a +:+ replace_from (String "<" t) new 0 b.
Proof.
  intros Ha. induction a as [|c a IH]; [done|].
  apply plain_cons in Ha as [Hc Ha].
  change (String c a +:+ b) with (String c (a +:+ b)).
  rewrite replace_from_other, (IH Ha); [done|].
  change (String.prefix (String "<" t) (String c (a +:+ b)))
    with (match ascii_dec "<" c with
          | left _ => String.prefix t (a +:+ b)
          | right _ => false
          end).
  by destruct (ascii_dec "<" c).
Qed.

Lemma append_empty_r s : s +:+ "" = s.
Proof.
  induction s as [|c s IH]; [done|].
  change (String c s +:+ "") with (String c (s +:+ "")). by rewrite IH.
Qed.

Lemma replace_from_plain t new a :
  plain a → replace_from (String "<" t) new 0 a = a.
Proof.
  intros Ha. rewrite <- (append_empty_r a) at 1.
  by rewrite replace_from_plain_app, append_empty_r.
Qed.

Lemma replace_from_skip old new t b :
  replace_from old new (String.length t) (t +:+ b) = replace_from old new 0 b.
Proof.
  induction t as [|c t IH]; [done|].
  change (String c t +:+ b) with (String c (t +:+ b)).
  change (String.length (String c t)) with (S (String.length t)).
  exact IH.
Qed.

Lemma prefix_append old b : String.prefix old (old +:+ b) = true.
Proof.
  induction old as [|c old IH]; [by destruct b|].
  change (String.prefix (String c old) (String c old +:+ b))
    with (match ascii_dec c c with
          | left _ => String.prefix old (old +:+ b)
          | right _ => false
          end).
  by destruct (ascii_dec c c).
Qed.

Lemma replace_from_here c t new b :
  replace_from (String c t) new 0 (String c t +:+ b) =
  new +:+ replace_from (String c t) new 0 b.
Proof.
  change (String c t +:+ b) with (String c (t +:+ b)) at 1.
  cbn [replace_from].
  change (String c (t +:+ b)) with (String c t +:+ b).
  rewrite prefix_append.
  change (String.length (String c t) - 1)%nat with (String.length t - 0)%nat.
  by rewrite Nat.sub_0_r, replace_from_skip.
Qed.

(** Each replacement passes over the other placeholder. *)
Lemma replace_port_over_key new b :
  replace_from "<localPort>" new 0 ("<privateKey>" +:+ b) =
  "<privateKey>" +:+ replace_from "<localPort>" new 0 b.
Proof.
  change ("<privateKey>" +:+ b) with (String "<" ("privateKey>" +:+ b)).
  rewrite replace_from_other by (by vm_compute).
  rewrite replace_from_plain_app by (by vm_compute). done.
Qed.

Lemma replace_key_over_port new b :
  replace_from "<privateKey>" new 0 ("<localPort>" +:+ b) =
  "<localPort>" +:+ replace_from "<privateKey>" new 0 b.
Proof.
  change ("<localPort>" +:+ b) with (String "<" ("localPort>" +:+ b)).
  rewrite replace_from_other by (by vm_compute).
  rewrite replace_from_plain_app by (by vm_compute). done.
Qed.

(** The two replacements of [connect_session], on a template with one
    placeholder each. *)
Lemma fill_template key_first pre mid post key port :
  plain pre → plain mid → plain post → plain port →
  str_replace "<privateKey>" key
    (str_replace "<localPort>" port (ssh_template key_first pre mid post)) =
  ssh_filled key_first pre mid post key port.
Proof.
  intros Hpre Hmid Hpost Hport. unfold str_replace, ssh_template, ssh_filled.
  destruct key_first.
  - rewrite (replace_from_plain_app _ port pre) by done.
    rewrite replace_port_over_key.
    rewrite (replace_from_plain_app _ port mid) by done.
    rewrite (replace_from_here "<" "localPort>").
    rewrite (replace_from_plain _ port post) by done.
    rewrite (replace_from_plain_app _ key pre) by done.
    rewrite (replace_from_here "<" "privateKey>").
    rewrite (replace_from_plain _ key) by (by repeat apply plain_app).
    done.
  - rewrite (replace_from_plain_app _ port pre) by done.
    rewrite (replace_from_here "<" "localPort>").
    rewrite (replace_from_plain_app _ port mid) by done.
    rewrite replace_port_over_key.
    rewrite (replace_from_plain _ port post) by done.
    rewrite (replace_from_plain_app _ key pre) by done.
    rewrite (replace_from_plain_app _ key port) by done.
    rewrite (replace_from_plain_app _ key mid) by done.
    rewrite (replace_from_here "<" "privateKey>").
    rewrite (replace_from_plain _ key post) by done.
    done.
Qed.

Lemma ssh_template_truthy key_first pre mid post :
  truthy (JStr (ssh_template key_first pre mid post)) = true.
Proof.
  unfold ssh_template.
  destruct key_first, pre; done.
Qed.

Lemma has_data_getitem result session :
  py_getitem result "data" = inr session → has_data result = inr true.
Proof.
  unfold py_getitem, has_data, py_in. destruct result; try done.
  destruct (dict_get "data" kv) as [v|] eqn:Hd; [|done]. intros _.
  assert (Ht : truthy (JObj kv) = true) by (by destruct kv).
  rewrite Ht. by rewrite bool_decide_eq_true_2.
Qed.

(** X16. [connect_session] fills in the ssh command of the service.  For
    an ACTIVE session whose command template has one [<privateKey>] and one
    [<localPort>] placeholder, in either order, and no other [<], it runs
    the template with the expanded key path and the local port in their
    places, once, after showing it; nothing else is started and the
    registry is not touched. *)
Theorem connect_session_fills_template
    (e : Env) (sid lp key : string) (w w1 : World)
    (result session meta : Json)
    (key_first : bool) (pre mid post : string) :
  str_truthy sid = true → str_truthy lp = true →
  run_oci_command e
    [JStr "bastion"; JStr "session"; JStr "get"; JStr "--session-id"; JStr sid]
    (OCI_PROFILE e) true true w = (Ok result, w1) →
  py_getitem result "data" = inr session →
  py_getitem session "lifecycle-state" = inr (JStr "ACTIVE") →
  py_get session "ssh-metadata" (JObj []) = inr meta →
  py_get meta "command" (JStr "") =
    inr (JStr (ssh_template key_first pre mid post)) →
  plain pre → plain mid → plain post → plain lp →
  let command := JStr (ssh_filled key_first pre mid post (expanduser e key) lp) in
  ∃ w', connect_session e sid lp key w = (Ok tt, w') ∧
        trace w' = trace w1 ++ [ELog Info (txt "Connecting to session...");
                                EPrint [Lit "Running: "; Val command];
                                ESystem [Val command]] ∧
        files w' = files w ∧ procs w' = procs w ∧
        spawned (trace w') = spawned (trace w).
Proof.
  intros Hsid Hlp Hrun Hdata Hstate Hmeta Hcmd Hpre Hmid Hpost Hplain.
  cbv zeta. unfold connect_session. rewrite Hsid, Hlp. cbn [negb orb].
  rewrite bind_eq, Hrun.
  rewrite bind_eq, lift_eq, (has_data_getitem _ _ Hdata). cbn [negb].
  rewrite bind_eq, lift_eq, Hdata.
  rewrite bind_eq, lift_eq, Hstate.
  change (is_str "ACTIVE" (JStr "ACTIVE")) with true. cbn [negb].
  rewrite bind_eq, lift_eq, Hmeta.
  rewrite bind_eq, lift_eq, Hcmd.
  rewrite ssh_template_truthy.
  unfold py_replace. cbn [lift bind ret log_info emit print os_system].
  rewrite fill_template by done.
  apply run_oci_command_quiet in Hrun as [(Hf & Hp & _ & Hs & _) _].
  eexists. split; [reflexivity|]. cbn [trace files procs with_trace].
  rewrite <- !app_assoc. repeat split; try done.
  unfold spawned in *. rewrite omap_app. cbn [omap list_omap].
  by rewrite app_nil_r.
Qed.

Lemma connect_session_fills_template_witness :
  ∃ w', connect_session ex_env_template "ocid1.session.s1" "8080" "~/.ssh/id_rsa"
          ex_empty = (Ok tt, w') ∧
        commands_run (trace w') =
          [[Val (JStr ("ssh -i /home/ops~/.ssh/id_rsa -N -L " +:+
                       "8080:10.0.1.5:5432 -p 22 s1@host.bastion.example"))]].
Proof.
  set (get := run_oci_command ex_env_template
                [JStr "bastion"; JStr "session"; JStr "get"; JStr "--session-id";
                 JStr "ocid1.session.s1"] "DEFAULT" true true ex_empty).
  set (session := JObj
      [("id", JStr "ocid1.session.s1");
       ("lifecycle-state", JStr "ACTIVE");
       ("ssh-metadata", JObj
          [("command",
            JStr (ssh_template true "ssh -i " " -N -L "
                    ":10.0.1.5:5432 -p 22 s1@host.bastion.example"))])]).
  destruct (connect_session_fills_template ex_env_template
              "ocid1.session.s1" "8080" "~/.ssh/id_rsa" ex_empty get.2
              (JObj [("data", session)]) session
              (JObj [("command",
                 JStr (ssh_template true "ssh -i " " -N -L "
                         ":10.0.1.5:5432 -p 22 s1@host.bastion.example"))])
              true "ssh -i " " -N -L "
              ":10.0.1.5:5432 -p 22 s1@host.bastion.example")
    as (w' & Hrun & Htr & _); try (by vm_compute).
  exists w'. split; [exact Hrun|]. rewrite Htr. by vm_compute.
Defined.

Lemma py_get_exn j k d x : py_get j k d = inl x → x = AttributeError.
Proof. unfold py_get. destruct j; congruence. Qed.

Lemma py_replace_exn j old new x : py_replace j old new = inl x → x = AttributeError.
Proof. unfold py_replace. destruct j; congruence. Qed.

Lemma connect_session_frame e sid lp key w r w' :
  connect_session e sid lp key w = (r, w') →
  files w' = files w ∧ procs w' = procs w ∧
  spawned (trace w') = spawned (trace w) ∧ r ≠ Replaced.
Proof.
  unfold connect_session. intros H. run; use_quiet; world_simpl.
  all: repeat split; (congruence || done).
Qed.

Lemma connect_session_calls e sid lp key w r w' :
  connect_session e sid lp key w = (r, w') →
  ∃ cmds, calls_since w w' cmds ∧ (List.length cmds ≤ 1)%nat ∧ Forall is_get cmds.
Proof.
  unfold connect_session. intros H. run; use_calls; simplify_eq.
  all: unfold calls_since in *; world_simpl.
  all: try solve [eexists; (split; [eassumption|]); cbn; (split; [lia|]);
                  apply Forall_cons_2; [done|apply Forall_nil_2]].
  all: exists []; rewrite app_nil_r; (split; [done|]);
    split; [cbn; lia|apply Forall_nil_2].
Qed.

Lemma connect_session_ends e sid lp key w r w' :
  connect_session e sid lp key w = (r, w') →
  match r with
  | Ok _ =>
      (∃ cmd, trace w' = removelast (trace w') ++ [ESystem cmd] ∧
              commands_run (trace w') = commands_run (trace w) ++ [cmd]) ∨
      (trace w' = removelast (trace w') ++
                  [ELog Error (txt "No SSH command available for this session")] ∧
       commands_run (trace w') = commands_run (trace w))
  | Raise x =>
      commands_run (trace w') = commands_run (trace w) ∧
      exit_status r = Some 1
  | Replaced => False
  end.
Proof.
  unfold connect_session. intros H. run.
  all: repeat match goal with
         | E : py_get _ _ _ = inl _ |- _ => apply py_get_exn in E; subst
         | E : py_replace _ _ _ = inl _ |- _ => apply py_replace_exn in E; subst
         end; pure_exn.
  all: try match goal with
         | E : run_oci_command _ _ _ _ _ _ = (Replaced, _) |- _ =>
             by apply run_oci_command_quiet in E as [_ ?]
         end.
  all: try match goal with
         | E : run_oci_command _ _ _ _ _ _ = (Raise _, _) |- _ =>
             destruct (run_oci_command_raises _ _ _ _ _ _ _ _ E) as [-> | ->]
         end.
  all: try match goal with
         | E : run_oci_command _ _ _ _ _ _ = _ |- _ =>
             apply run_oci_command_commands in E
         end.
  all: commands_simpl; rewrite ?removelast_last.
  all: try (split; [congruence|done]).
  all: first [ left; eexists; split; [reflexivity|congruence]
             | right; split; [reflexivity|congruence] ].
Qed.

(** X17. How [connect_session] can end.  It runs the oci client at most
    once, for a [get], and touches neither registry nor processes.  When it
    returns normally it has either run one command with [os.system], as its
    last act, or it has run none and its last act is to log that the
    session has no ssh command: a missing command is only logged, the exit
    status is 0.  When it raises it has run no command and the exit status
    is 1. *)
Theorem connect_session_outcomes
    (e : Env) (sid lp key : string) (w w' : World) (r : Res unit) :
  connect_session e sid lp key w = (r, w') →
  files w' = files w ∧ procs w' = procs w ∧
  spawned (trace w') = spawned (trace w) ∧
  (∃ cmds, calls_since w w' cmds ∧ (List.length cmds ≤ 1)%nat ∧ Forall is_get cmds) ∧
  match r with
  | Ok _ =>
      (∃ cmd, trace w' = removelast (trace w') ++ [ESystem cmd] ∧
              commands_run (trace w') = commands_run (trace w) ++ [cmd]) ∨
      (trace w' = removelast (trace w') ++
                  [ELog Error (txt "No SSH command available for this session")] ∧
       commands_run (trace w') = commands_run (trace w))
  | Raise x =>
      commands_run (trace w') = commands_run (trace w) ∧
      exit_status r = Some 1
  | Replaced => False
  end.
Proof.
  intros H.
  destruct (connect_session_frame _ _ _ _ _ _ _ H) as (Hf & Hp & Hs & _).
  repeat (split; [done|]).
  split; [by eapply connect_session_calls|by eapply connect_session_ends].
Qed.

Lemma connect_session_outcomes_witness :
  let run := connect_session (ex_env "ACTIVE" 4242) "ocid1.session.s1" "8080"
               "~/.ssh/id_rsa" ex_empty in
  run.1 = Ok tt ∧ exit_status run.1 = Some 0 ∧
  commands_run (trace run.2) = [] ∧
  trace run.2 = removelast (trace run.2) ++
    [ELog Error (txt "No SSH command available for this session")].
Proof.
  cbv zeta.
  set (run := connect_session (ex_env "ACTIVE" 4242) "ocid1.session.s1" "8080"
                "~/.ssh/id_rsa" ex_empty).
  assert (Hr : run.1 = Ok tt) by (by vm_compute).
  destruct (connect_session_outcomes (ex_env "ACTIVE" 4242) "ocid1.session.s1"
              "8080" "~/.ssh/id_rsa" ex_empty run.2 run.1 (surjective_pairing run))
    as (_ & _ & _ & _ & Hend).
  rewrite Hr in Hend. split; [done|]. split; [by rewrite Hr|].
  split; [by vm_compute|].
  destruct Hend as [(cmd & _ & Hc)|[Ht _]]; [|exact Ht].
  exfalso. vm_compute in Hc. by destruct cmd.
Defined.

(* ===================================================================== *)
(** ** The listing commands *)
(* ===================================================================== *)

Import Discovery.

Lemma run_listing_unfold e C l arg :
  run_listing e C l arg =
  let s := listing_scope e C l arg in
  if negb (str_truthy s) then
    bind (log_error (txt (match l with
                          | Sessions => "Bastion OCID required."
                          | _ => "Compartment OCID required."
                          end))) (fun _ => sys_exit 1)
  else
    bind (log_info (txt (listing_announce l))) (fun _ =>
    bind (run_oci_command e
            (JStr <$> (match l with
                       | Autonomous => ["db"; "autonomous-database"; "list"; "--compartment-id"]
                       | MySQL => ["mysql"; "db-system"; "list"; "--compartment-id"]
                       | Postgres => ["psql"; "db-system"; "list"; "--compartment-id"]
                       | NoSQL => ["nosql"; "table"; "list"; "--compartment-id"]
                       | Bastions => ["bastion"; "bastion"; "list"; "--compartment-id"]
                       | Sessions => ["bastion"; "session"; "list"; "--bastion-id"]
                       end ++ [s; "--all"]))
            (OCI_PROFILE e) true true) (fun result =>
    print_rows result (listing_fields l))).
Proof. by destruct l. Qed.

Lemma argv_strings_JStr strs : argv_strings (JStr <$> strs) = Some strs.
Proof.
  unfold argv_strings. induction strs as [|s strs IH]; [done|].
  cbn. cbn in IH. by rewrite IH.
Qed.

Lemma listing_command_line e C l arg :
  oci_command_line
    (match l with
     | Autonomous => ["db"; "autonomous-database"; "list"; "--compartment-id"]
     | MySQL => ["mysql"; "db-system"; "list"; "--compartment-id"]
     | Postgres => ["psql"; "db-system"; "list"; "--compartment-id"]
     | NoSQL => ["nosql"; "table"; "list"; "--compartment-id"]
     | Bastions => ["bastion"; "bastion"; "list"; "--compartment-id"]
     | Sessions => ["bastion"; "session"; "list"; "--bastion-id"]
     end ++ [listing_scope e C l arg; "--all"]) (OCI_PROFILE e) true =
  listing_command e l (listing_scope e C l arg).
Proof. by destruct l. Qed.

Lemma with_trace_id w : with_trace (trace w) w = w.
Proof. by destruct w. Qed.

Lemma print_loop fields items :
  ∀ w,
    for_each items (fun item => bind (lift (row item fields)) print) w =
    (match (printed_rows fields items).2 with
     | None => Ok tt
     | Some x => Raise x
     end,
     with_trace (trace w ++ (EPrint <$> (printed_rows fields items).1)) w).
Proof.
  induction items as [|item items IH]; intros w.
  - cbn. by rewrite app_nil_r, with_trace_id.
  - cbn [for_each printed_rows]. rewrite bind_eq, bind_eq, lift_eq.
    destruct (row item fields) as [x|line]; cbn [fst snd].
    + by rewrite app_nil_r, with_trace_id.
    + unfold print at 1. cbn [emit]. rewrite IH.
      cbn [trace with_trace fmap list_fmap]. by rewrite <- app_assoc.
Qed.

Lemma print_rows_run result fields w r w' :
  print_rows result fields w = (r, w') →
  r ≠ Replaced ∧ ∃ lines, w' = with_trace (trace w ++ (EPrint <$> lines)) w.
Proof.
  unfold print_rows. intros H.
  assert (Hid : w = with_trace (trace w ++ (EPrint <$> [])) w)
    by (by cbn; rewrite app_nil_r, with_trace_id).
  run; try (split; [done|by exists []]).
  all: match goal with
       | E : for_each _ _ _ = _ |- _ => rewrite print_loop in E
       end; simplify_eq.
  all: split; [by destruct (printed_rows _ _).2|by eexists].
Qed.

Lemma printed_rows_good fields good lines tail :
  Forall2 (fun item line => row item fields = inr line) good lines →
  printed_rows fields (good ++ tail) =
  (lines ++ (printed_rows fields tail).1, (printed_rows fields tail).2).
Proof.
  induction 1 as [|item line good lines Hrow _ IH].
  - cbn. by destruct (printed_rows fields tail).
  - cbn [app printed_rows]. by rewrite Hrow, IH.
Qed.

Lemma events_of_prints (lines : list Text) :
  spawned (EPrint <$> lines) = [] ∧ signalled (EPrint <$> lines) = [] ∧
  oci_history (EPrint <$> lines) = [] ∧ commands_run (EPrint <$> lines) = [].
Proof. induction lines as [|l lines IH]; [done|]. cbn. exact IH. Qed.

Lemma run_oci_command_ok e strs profile w j :
  let cmd := oci_command_line strs profile true in
  let reply := oci_cli e (oci_history (trace w)) cmd in
  returncode reply = 0 → stdout reply = OutJson j →
  run_oci_command e (JStr <$> strs) profile true true w =
    (Ok j, with_trace (trace w ++ [EOci cmd]) w).
Proof.
  cbv zeta. intros Hrc Hout. unfold run_oci_command.
  rewrite argv_strings_JStr. cbv zeta.
  change (["oci"] ++ strs ++ ["--profile"; profile] ++ ["--output"; "json"])
    with (oci_command_line strs profile true).
  rewrite bind_eq. unfold subprocess_run. rewrite Hrc. cbn [Z.eqb negb andb].
  by rewrite Hout.
Qed.

(** X18. What a listing command prints.  When the oci client succeeds
    and its reply holds a list under [data], the command logs what it
    lists, runs the one [list] command and prints one row per item, in the
    order of the reply, each with the fields of its kind.  The first item
    that lacks a field ends the listing with the error of the lookup,
    after the rows before it have been printed. *)
Theorem listing_prints_rows
    (e : Env) (C : string) (l : Listing) (arg : option string) (w : World)
    (result : Json) (good tail : list Json) (lines : list Text) :
  let scope := listing_scope e C l arg in
  let cmd := listing_command e l scope in
  let reply := oci_cli e (oci_history (trace w)) cmd in
  let shown := [ELog Info (txt (listing_announce l)); EOci cmd]
               ++ (EPrint <$> lines) in
  str_truthy scope = true →
  returncode reply = 0 → stdout reply = OutJson result →
  py_getitem result "data" = inr (JArr (good ++ tail)) →
  Forall2 (fun item line => row item (listing_fields l) = inr line) good lines →
  match tail with
  | [] => run_listing e C l arg w = (Ok tt, with_trace (trace w ++ shown) w)
  | bad :: _ =>
      ∀ x, row bad (listing_fields l) = inl x →
           run_listing e C l arg w = (Raise x, with_trace (trace w ++ shown) w)
  end.
Proof.
  cbv zeta. intros Hscope Hrc Hout Hdata Hgood.
  assert (Hrun : ∀ res,
    res = match (printed_rows (listing_fields l) tail).2 with
          | None => Ok tt | Some x => Raise x end →
    (printed_rows (listing_fields l) tail).1 = [] →
    run_listing e C l arg w =
    (res, with_trace
            (trace w ++ [ELog Info (txt (listing_announce l));
                         EOci (listing_command e l (listing_scope e C l arg))]
                     ++ (EPrint <$> lines)) w)).
  { intros res -> Htail.
    rewrite run_listing_unfold. cbv zeta. rewrite Hscope. cbn [negb].
    rewrite bind_eq. unfold log_info at 1. cbn [emit]. rewrite bind_eq.
    rewrite run_oci_command_ok with (j := result);
      rewrite listing_command_line; cbn [trace with_trace];
      rewrite ?oci_history_snoc, ?app_nil_r; [|done..].
    unfold print_rows. rewrite bind_eq, lift_eq, (has_data_getitem _ _ Hdata).
    rewrite bind_eq, lift_eq, Hdata. rewrite bind_eq. cbn [py_iter lift ret].
    rewrite print_loop, (printed_rows_good _ _ _ _ Hgood). cbn [fst snd].
    rewrite Htail, app_nil_r. cbn [trace with_trace]. f_equal.
    by rewrite <- !app_assoc. }
  destruct tail as [|bad tail]; [by apply Hrun|].
  intros x Hbad. apply Hrun; cbn [printed_rows]; by rewrite Hbad.
Qed.

Lemma listing_prints_rows_witness :
  let run := run_listing ex_env_listing "ocid1.compartment.c1" MySQL None ex_empty in
  run.1 = Raise (KeyError "lifecycle-state") ∧
  printed (trace run.2) =
    [[Val (JStr "ocid1.db.a"); Lit "\t"; Val (JStr "orders"); Lit "\t";
      Val (JStr "ACTIVE")];
     [Val (JStr "ocid1.db.b"); Lit "\t"; Val (JStr "billing"); Lit "\t";
      Val (JStr "UPDATING")]].
Proof.
  cbv zeta.
  pose proof (listing_prints_rows ex_env_listing "ocid1.compartment.c1" MySQL None
                ex_empty
                (JObj [("data", JArr
                   [JObj [("id", JStr "ocid1.db.a"); ("display-name", JStr "orders");
                          ("lifecycle-state", JStr "ACTIVE")];
                    JObj [("id", JStr "ocid1.db.b"); ("display-name", JStr "billing");
                          ("lifecycle-state", JStr "UPDATING")];
                    JObj [("id", JStr "ocid1.db.c"); ("display-name", JStr "legacy")]])])
                [JObj [("id", JStr "ocid1.db.a"); ("display-name", JStr "orders");
                       ("lifecycle-state", JStr "ACTIVE")];
                 JObj [("id", JStr "ocid1.db.b"); ("display-name", JStr "billing");
                       ("lifecycle-state", JStr "UPDATING")]]
                [JObj [("id", JStr "ocid1.db.c"); ("display-name", JStr "legacy")]]
                [[Val (JStr "ocid1.db.a"); Lit "\t"; Val (JStr "orders"); Lit "\t";
                  Val (JStr "ACTIVE")];
                 [Val (JStr "ocid1.db.b"); Lit "\t"; Val (JStr "billing"); Lit "\t";
                  Val (JStr "UPDATING")]]
                eq_refl eq_refl eq_refl eq_refl) as H.
  cbv zeta in H.
  rewrite (H ltac:(repeat constructor) (KeyError "lifecycle-state") eq_refl).
  split; [done|]. by vm_compute.
Defined.

(** X19. The listing commands only read.  Each of the six changes
    neither registry nor processes, reads no input and starts nothing.
    With a compartment (or bastion) to list, from the argument or else
    from the environment, it runs exactly one oci command, the [list] of
    its kind; with none it runs nothing and exits with status 1. *)
Theorem listings_are_read_only
    (e : Env) (C : string) (l : Listing) (arg : option string) (w : World) :
  let run := run_listing e C l arg w in
  let scope := listing_scope e C l arg in
  quiet w run.2 ∧
  commands_run (trace run.2) = commands_run (trace w) ∧
  run.1 ≠ Replaced ∧
  is_list (listing_command e l scope) ∧
  if str_truthy scope
  then calls_since w run.2 [listing_command e l scope]
  else calls_since w run.2 [] ∧ run.1 = Raise (SystemExit 1).
Proof.
  cbv zeta. rewrite run_listing_unfold. cbv zeta.
  split; [|split; [|split; [|split; [by destruct l|]]]].
  all: destruct (str_truthy (listing_scope e C l arg)) eqn:Hs; cbn [negb].
  all: try (cbn; unfold quiet, calls_since; cbn;
            rewrite ?spawned_snoc, ?signalled_snoc, ?oci_history_snoc,
              ?commands_run_snoc, ?app_nil_r; done).
  all: rewrite bind_eq; unfold log_info at 1; cbn [emit]; rewrite bind_eq.
  all: match goal with
       | |- context [run_oci_command ?e0 ?a ?p ?o ?c ?w0] =>
           destruct (run_oci_command e0 a p o c w0) as [[result|x|] w1] eqn:Hc;
           pose proof (run_oci_command_commands _ _ _ _ _ _ _ _ Hc) as Hcm;
           pose proof (proj2 (run_oci_command_quiet _ _ _ _ _ _ _ _ Hc)) as Hnr;
           pose proof (run_oci_command_call _ _ _ _ _ _ _ _ Hc) as [Hq Hcall];
           rewrite argv_strings_JStr in Hcall; cbv zeta in Hcall;
           destruct Hcall as [Hh _]; rewrite listing_command_line in Hh;
           destruct Hq as (Hf & Hp & Hi & Hsp & Hsg)
       end.
  all: cbn [trace with_trace files procs stdin] in *.
  all: rewrite ?spawned_snoc, ?signalled_snoc, ?oci_history_snoc,
         ?commands_run_snoc, ?app_nil_r in *.
  all: try (destruct (print_rows result (listing_fields l) w1) as [r w'] eqn:Hpr;
            apply print_rows_run in Hpr as [Hr (lines & ->)];
            destruct (events_of_prints lines) as (Ep1 & Ep2 & Ep3 & Ep4)).
  all: cbn [fst snd]; unfold quiet, calls_since;
       cbn [trace with_trace files procs stdin].
  all: unfold spawned, signalled, oci_history, commands_run in *;
       rewrite ?omap_app, ?Ep1, ?Ep2, ?Ep3, ?Ep4, ?app_nil_r.
  all: try done.
Qed.

(* ===================================================================== *)
(** ** The command line of backend_sessions.py *)
(* ===================================================================== *)

Import Main.


(** X20. [main] checks its dependencies first.  When [oci] or [ssh] is
    not found it logs which of them are missing and exits with status 1,
    whatever the command: nothing is looked up, started, signalled or
    removed, and no help is printed. *)
Theorem main_needs_dependencies
    (e : Env) (C : string) (which : string → bool) (help : Text)
    (command : string) (args : list string) (w : World) :
  which "oci" = false ∨ which "ssh" = false →
  ∃ missing,
    missing = List.filter (fun c => negb (which c)) ["oci"; "ssh"] ∧
    missing ≠ [] ∧
    main e C which help command args w =
      (Raise (SystemExit 1),
       with_trace (trace w ++ [ELog Error [Lit "Missing required dependencies: ";
                                           Val (JStr (String.concat ", " missing))]])
         w).
Proof.
  intros H. eexists. split; [reflexivity|].
  unfold main, check_dependencies. cbn [List.filter].
  destruct (which "oci"), (which "ssh"); cbn [negb];
    try (by destruct H); by split.
Qed.

Lemma main_needs_dependencies_witness :
  main ex_env_down "" (fun c => String.eqb c "oci") [] "close-all" [] ex_live =
    (Raise (SystemExit 1),
     with_trace [ELog Error [Lit "Missing required dependencies: ";
                             Val (JStr "ssh")]] ex_live).
Proof.
  destruct (main_needs_dependencies ex_env_down "" (fun c => String.eqb c "oci")
              [] "close-all" [] ex_live (or_intror eq_refl))
    as (missing & -> & _ & ->).
  reflexivity.
Defined.






(* ===================================================================== *)
(** ** common.py: format_table *)
(* ===================================================================== *)




